(** * The client-side orchestration of the crypto analysis platform

    A shallow embedding of [src/app.tsx]: the translation helper, the
    markdown stripper, the typewriter effect, the quote-list loader and
    the per-symbol detail cycle, with the React state cells as one record
    and every asynchronous function as a tree of state updates and
    network requests.

    Conventions.
    - A JavaScript number is an exact rational ([Q]); NaN and the
      infinities are not numbers of the model, and a value that may be
      the string ['N/A'] has type [numOrNA].
    - A JavaScript string is a [string]; its characters stand for code
      units.
    - An exception is the message of the thrown error ([e.message]).
    - [console.log] and [console.error] leave no trace in the model. *)

From Stdlib Require Import String Ascii List Bool Arith ZArith QArith Qround Qabs.
From Stdlib Require Import Lia Lqa Permutation Sorted DecimalString.
From ExtLib Require Import Structures.Monad Structures.MonadExc.
Import ListNotations.
Import MonadNotation.
Local Open Scope string_scope.
Local Open Scope monad_scope.
Local Close Scope Q_scope.
Set Warnings "-register-all".

(** ** The JavaScript runtime pieces the source relies on *)

Module JS.

(** A value that is a number or the string ['N/A'] (ranks and indicators). *)
Inductive numOrNA : Type :=
| Num (q : Q)
| NA.

(** [typeof v === 'number'] *)
Definition isNumber (v : numOrNA) : bool :=
  match v with Num _ => true | NA => false end.

(** Only the empty string is falsy among strings. *)
Definition truthy (s : string) : bool := negb (String.eqb s "").

(** [a || b] where [a] is a string property that may be missing. *)
Definition orString (a : option string) (b : string) : string :=
  match a with
  | Some s => if truthy s then s else b
  | None => b
  end.

(** [a || d] where [a] is a numeric property that may be missing:
    a missing value and zero both give [d]. *)
Definition orNumber (a : option Q) (d : Q) : Q :=
  match a with
  | Some q => if Qeq_bool q 0 then d else q
  | None => d
  end.

(** [a || 'N/A'] *)
Definition orNA (a : option Q) : numOrNA :=
  match a with
  | Some q => if Qeq_bool q 0 then NA else Num q
  | None => NA
  end.

(** [a - b]: NaN ([None]) as soon as one side is ['N/A']. *)
Definition minus (a b : numOrNA) : option Q :=
  match a, b with
  | Num x, Num y => Some (x - y)%Q
  | _, _ => None
  end.

(** A natural number inside a template literal. *)
Definition showNat (n : nat) : string := NilZero.string_of_uint (Nat.to_uint n).

Definition showZ (z : Z) : string := NilZero.string_of_int (Z.to_int z).

(** *** Number.prototype.toFixed *)

Definition pow10 (digits : nat) : Z := (10 ^ Z.of_nat digits)%Z.

(** The integer [n] for which [n / 10^digits] is nearest to [|x|], the
    larger one when two are as near. *)
Definition scaled (digits : nat) (x : Q) : Z :=
  Qfloor (Qabs x * inject_Z (pow10 digits) + (1 # 2))%Q.

Definition isNegative (x : Q) : bool := negb (Qle_bool 0 x).

Fixpoint zeros (n : nat) : string :=
  match n with O => "" | S n' => String "0" (zeros n') end.

(** The fractional digits, padded with zeros on the left. *)
Definition fraction (digits : nat) (n : Z) : string :=
  let s := showZ (n mod pow10 digits) in
  zeros (digits - String.length s) ++ s.

(** [x.toFixed(digits)], below the magnitude where JavaScript switches to
    the exponent form. *)
Definition toFixed (digits : nat) (x : Q) : string :=
  let n := scaled digits x in
  (if isNegative x then "-" else "")
  ++ showZ (n / pow10 digits)
  ++ (if Nat.eqb digits 0 then "" else "." ++ fraction digits n).

(** [parseFloat(x.toFixed(digits))]: the number [toFixed] prints. *)
Definition roundTo (digits : nat) (x : Q) : Q :=
  let n := scaled digits x in
  Qred (inject_Z (if isNegative x then - n else n) / inject_Z (pow10 digits))%Q.

(** *** Array.prototype.sort

    ECMAScript makes the sort stable and reads a NaN from the comparator
    as [+0].  The model is the stable insertion sort; for a comparator
    that is a consistent ordering every conforming engine returns the
    same array.  For an inconsistent comparator the standard leaves the
    order to the engine, and nothing is proved about it here. *)

Definition SortCompare {A : Type} (comparefn : A -> A -> option Q) (x y : A) : Q :=
  match comparefn x y with
  | Some v => v
  | None => 0
  end.

Fixpoint insert {A : Type} (comparefn : A -> A -> option Q) (x : A) (l : list A) : list A :=
  match l with
  | [] => [x]
  | y :: l' =>
      if Qle_bool (SortCompare comparefn x y) 0
      then x :: y :: l'
      else y :: insert comparefn x l'
  end.

Fixpoint sort {A : Type} (comparefn : A -> A -> option Q) (l : list A) : list A :=
  match l with
  | [] => []
  | x :: l' => insert comparefn x (sort comparefn l')
  end.

(** [l.length > 0 ? l[l.length - 1] : 'N/A'] *)
Definition lastOrNA (l : list Q) : numOrNA :=
  match rev l with
  | x :: _ => Num x
  | [] => NA
  end.

(** [s.slice(0, n)] for a count [n] that is never negative. *)
Definition slice0 (n : nat) (s : string) : string := substring 0 n s.

End JS.

Import JS.

(** ** The data model (the interfaces and the state cells of [App]) *)

(** [type Language = 'en' | 'tr'] *)
Inductive Language : Type := en | tr.

Definition Language_eqb (a b : Language) : bool :=
  match a, b with
  | en, en | tr, tr => true
  | _, _ => false
  end.

Definition languageCode (l : Language) : string :=
  match l with en => "en" | tr => "tr" end.

Record NewsItem : Type := mkNewsItem {
  title : string;
  url : string
}.

Record CoinData : Type := mkCoinData {
  id : string;
  name : string;
  symbol : string;
  logo : string;
  currentPrice : Q;
  volume24h : Q;
  percentChange1h : Q;
  percentChange24h : Q;
  percentChange7d : Q;
  marketCap : Q;
  cmcRank : numOrNA
}.

Record Dataset : Type := mkDataset {
  ds_label : string;
  ds_data : list Q;
  borderColor : string;
  backgroundColor : string;
  tension : Q;
  fill : bool
}.

Record ChartData : Type := mkChartData {
  labels : list string;
  datasets : list Dataset
}.

(** The object [currentIndicators]. *)
Record Indicators : Type := mkIndicators {
  rsi : numOrNA;
  macd : numOrNA;
  macdSignal : numOrNA;
  macdHistogram : numOrNA;
  sma50 : numOrNA;
  sma200 : numOrNA;
  volume : Q
}.

(** The [useState] cells of [App].  [indicators] is [None] for the empty
    object [{}]; [chartData], [chartError], [initialDataError] and
    [newsError] are [None] for [null]. *)
Record AppState : Type := mkAppState {
  language : Language;
  coins : list CoinData;
  selected : string;
  chartData : option ChartData;
  chartLoading : bool;
  chartError : option string;
  indicators : option Indicators;
  loadingInitialData : bool;
  initialDataError : option string;
  aiSummary : string;
  translatedAiSummary : string;
  news : list NewsItem;
  newsLoading : bool;
  newsError : option string;
  displayedAiSummary : string;
  visibleCharacters : nat;
  isMobile : bool;
  showAllNews : bool;
  translatedNews : list NewsItem
}.

(** The state with one cell replaced (what a [useState] setter commits). *)

Definition put_language (v : Language) (st : AppState) : AppState :=
  mkAppState v (coins st) (selected st) (chartData st) (chartLoading st) (chartError st)
    (indicators st) (loadingInitialData st) (initialDataError st) (aiSummary st)
    (translatedAiSummary st) (news st) (newsLoading st) (newsError st)
    (displayedAiSummary st) (visibleCharacters st) (isMobile st) (showAllNews st)
    (translatedNews st).

Definition put_coins (v : list CoinData) (st : AppState) : AppState :=
  mkAppState (language st) v (selected st) (chartData st) (chartLoading st)
    (chartError st) (indicators st) (loadingInitialData st) (initialDataError st)
    (aiSummary st) (translatedAiSummary st) (news st) (newsLoading st) (newsError st)
    (displayedAiSummary st) (visibleCharacters st) (isMobile st) (showAllNews st)
    (translatedNews st).

Definition put_selected (v : string) (st : AppState) : AppState :=
  mkAppState (language st) (coins st) v (chartData st) (chartLoading st) (chartError st)
    (indicators st) (loadingInitialData st) (initialDataError st) (aiSummary st)
    (translatedAiSummary st) (news st) (newsLoading st) (newsError st)
    (displayedAiSummary st) (visibleCharacters st) (isMobile st) (showAllNews st)
    (translatedNews st).

Definition put_chartData (v : option ChartData) (st : AppState) : AppState :=
  mkAppState (language st) (coins st) (selected st) v (chartLoading st) (chartError st)
    (indicators st) (loadingInitialData st) (initialDataError st) (aiSummary st)
    (translatedAiSummary st) (news st) (newsLoading st) (newsError st)
    (displayedAiSummary st) (visibleCharacters st) (isMobile st) (showAllNews st)
    (translatedNews st).

Definition put_chartLoading (v : bool) (st : AppState) : AppState :=
  mkAppState (language st) (coins st) (selected st) (chartData st) v (chartError st)
    (indicators st) (loadingInitialData st) (initialDataError st) (aiSummary st)
    (translatedAiSummary st) (news st) (newsLoading st) (newsError st)
    (displayedAiSummary st) (visibleCharacters st) (isMobile st) (showAllNews st)
    (translatedNews st).

Definition put_chartError (v : option string) (st : AppState) : AppState :=
  mkAppState (language st) (coins st) (selected st) (chartData st) (chartLoading st) v
    (indicators st) (loadingInitialData st) (initialDataError st) (aiSummary st)
    (translatedAiSummary st) (news st) (newsLoading st) (newsError st)
    (displayedAiSummary st) (visibleCharacters st) (isMobile st) (showAllNews st)
    (translatedNews st).

Definition put_indicators (v : option Indicators) (st : AppState) : AppState :=
  mkAppState (language st) (coins st) (selected st) (chartData st) (chartLoading st)
    (chartError st) v (loadingInitialData st) (initialDataError st) (aiSummary st)
    (translatedAiSummary st) (news st) (newsLoading st) (newsError st)
    (displayedAiSummary st) (visibleCharacters st) (isMobile st) (showAllNews st)
    (translatedNews st).

Definition put_loadingInitialData (v : bool) (st : AppState) : AppState :=
  mkAppState (language st) (coins st) (selected st) (chartData st) (chartLoading st)
    (chartError st) (indicators st) v (initialDataError st) (aiSummary st)
    (translatedAiSummary st) (news st) (newsLoading st) (newsError st)
    (displayedAiSummary st) (visibleCharacters st) (isMobile st) (showAllNews st)
    (translatedNews st).

Definition put_initialDataError (v : option string) (st : AppState) : AppState :=
  mkAppState (language st) (coins st) (selected st) (chartData st) (chartLoading st)
    (chartError st) (indicators st) (loadingInitialData st) v (aiSummary st)
    (translatedAiSummary st) (news st) (newsLoading st) (newsError st)
    (displayedAiSummary st) (visibleCharacters st) (isMobile st) (showAllNews st)
    (translatedNews st).

Definition put_aiSummary (v : string) (st : AppState) : AppState :=
  mkAppState (language st) (coins st) (selected st) (chartData st) (chartLoading st)
    (chartError st) (indicators st) (loadingInitialData st) (initialDataError st) v
    (translatedAiSummary st) (news st) (newsLoading st) (newsError st)
    (displayedAiSummary st) (visibleCharacters st) (isMobile st) (showAllNews st)
    (translatedNews st).

Definition put_translatedAiSummary (v : string) (st : AppState) : AppState :=
  mkAppState (language st) (coins st) (selected st) (chartData st) (chartLoading st)
    (chartError st) (indicators st) (loadingInitialData st) (initialDataError st)
    (aiSummary st) v (news st) (newsLoading st) (newsError st) (displayedAiSummary st)
    (visibleCharacters st) (isMobile st) (showAllNews st) (translatedNews st).

Definition put_news (v : list NewsItem) (st : AppState) : AppState :=
  mkAppState (language st) (coins st) (selected st) (chartData st) (chartLoading st)
    (chartError st) (indicators st) (loadingInitialData st) (initialDataError st)
    (aiSummary st) (translatedAiSummary st) v (newsLoading st) (newsError st)
    (displayedAiSummary st) (visibleCharacters st) (isMobile st) (showAllNews st)
    (translatedNews st).

Definition put_newsLoading (v : bool) (st : AppState) : AppState :=
  mkAppState (language st) (coins st) (selected st) (chartData st) (chartLoading st)
    (chartError st) (indicators st) (loadingInitialData st) (initialDataError st)
    (aiSummary st) (translatedAiSummary st) (news st) v (newsError st)
    (displayedAiSummary st) (visibleCharacters st) (isMobile st) (showAllNews st)
    (translatedNews st).

Definition put_newsError (v : option string) (st : AppState) : AppState :=
  mkAppState (language st) (coins st) (selected st) (chartData st) (chartLoading st)
    (chartError st) (indicators st) (loadingInitialData st) (initialDataError st)
    (aiSummary st) (translatedAiSummary st) (news st) (newsLoading st) v
    (displayedAiSummary st) (visibleCharacters st) (isMobile st) (showAllNews st)
    (translatedNews st).

Definition put_displayedAiSummary (v : string) (st : AppState) : AppState :=
  mkAppState (language st) (coins st) (selected st) (chartData st) (chartLoading st)
    (chartError st) (indicators st) (loadingInitialData st) (initialDataError st)
    (aiSummary st) (translatedAiSummary st) (news st) (newsLoading st) (newsError st) v
    (visibleCharacters st) (isMobile st) (showAllNews st) (translatedNews st).

Definition put_visibleCharacters (v : nat) (st : AppState) : AppState :=
  mkAppState (language st) (coins st) (selected st) (chartData st) (chartLoading st)
    (chartError st) (indicators st) (loadingInitialData st) (initialDataError st)
    (aiSummary st) (translatedAiSummary st) (news st) (newsLoading st) (newsError st)
    (displayedAiSummary st) v (isMobile st) (showAllNews st) (translatedNews st).

Definition put_isMobile (v : bool) (st : AppState) : AppState :=
  mkAppState (language st) (coins st) (selected st) (chartData st) (chartLoading st)
    (chartError st) (indicators st) (loadingInitialData st) (initialDataError st)
    (aiSummary st) (translatedAiSummary st) (news st) (newsLoading st) (newsError st)
    (displayedAiSummary st) (visibleCharacters st) v (showAllNews st)
    (translatedNews st).

Definition put_showAllNews (v : bool) (st : AppState) : AppState :=
  mkAppState (language st) (coins st) (selected st) (chartData st) (chartLoading st)
    (chartError st) (indicators st) (loadingInitialData st) (initialDataError st)
    (aiSummary st) (translatedAiSummary st) (news st) (newsLoading st) (newsError st)
    (displayedAiSummary st) (visibleCharacters st) (isMobile st) v (translatedNews st).

Definition put_translatedNews (v : list NewsItem) (st : AppState) : AppState :=
  mkAppState (language st) (coins st) (selected st) (chartData st) (chartLoading st)
    (chartError st) (indicators st) (loadingInitialData st) (initialDataError st)
    (aiSummary st) (translatedAiSummary st) (news st) (newsLoading st) (newsError st)
    (displayedAiSummary st) (visibleCharacters st) (isMobile st) (showAllNews st) v.

(** ** The network *)

(** The body of the POST to [/api/ai/analyze-crypto]. *)
Record AnalysisBody : Type := mkAnalysisBody {
  req_symbol : string;
  req_currentPrice : Q;
  req_percentChange24h : Q;
  req_marketCap : Q;
  req_rsi : numOrNA;
  req_macd : numOrNA;
  req_sma50 : numOrNA;
  req_sma200 : numOrNA;
  req_volume : Q;
  req_news : list NewsItem
}.

(** One element of the listings array, with the properties that may be
    missing as options. *)
Record RawCoin : Type := mkRawCoin {
  raw_id : string;
  raw_name : string;
  raw_symbol : string;
  raw_logo : option string;
  raw_currentPrice : option Q;
  raw_volume24h : option Q;
  raw_percentChange1h : option Q;
  raw_percentChange24h : option Q;
  raw_percentChange7d : option Q;
  raw_marketCap : option Q;
  raw_cmcRank : option Q
}.

(** One element of the OHLCV [values], by what the code reads of it:
    [new Date(datetime).getTime()], [new Date(datetime).toLocaleDateString()]
    and [parseFloat(close)]. *)
Record Row : Type := mkRow {
  time : Z;
  localeDate : string;
  close : Q
}.

(** The OHLCV body: [None] is the JSON [null], a missing [values] is [None]. *)
Record OhlcvBody : Type := mkOhlcvBody { values : option (list Row) }.
Definition OhlcvJson : Type := option OhlcvBody.

Record AnalysisJson : Type := mkAnalysisJson { analysis : string }.
Record NewsJson : Type := mkNewsJson { newsItems : list NewsItem }.

(** The body of a non-ok response as the code reads it. *)
Record ErrorData : Type := mkErrorData {
  error : option string;
  message : option string
}.

(** A JSON value of the translation endpoint.  The code only ever turns a
    number into text, so a number is kept as the text [ToString] gives it. *)
Inductive json : Type :=
| JNull
| JBool (b : bool)
| JNum (shown : string)
| JStr (s : string)
| JArr (items : list json)
| JObj (fields : list (string * json)).

Inductive Request : Type :=
| GetListings
| GetOhlcv (sym interval : string) (outputsize : nat)
| PostAnalyze (body : AnalysisBody)
| GetNews (sym : string)
| GetTranslation (targetLang : Language) (text : string).

(** What [response.json()] resolves to, per endpoint. *)
Definition payload (r : Request) : Type :=
  match r with
  | GetListings => list RawCoin
  | GetOhlcv _ _ _ => OhlcvJson
  | PostAnalyze _ => AnalysisJson
  | GetNews _ => NewsJson
  | GetTranslation _ _ => json
  end.

(** [await response.json()]: the value, or the message of the rejection. *)
Inductive JsonResult (A : Type) : Type :=
| Parsed (a : A)
| Unreadable (msg : string).
Arguments Parsed {A} a.
Arguments Unreadable {A} msg.

(** A response.  Its one body is read as [errorData] where the code reads
    it after [!response.ok], and as [data] where it reads the payload. *)
Record Response (A : Type) : Type := mkResponse {
  ok : bool;
  status : nat;
  statusText : string;
  errorData : JsonResult ErrorData;
  data : JsonResult A
}.
Arguments mkResponse {A}.
Arguments ok {A}.
Arguments status {A}.
Arguments statusText {A}.
Arguments errorData {A}.
Arguments data {A}.

(** [await fetch(...)]: a response, or the message of the rejection. *)
Inductive FetchResult (A : Type) : Type :=
| Rejected (msg : string)
| Responded (r : Response A).
Arguments Rejected {A} msg.
Arguments Responded {A} r.

(** The network: what each request resolves to. *)
Definition Network : Type := forall r : Request, FetchResult (payload r).

(** ** Asynchronous functions

    An [async] function is a tree: it returns, throws, commits a state
    update, or suspends at a [fetch] until the network answers. *)
Inductive Proc (A : Type) : Type :=
| Ret (a : A)
| Throw (e : string)
| Update (f : AppState -> AppState) (k : Proc A)
| Fetch (r : Request) (k : FetchResult (payload r) -> Proc A).
Arguments Ret {A} a.
Arguments Throw {A} e.
Arguments Update {A} f k.
Arguments Fetch {A} r k.

Fixpoint pbind {A B : Type} (p : Proc A) (f : A -> Proc B) : Proc B :=
  match p with
  | Ret a => f a
  | Throw e => Throw e
  | Update u k => Update u (pbind k f)
  | Fetch r k => Fetch r (fun x => pbind (k x) f)
  end.

(** [try { p } catch (e) { h e }] *)
Fixpoint try_catch {A : Type} (p : Proc A) (h : string -> Proc A) : Proc A :=
  match p with
  | Ret a => Ret a
  | Throw e => h e
  | Update u k => Update u (try_catch k h)
  | Fetch r k => Fetch r (fun x => try_catch (k x) h)
  end.

(** [try { p } finally { fin }] *)
Fixpoint try_finally {A : Type} (p : Proc A) (fin : Proc unit) : Proc A :=
  match p with
  | Ret a => pbind fin (fun _ => Ret a)
  | Throw e => pbind fin (fun _ => Throw e)
  | Update u k => Update u (try_finally k fin)
  | Fetch r k => Fetch r (fun x => try_finally (k x) fin)
  end.

#[export] Instance Monad_Proc : Monad Proc :=
  {| ret := @Ret; bind := @pbind |}.

#[export] Instance MonadExc_Proc : MonadExc string Proc :=
  {| raise := @Throw; catch := @try_catch |}.

(** [await fetch(r)] *)
Definition fetch (r : Request) : Proc (Response (payload r)) :=
  Fetch r (fun res =>
    match res with
    | Rejected m => Throw m
    | Responded resp => Ret resp
    end).

(** [await response.json()], read as the payload. *)
Definition jsonOf {A : Type} (response : Response A) : Proc A :=
  match data response with
  | Parsed a => Ret a
  | Unreadable m => Throw m
  end.

(** [await response.json()], read as error data. *)
Definition errorJsonOf {A : Type} (response : Response A) : Proc ErrorData :=
  match errorData response with
  | Parsed a => Ret a
  | Unreadable m => Throw m
  end.

(** [if (c) { p }] *)
Definition when (c : bool) (p : Proc unit) : Proc unit :=
  if c then p else Ret tt.

(** The result of an asynchronous function that ran to its end. *)
Inductive Outcome (A : Type) : Type :=
| Returned (a : A)
| Threw (e : string).
Arguments Returned {A} a.
Arguments Threw {A} e.

(** Run to the end against a network: the outcome, the state, and the
    requests issued, oldest first. *)
Fixpoint run {A : Type} (net : Network) (p : Proc A) (st : AppState)
  : Outcome A * AppState * list Request :=
  match p with
  | Ret a => (Returned a, st, [])
  | Throw e => (Threw e, st, [])
  | Update u k => run net k (u st)
  | Fetch r k =>
      let '(o, st', log) := run net (k (net r)) st in
      (o, st', r :: log)
  end.

Definition outcomeOf {A : Type} (x : Outcome A * AppState * list Request) : Outcome A :=
  fst (fst x).
Definition stateOf {A : Type} (x : Outcome A * AppState * list Request) : AppState :=
  snd (fst x).
Definition requestsOf {A : Type} (x : Outcome A * AppState * list Request) : list Request :=
  snd x.

(** The setters of the state cells. *)
Definition setLanguage (v : Language) : Proc unit := Update (put_language v) (Ret tt).
Definition setCoins (v : list CoinData) : Proc unit := Update (put_coins v) (Ret tt).
Definition setSelected (v : string) : Proc unit := Update (put_selected v) (Ret tt).
Definition setChartData (v : option ChartData) : Proc unit :=
  Update (put_chartData v) (Ret tt).
Definition setChartLoading (v : bool) : Proc unit := Update (put_chartLoading v) (Ret tt).
Definition setChartError (v : option string) : Proc unit :=
  Update (put_chartError v) (Ret tt).
Definition setIndicators (v : option Indicators) : Proc unit :=
  Update (put_indicators v) (Ret tt).
Definition setLoadingInitialData (v : bool) : Proc unit :=
  Update (put_loadingInitialData v) (Ret tt).
Definition setInitialDataError (v : option string) : Proc unit :=
  Update (put_initialDataError v) (Ret tt).
Definition setAiSummary (v : string) : Proc unit := Update (put_aiSummary v) (Ret tt).
Definition setTranslatedAiSummary (v : string) : Proc unit :=
  Update (put_translatedAiSummary v) (Ret tt).
Definition setNews (v : list NewsItem) : Proc unit := Update (put_news v) (Ret tt).
Definition setNewsLoading (v : bool) : Proc unit := Update (put_newsLoading v) (Ret tt).
Definition setNewsError (v : option string) : Proc unit :=
  Update (put_newsError v) (Ret tt).

(** ** [uiText] (the one entry the state cells start from) *)

Definition aiSummaryPlaceholder_en : string := "AI analysis loading...".

(** ** [translateText] *)

(** [v[0]]: [None] is [undefined]; reading a property of [null] throws. *)
Definition index0 (v : json) : Proc (option json) :=
  match v with
  | JNull => Throw "Cannot read properties of null (reading '0')"
  | JBool _ | JNum _ => Ret None
  | JStr s =>
      match s with
      | EmptyString => Ret None
      | String c _ => Ret (Some (JStr (String c EmptyString)))
      end
  | JArr items => Ret (hd_error items)
  | JObj fields =>
      Ret (option_map snd (find (fun kv => String.eqb (fst kv) "0") fields))
  end.

(** [ToString(v)] for a value that came out of [JSON.parse]. *)
Fixpoint toString (v : json) : string :=
  match v with
  | JNull => "null"
  | JBool true => "true"
  | JBool false => "false"
  | JNum shown => shown
  | JStr s => s
  | JArr items =>
      (fix joined (l : list json) : string :=
         match l with
         | [] => ""
         | x :: l' =>
             (match x with JNull => "" | _ => toString x end)
             ++ (match l' with [] => "" | _ :: _ => "," ++ joined l' end)
         end) items
  | JObj _ => "[object Object]"
  end.

(** [l.join('')]: [undefined] and [null] print as nothing. *)
Definition joinEmpty (l : list (option json)) : string :=
  String.concat ""
    (map (fun o => match o with
                   | None | Some JNull => ""
                   | Some v => toString v
                   end) l).

(** [l.map(f)] for a callback that may throw. *)
Fixpoint mapProc {A B : Type} (f : A -> Proc B) (l : list A) : Proc (list B) :=
  match l with
  | [] => ret []
  | x :: l' => y <- f x ;; ys <- mapProc f l' ;; ret (y :: ys)
  end.

(** [data[0].map((segment) => segment[0]).join('')] *)
Definition joinSegments (data : json) : Proc string :=
  first <- index0 data ;;
  match first with
  | Some (JArr segments) =>
      heads <- mapProc index0 segments ;;
      ret (joinEmpty heads)
  | Some JNull => raise "Cannot read properties of null (reading 'map')"
  | None => raise "Cannot read properties of undefined (reading 'map')"
  | Some _ => raise "data[0].map is not a function"
  end.

Definition translateText (text : string) (targetLang : Language) : Proc string :=
  if negb (truthy text) || Language_eqb targetLang en then ret text
  else
    catch
      (response <- fetch (GetTranslation targetLang text) ;;
       when (negb (ok response)) (raise "Translation request failed") ;;
       data <- jsonOf response ;;
       translated <- joinSegments data ;;
       ret translated)
      (fun _ => ret text).

(** ** [stripMarkdown]

    The two regular expressions [/(\*\*|__)(.*?)\1/g] and [/(\*|_)(.*?)\1/g],
    each replaced by its second group. *)

(** [.] matches every character but a line terminator. *)
Definition isLineTerminator (c : ascii) : bool :=
  Ascii.eqb c "010"%char || Ascii.eqb c "013"%char.

(** [s] without its prefix [d], when it starts with [d]. *)
Fixpoint dropPrefix (d s : string) : option string :=
  match d, s with
  | EmptyString, _ => Some s
  | String a d', String b s' => if Ascii.eqb a b then dropPrefix d' s' else None
  | String _ _, EmptyString => None
  end.

(** [(.*?)\1] once the marker [d] is consumed: the shortest run of
    non-terminators that the marker follows, and what is left after it. *)
Fixpoint lazyUntil (d s : string) : option (string * string) :=
  match dropPrefix d s with
  | Some rest => Some ("", rest)
  | None =>
      match s with
      | EmptyString => None
      | String c s' =>
          if isLineTerminator c then None
          else match lazyUntil d s' with
               | Some (content, rest) => Some (String c content, rest)
               | None => None
               end
      end
  end.

(** A match of [(m1|m2|...)(.*?)\1] at the start of [s], the alternatives
    tried in order: the second group and the text after the match. *)
Fixpoint matchAt (markers : list string) (s : string) : option (string * string) :=
  match markers with
  | [] => None
  | d :: markers' =>
      match dropPrefix d s with
      | Some afterOpen =>
          match lazyUntil d afterOpen with
          | Some found => Some found
          | None => matchAt markers' s
          end
      | None => matchAt markers' s
      end
  end.

(** The global replace by [$2], scanning left to right; a match is at
    least two characters long, so [fuel] characters of fuel suffice for a
    text of that length. *)
Fixpoint replaceLoop (markers : list string) (fuel : nat) (s : string) : string :=
  match fuel with
  | O => s
  | S fuel' =>
      match s with
      | EmptyString => EmptyString
      | String c s' =>
          match matchAt markers s with
          | Some (content, rest) => content ++ replaceLoop markers fuel' rest
          | None => String c (replaceLoop markers fuel' s')
          end
      end
  end.

Definition replacePairs (markers : list string) (s : string) : string :=
  replaceLoop markers (String.length s) s.

Definition stripMarkdown (text : string) : string :=
  let plainText := replacePairs ["**"; "__"] text in
  let plainText := replacePairs ["*"; "_"] plainText in
  plainText.

(** [regex.test(s)] for the same pattern: is there a match anywhere? *)
Fixpoint hasPair (markers : list string) (s : string) : bool :=
  match s with
  | EmptyString => false
  | String _ s' =>
      match matchAt markers s with
      | Some _ => true
      | None => hasPair markers s'
      end
  end.

(** A bold or italic pair of markers is still in the text. *)
Definition showsEmphasisMarkers (s : string) : bool :=
  hasPair ["**"; "__"] s || hasPair ["*"; "_"] s.

(** ** The initial render *)

Definition initialState (innerWidth : nat) : AppState :=
  {| language := en;
     coins := [];
     selected := "BTC";
     chartData := None;
     chartLoading := false;
     chartError := None;
     indicators := None;
     loadingInitialData := true;
     initialDataError := None;
     aiSummary := aiSummaryPlaceholder_en;
     translatedAiSummary := aiSummaryPlaceholder_en;
     news := [];
     newsLoading := false;
     newsError := None;
     displayedAiSummary := "";
     visibleCharacters := 0;
     isMobile := (innerWidth <? 768)%nat;
     showAllNews := false;
     translatedNews := [] |}.

(** ** The typewriter: the effect on [translatedAiSummary] and the effect
    that derives [displayedAiSummary] *)

Module Typewriter.

(** A running [setInterval]: its id and the [plainAiSummary] its callback
    closed over. *)
Record Interval : Type := mkInterval {
  intervalId : nat;
  plainAiSummary : string
}.

(** The state cells, the intervals the browser still fires, the interval
    the cleanup of the last effect run will clear, and the next id
    [setInterval] hands out. *)
Record World : Type := mkWorld {
  app : AppState;
  intervals : list Interval;
  cleanup : option nat;
  nextId : nat
}.

Definition clearInterval (i : nat) (timers : list Interval) : list Interval :=
  filter (fun t => negb (intervalId t =? i)%nat) timers.

(** The cleanup function the effect returned, run before the effect
    runs again. *)
Definition runCleanup (w : World) : World :=
  match cleanup w with
  | Some i => mkWorld (app w) (clearInterval i (intervals w)) None (nextId w)
  | None => w
  end.

(** The body of the typewriter effect. *)
Definition typewriterEffect (w : World) : World :=
  let translated := translatedAiSummary (app w) in
  if negb (truthy translated) then
    mkWorld (put_visibleCharacters 0 (put_displayedAiSummary "" (app w)))
            (intervals w) None (nextId w)
  else
    let plain := stripMarkdown translated in
    let i := nextId w in
    mkWorld (put_visibleCharacters 0 (app w))
            (intervals w ++ [mkInterval i plain]) (Some i) (S i).

(** The body of the display effect, with the [visibleCharacters] and
    [translatedAiSummary] of the render it belongs to. *)
Definition displayEffect (visible : nat) (translated : string) (st : AppState) : AppState :=
  if truthy translated
  then put_displayedAiSummary (slice0 visible (stripMarkdown translated)) st
  else st.

(** [setTranslatedAiSummary(s)] and the renders that follow.  The same
    value re-renders nothing.  Otherwise both effects run for the render
    with the new summary (the display effect still sees the old count),
    and the display effect runs once more when the count changed. *)
Definition setTranslated (s : string) (w : World) : World :=
  if String.eqb s (translatedAiSummary (app w)) then w
  else
    let rendered := put_translatedAiSummary s (app w) in
    let seen := visibleCharacters rendered in
    let w1 := typewriterEffect (runCleanup (mkWorld rendered (intervals w) (cleanup w) (nextId w))) in
    let st2 := displayEffect seen s (app w1) in
    let st3 :=
      if (visibleCharacters st2 =? seen)%nat then st2
      else displayEffect (visibleCharacters st2) (translatedAiSummary st2) st2 in
    mkWorld st3 (intervals w1) (cleanup w1) (nextId w1).

(** The interval [i] fires: the updater passed to [setVisibleCharacters],
    then the display effect when the count changed.  A cleared interval
    never fires. *)
Definition tick (i : nat) (w : World) : World :=
  match find (fun t => (intervalId t =? i)%nat) (intervals w) with
  | None => w
  | Some t =>
      let prevCount := visibleCharacters (app w) in
      if (prevCount <? String.length (plainAiSummary t))%nat then
        let st := put_visibleCharacters (prevCount + 1) (app w) in
        mkWorld (displayEffect (prevCount + 1) (translatedAiSummary st) st)
                (intervals w) (cleanup w) (nextId w)
      else
        mkWorld (app w) (clearInterval i (intervals w)) (cleanup w) (nextId w)
  end.

Inductive Event : Type :=
| NewTranslation (s : string)
| Tick (i : nat).

Definition step (e : Event) (w : World) : World :=
  match e with
  | NewTranslation s => setTranslated s w
  | Tick i => tick i w
  end.

Definition replay (events : list Event) (w : World) : World :=
  fold_left (fun w e => step e w) events w.

(** The component after its first render and first effects. *)
Definition mounted (innerWidth : nat) : World :=
  let st := initialState innerWidth in
  let w := typewriterEffect (mkWorld st [] None 1) in
  mkWorld (displayEffect (visibleCharacters st) (translatedAiSummary st) (app w))
          (intervals w) (cleanup w) (nextId w).

(** The states the component can be in. *)
Definition reachable (w : World) : Prop :=
  exists innerWidth events, w = replay events (mounted innerWidth).

(** A run of interval callbacks. *)
Definition ticks (ids : list nat) : list Event := map Tick ids.

(** What holds between any two events: the counter is within the
    stripped summary, the displayed text is the revealed prefix, and every
    interval still alive is the one the last effect run started, for the
    current summary. *)
Record invariant (w : World) : Prop := mkInvariant {
  counter_bounded :
    visibleCharacters (app w)
    <= String.length (stripMarkdown (translatedAiSummary (app w)));
  displayed_prefix :
    displayedAiSummary (app w)
    = slice0 (visibleCharacters (app w)) (stripMarkdown (translatedAiSummary (app w)));
  intervals_current :
    forall t, In t (intervals w) ->
      cleanup w = Some (intervalId t)
      /\ plainAiSummary t = stripMarkdown (translatedAiSummary (app w))
      /\ intervalId t < nextId w
}.

End Typewriter.

(** ** The renders between two events

    A state change is followed by a render that React commits before the
    effects of that render run; what the effects set is committed by the
    next render. *)

Module Renders.

Import Typewriter.

(** The renders committed after [setTranslatedAiSummary(s)], oldest
    first: the render with the new summary, the render with what the two
    effects set and, when the count changed, the render with what the
    display effect set for the new count. *)
Definition afterTranslation (s : string) (w : World) : list AppState :=
  if String.eqb s (translatedAiSummary (app w)) then []
  else
    let rendered := put_translatedAiSummary s (app w) in
    let seen := visibleCharacters rendered in
    let w1 := typewriterEffect (runCleanup (mkWorld rendered (intervals w) (cleanup w) (nextId w))) in
    let st2 := displayEffect seen s (app w1) in
    rendered :: st2
      :: (if (visibleCharacters st2 =? seen)%nat then []
          else [displayEffect (visibleCharacters st2) (translatedAiSummary st2) st2]).

(** The renders committed after the interval [i] fires: the render with
    the new count, then the render with what the display effect set. *)
Definition afterTick (i : nat) (w : World) : list AppState :=
  match find (fun t => (intervalId t =? i)%nat) (intervals w) with
  | None => []
  | Some t =>
      let prevCount := visibleCharacters (app w) in
      if (prevCount <? String.length (plainAiSummary t))%nat then
        let st := put_visibleCharacters (prevCount + 1) (app w) in
        [st; displayEffect (prevCount + 1) (translatedAiSummary st) st]
      else []
  end.

Definition after (e : Event) (w : World) : list AppState :=
  match e with
  | NewTranslation s => afterTranslation s w
  | Tick i => afterTick i w
  end.

(** The displayed text is the stripped summary cut at the counter. *)
Definition revealedPrefix (st : AppState) : Prop :=
  displayedAiSummary st
  = slice0 (visibleCharacters st) (stripMarkdown (translatedAiSummary st)).

(** What a render shows of the typewriter: the summary, the counter and
    the displayed text. *)
Definition shown (st : AppState) : string * nat * string :=
  (translatedAiSummary st, visibleCharacters st, displayedAiSummary st).

End Renders.

(** ** [fetchCoins] *)

Definition placeholderLogo : string := "https://cryptologos.cc/logos/placeholder-logo.png".

Definition toCoinData (coin : RawCoin) : CoinData :=
  {| id := raw_id coin;
     name := raw_name coin;
     symbol := raw_symbol coin;
     logo := orString (raw_logo coin) placeholderLogo;
     currentPrice := orNumber (raw_currentPrice coin) 0;
     volume24h := orNumber (raw_volume24h coin) 0;
     percentChange1h := orNumber (raw_percentChange1h coin) 0;
     percentChange24h := orNumber (raw_percentChange24h coin) 0;
     percentChange7d := orNumber (raw_percentChange7d coin) 0;
     marketCap := orNumber (raw_marketCap coin) 0;
     cmcRank := orNA (raw_cmcRank coin) |}.

(** [(a, b) => a.cmcRank - b.cmcRank] *)
Definition byRank (a b : CoinData) : option Q := minus (cmcRank a) (cmcRank b).

Definition fetchCoins : Proc unit :=
  try_finally
    (catch
       (response <- fetch GetListings ;;
        when (negb (ok response))
          (errorData <- errorJsonOf response ;;
           raise ("API Error: " ++ showNat (status response) ++ " - "
                  ++ orString (error errorData) (statusText response))) ;;
        json <- jsonOf response ;;
        let fetchedCoins := map toCoinData json in
        let fetchedCoins := sort byRank fetchedCoins in
        setCoins fetchedCoins ;;
        match fetchedCoins with
        | first :: _ => setSelected (symbol first)
        | [] => ret tt
        end)
       (fun e => setInitialDataError (Some e)))
    (setLoadingInitialData false).

(** ** The [technicalindicators] package

    The package is a dependency of the repository, not part of it: its
    three calculators are parameters of the detail cycle. *)

Record MACDInput : Type := mkMACDInput {
  macdValues : list Q;
  fastPeriod : nat;
  slowPeriod : nat;
  signalPeriod : nat;
  SimpleMAOscillator : bool;
  SimpleMASignal : bool
}.

(** One element of [MACD.calculate]'s result; a field not yet defined is
    [undefined] ([None]). *)
Record MACDOutput : Type := mkMACDOutput {
  MACD : option Q;
  signal : option Q;
  histogram : option Q
}.

Record TechnicalIndicators : Type := mkTechnicalIndicators {
  RSI_calculate : list Q -> nat -> list Q;
  MACD_calculate : MACDInput -> list MACDOutput;
  SMA_calculate : list Q -> nat -> list Q
}.

(** ** [fetchChartAndIndicatorsData] *)

(** A field of [currentMacd] under [typeof ... === 'number']: [undefined]
    and ['N/A'] fail the test alike. *)
Definition ofOptional (o : option Q) : numOrNA :=
  match o with Some q => Num q | None => NA end.

(** [macd.length > 0 ? macd[macd.length - 1] : { MACD: 'N/A', signal: 'N/A', histogram: 'N/A' }] *)
Definition lastMacd (macd : list MACDOutput) : numOrNA * numOrNA * numOrNA :=
  match rev macd with
  | m :: _ => (ofOptional (MACD m), ofOptional (signal m), ofOptional (histogram m))
  | [] => (NA, NA, NA)
  end.

(** [typeof v === 'number' ? parseFloat(v.toFixed(digits)) : 'N/A'] *)
Definition rounded (digits : nat) (v : numOrNA) : numOrNA :=
  match v with
  | Num q => Num (roundTo digits q)
  | NA => NA
  end.

(** [ohlcvJson && ohlcvJson.values && ohlcvJson.values.length > 0] *)
Definition nonEmptyValues (ohlcvJson : OhlcvJson) : option (list Row) :=
  match ohlcvJson with
  | Some body =>
      match values body with
      | Some (r :: rows) => Some (r :: rows)
      | Some [] | None => None
      end
  | None => None
  end.

(** [(a, b) => new Date(a.datetime).getTime() - new Date(b.datetime).getTime()] *)
Definition byTime (a b : Row) : option Q := Some (inject_Z (time a - time b)).

Definition noCoinSummary : string := "Please select a coin to view data.".
Definition noOhlcvError : string := "No OHLCV data found for this coin from Twelve Data.".
Definition noDataSummary : string := "No data to analyze.".

Section DetailCycle.

Variable lib : TechnicalIndicators.

(** The values [currentRsi], [currentMacd], [currentSma50] and
    [currentSma200], as the calculators gave them. *)
Record RawIndicators : Type := mkRawIndicators {
  currentRsi : numOrNA;
  currentMacd : numOrNA * numOrNA * numOrNA;
  currentSma50 : numOrNA;
  currentSma200 : numOrNA
}.

Definition rawIndicators (closePrices : list Q) : RawIndicators :=
  let rsi := RSI_calculate lib closePrices 14 in
  let macd := MACD_calculate lib (mkMACDInput closePrices 12 26 9 false false) in
  let sma50 := SMA_calculate lib closePrices 50 in
  let sma200 := SMA_calculate lib closePrices 200 in
  {| currentRsi := lastOrNA rsi;
     currentMacd := lastMacd macd;
     currentSma50 := lastOrNA sma50;
     currentSma200 := lastOrNA sma200 |}.

(** The object [currentIndicators]. *)
Definition currentIndicators (raw : RawIndicators) : Indicators :=
  let '(macdLine, signalLine, histogramLine) := currentMacd raw in
  {| rsi := rounded 2 (currentRsi raw);
     macd := rounded 4 macdLine;
     macdSignal := rounded 4 signalLine;
     macdHistogram := rounded 4 histogramLine;
     sma50 := rounded 4 (currentSma50 raw);
     sma200 := rounded 4 (currentSma200 raw);
     volume := 0%Q |}.

Definition chartOf (selected : string) (history : list Row) : ChartData :=
  let labels := map localeDate history in
  let prices := map close history in
  {| labels := labels;
     datasets :=
       [ {| ds_label := selected ++ " Price (USD)";
            ds_data := prices;
            borderColor := "rgb(59, 130, 246)";
            backgroundColor := "rgba(59, 130, 246, 0.1)";
            tension := (1 # 10)%Q;
            fill := true |} ] |}.

Definition analysisBody (selected : string) (currentCoin : CoinData)
    (currentIndicators : Indicators) (news : list NewsItem) : AnalysisBody :=
  {| req_symbol := selected;
     req_currentPrice := orNumber (Some (currentPrice currentCoin)) 0;
     req_percentChange24h := orNumber (Some (percentChange24h currentCoin)) 0;
     req_marketCap := orNumber (Some (marketCap currentCoin)) 0;
     req_rsi := rsi currentIndicators;
     req_macd := macd currentIndicators;
     req_sma50 := sma50 currentIndicators;
     req_sma200 := sma200 currentIndicators;
     req_volume := orNumber (Some (volume24h currentCoin)) 0;
     req_news := news |}.

(** The news part, with its own [try]/[catch]. *)
Definition fetchNews (selected : string) : Proc unit :=
  catch
    (newsResponse <- fetch (GetNews selected) ;;
     when (negb (ok newsResponse))
       (errorData <- errorJsonOf newsResponse ;;
        raise ("Tavily News API Error: " ++ showNat (status newsResponse) ++ " - "
               ++ orString (error errorData) (statusText newsResponse))) ;;
     newsJson <- jsonOf newsResponse ;;
     setNews (newsItems newsJson))
    (fun newsFetchError =>
       setNewsError (Some newsFetchError) ;;
       setNews []).

(** The branch taken when the OHLCV body has values. *)
Definition withHistory (selected : string) (currentCoin : CoinData)
    (news : list NewsItem) (history : list Row) : Proc unit :=
  let history := sort byTime history in
  setChartData (Some (chartOf selected history)) ;;
  let closePrices := map close history in
  let currentIndicators := currentIndicators (rawIndicators closePrices) in
  setIndicators (Some currentIndicators) ;;
  aiAnalysisResponse <-
    fetch (PostAnalyze (analysisBody selected currentCoin currentIndicators news)) ;;
  when (negb (ok aiAnalysisResponse))
    (errorData <- errorJsonOf aiAnalysisResponse ;;
     raise ("AI Analysis API Error: " ++ showNat (status aiAnalysisResponse) ++ " - "
            ++ orString (error errorData) (statusText aiAnalysisResponse))) ;;
  aiAnalysisJson <- jsonOf aiAnalysisResponse ;;
  setAiSummary (analysis aiAnalysisJson) ;;
  fetchNews selected.

(** The body of the outer [try]. *)
Definition detailBody (selected : string) (currentCoin : CoinData)
    (news : list NewsItem) : Proc unit :=
  let interval := "1day" in
  let outputsize := 200 in
  ohlcvResponse <- fetch (GetOhlcv selected interval outputsize) ;;
  when (negb (ok ohlcvResponse))
    (errorData <- errorJsonOf ohlcvResponse ;;
     raise ("Twelve Data OHLCV API Error: " ++ showNat (status ohlcvResponse) ++ " - "
            ++ orString (error errorData)
                 (orString (message errorData) (statusText ohlcvResponse)))) ;;
  ohlcvJson <- jsonOf ohlcvResponse ;;
  match nonEmptyValues ohlcvJson with
  | Some history => withHistory selected currentCoin news history
  | None =>
      setChartData None ;;
      setIndicators None ;;
      setChartError (Some noOhlcvError) ;;
      setAiSummary noDataSummary ;;
      setNews []
  end.

(** The outer [catch]. *)
Definition detailFailed (e : string) : Proc unit :=
  setChartError (Some e) ;;
  setIndicators None ;;
  setAiSummary ("AI analysis error: " ++ e) ;;
  setNewsError (Some e) ;;
  setNews [].

(** The function the effect on [selected, coins] defines and calls; the
    arguments are the [selected], [coins] and [news] its closure holds. *)
Definition fetchChartAndIndicatorsData (selected : string) (coins : list CoinData)
    (news : list NewsItem) : Proc unit :=
  setChartLoading true ;;
  setChartError None ;;
  setNewsLoading true ;;
  setNewsError None ;;
  let currentCoin := find (fun c => String.eqb (symbol c) selected) coins in
  match currentCoin with
  | None =>
      setChartData None ;;
      setIndicators None ;;
      setAiSummary noCoinSummary ;;
      setNews [] ;;
      setNewsLoading false
  | Some currentCoin =>
      try_finally
        (catch (detailBody selected currentCoin news) detailFailed)
        (setChartLoading false ;;
         setNewsLoading false)
  end.

(** The effect itself: [if (selected) { fetchChartAndIndicatorsData(); }] *)
Definition detailEffect (st : AppState) : Proc unit :=
  if truthy (selected st)
  then fetchChartAndIndicatorsData (selected st) (coins st) (news st)
  else ret tt.

End DetailCycle.

(** What the indicator table prints for one cell:
    [typeof v === 'number' ? v.toFixed(digits) : 'N/A']. *)
Definition cellText (digits : nat) (v : option numOrNA) : string :=
  match v with
  | Some (Num q) => toFixed digits q
  | Some NA | None => "N/A"
  end.

(** The six cells of the indicator table, top to bottom; a property of
    the empty object is [undefined]. *)
Definition indicatorTable (st : AppState) : list string :=
  let cell (digits : nat) (field : Indicators -> numOrNA) :=
    cellText digits (option_map field (indicators st)) in
  [ cell 2 rsi; cell 4 macd; cell 4 macdSignal; cell 4 macdHistogram;
    cell 4 sma50; cell 4 sma200 ].

(** ** Overlapping detail cycles

    The selector starts a cycle on every change of [selected]; a cycle
    suspended at a [fetch] resumes when its response arrives, in any
    order relative to the other cycles. *)

Module Orchestrator.

Record World : Type := mkWorld {
  app : AppState;
  cycles : list (Proc unit)
}.

(** The synchronous part of a function: it commits its updates until it
    suspends or ends. *)
Fixpoint advance {A : Type} (p : Proc A) (st : AppState) : AppState * Proc A :=
  match p with
  | Update u k => advance k (u st)
  | _ => (st, p)
  end.

(** The response to the [fetch] a function is suspended at arrives. *)
Definition resume {A : Type} (net : Network) (p : Proc A) (st : AppState)
  : AppState * Proc A :=
  match p with
  | Fetch r k => advance (k (net r)) st
  | _ => (st, p)
  end.

Fixpoint replaceNth {A : Type} (i : nat) (x : A) (l : list A) : list A :=
  match l, i with
  | [], _ => []
  | _ :: l', O => x :: l'
  | y :: l', S i' => y :: replaceNth i' x l'
  end.

Inductive Event : Type :=
| Select (newSelected : string)
| Resolve (cycle : nat).

Section Steps.

Variable lib : TechnicalIndicators.
Variable net : Network.

(** [handleSelectChange]: [setSelected(newSelected)]; when the value
    changed, the effect on [selected, coins] runs with the new render. *)
Definition select (newSelected : string) (w : World) : World :=
  if String.eqb newSelected (selected (app w)) then w
  else
    let st := put_selected newSelected (app w) in
    let '(st', p) := advance (detailEffect lib st) st in
    mkWorld st' (cycles w ++ [p]).

Definition resolve (i : nat) (w : World) : World :=
  match nth_error (cycles w) i with
  | Some p =>
      let '(st', p') := resume net p (app w) in
      mkWorld st' (replaceNth i p' (cycles w))
  | None => w
  end.

Definition step (e : Event) (w : World) : World :=
  match e with
  | Select s => select s w
  | Resolve i => resolve i w
  end.

Definition replay (events : list Event) (w : World) : World :=
  fold_left (fun w e => step e w) events w.

End Steps.

(** Is every cycle over? *)
Definition settled (w : World) : bool :=
  forallb (fun p => match p with Ret _ | Throw _ => true | _ => false end) (cycles w).

End Orchestrator.

(** ** Reference calculators

    A stand-in for the package on concrete inputs, written after the
    contract of the indicator engine. *)

Module Reference.

Definition sumQ (l : list Q) : Q := fold_right Qplus 0%Q l.

Definition mean (l : list Q) : Q := Qred (sumQ l / inject_Z (Z.of_nat (length l)))%Q.

(** Modelled from the spec: the [technicalindicators] SMA calculator is
    not in the repository; a simple rolling mean over the trailing
    [period] closes, unavailable until that many points exist. *)
Definition sma (prices : list Q) (period : nat) : list Q :=
  match period with
  | O => []
  | S _ =>
      map (fun start => mean (firstn period (skipn start prices)))
          (seq 0 (S (length prices) - period))
  end.

(** An exponential moving average seeded with the mean of the first
    [period] values, smoothing factor [2 / (period + 1)]. *)
Definition ema (prices : list Q) (period : nat) : list Q :=
  if (length prices <? period)%nat || (period =? 0)%nat then []
  else
    let k := (2 # Pos.of_nat (period + 1))%Q in
    let seed := mean (firstn period prices) in
    rev (fold_left
           (fun acc price =>
              match acc with
              | prev :: _ => Qred ((price - prev) * k + prev)%Q :: acc
              | [] => acc
              end)
           (skipn period prices) [seed]).

(** Modelled from the spec: the MACD calculator is not in the repository;
    the fast EMA minus the slow EMA is the MACD line, the EMA of that line
    over [signalPeriod] is the signal line, their difference the
    histogram; the last two are undefined until the signal line exists. *)
Definition macdOf (input : MACDInput) : list MACDOutput :=
  let fast := ema (macdValues input) (fastPeriod input) in
  let slow := ema (macdValues input) (slowPeriod input) in
  let line :=
    map (fun p => Qred (fst p - snd p)%Q)
        (combine (skipn (slowPeriod input - fastPeriod input) fast) slow) in
  let signals := ema line (signalPeriod input) in
  let padded : list (option Q) :=
    (repeat None (signalPeriod input - 1) ++ map Some signals)%list in
  map (fun p =>
         match snd p with
         | Some s => mkMACDOutput (Some (fst p)) (Some s) (Some (Qred (fst p - s)%Q))
         | None => mkMACDOutput (Some (fst p)) None None
         end)
      (combine line (padded ++ repeat None (length line))%list).

Definition deltas (prices : list Q) : list Q :=
  map (fun p => (snd p - fst p)%Q) (combine prices (tl prices)).

Definition gain (d : Q) : Q := if Qle_bool 0 d then d else 0%Q.
Definition loss (d : Q) : Q := if Qle_bool 0 d then 0%Q else (- d)%Q.

(** Modelled from the spec: the RSI calculator is not in the repository;
    a momentum oscillator over [period] deltas with values in [0, 100],
    unavailable with fewer deltas than [period] and where the window has
    neither gain nor loss. *)
Definition rsiOf (prices : list Q) (period : nat) : list Q :=
  let ds := deltas prices in
  if (length ds <? period)%nat || (period =? 0)%nat then []
  else
    let n := inject_Z (Z.of_nat period) in
    let smooth (prev cur : Q) : Q := Qred ((prev * (n - 1) + cur) / n)%Q in
    let seed := (mean (map gain (firstn period ds)), mean (map loss (firstn period ds))) in
    let averages :=
      rev (fold_left
             (fun acc d =>
                match acc with
                | (g, l) :: _ => (smooth g (gain d), smooth l (loss d)) :: acc
                | [] => acc
                end)
             (skipn period ds) [seed]) in
    flat_map (fun gl =>
                let '(g, l) := gl in
                if Qeq_bool (g + l) 0 then []
                else [Qred (100 * g / (g + l))%Q])
             averages.

Definition indicators : TechnicalIndicators :=
  {| RSI_calculate := rsiOf;
     MACD_calculate := macdOf;
     SMA_calculate := sma |}.

End Reference.

(** ** Reading a run *)

(** The body of the first POST to the analysis endpoint among the
    requests of a run. *)
Fixpoint analysisRequest (log : list Request) : option AnalysisBody :=
  match log with
  | [] => None
  | PostAnalyze body :: _ => Some body
  | _ :: log' => analysisRequest log'
  end.

(** Was the news endpoint asked? *)
Definition askedNews (log : list Request) : bool :=
  existsb (fun r => match r with GetNews _ => true | _ => false end) log.

Definition raises {A : Type} (p : Proc A) : bool :=
  match p with Throw _ => true | _ => false end.

(** A function that returns or throws at once, without touching the
    state or the network. *)
Definition immediate {A : Type} (p : Proc A) : Prop :=
  match p with
  | Ret _ | Throw _ => True
  | _ => False
  end.

(** The message a failed request ends in, where [describe] builds the
    message for a non-ok response; [None] when the request succeeds. *)
Definition failureOf {A : Type} (describe : Response A -> ErrorData -> string)
    (res : FetchResult A) : option string :=
  match res with
  | Rejected m => Some m
  | Responded response =>
      if ok response then
        match data response with
        | Parsed _ => None
        | Unreadable m => Some m
        end
      else
        match errorData response with
        | Parsed errorData => Some (describe response errorData)
        | Unreadable m => Some m
        end
  end.

Definition ohlcvErrorText (response : Response OhlcvJson) (errorData : ErrorData) : string :=
  "Twelve Data OHLCV API Error: " ++ showNat (status response) ++ " - "
  ++ orString (error errorData) (orString (message errorData) (statusText response)).

Definition analysisErrorText (response : Response AnalysisJson) (errorData : ErrorData)
  : string :=
  "AI Analysis API Error: " ++ showNat (status response) ++ " - "
  ++ orString (error errorData) (statusText response).

Definition newsErrorText (response : Response NewsJson) (errorData : ErrorData) : string :=
  "Tavily News API Error: " ++ showNat (status response) ++ " - "
  ++ orString (error errorData) (statusText response).

(** The one request for the history of a symbol. *)
Definition ohlcvRequest (sym : string) : Request := GetOhlcv sym "1day" 200.

(** The state when a cycle suspends at its first request. *)
Definition started (st : AppState) : AppState :=
  put_newsError None (put_newsLoading true (put_chartError None (put_chartLoading true st))).

(** The state the [finally] block leaves. *)
Definition finished (st : AppState) : AppState :=
  put_newsLoading false (put_chartLoading false st).

(** The state the outer [catch] leaves. *)
Definition failedWith (e : string) (st : AppState) : AppState :=
  put_news [] (put_newsError (Some e)
    (put_aiSummary ("AI analysis error: " ++ e)
       (put_indicators None (put_chartError (Some e) st)))).

(** The snapshot built from a history. *)
Definition snapshotOf (lib : TechnicalIndicators) (history : list Row) : Indicators :=
  currentIndicators (rawIndicators lib (map close (sort byTime history))).

(** The state once the history is charted and the snapshot stored. *)
Definition charted (lib : TechnicalIndicators) (sym : string) (history : list Row)
    (st : AppState) : AppState :=
  put_indicators (Some (snapshotOf lib history))
    (put_chartData (Some (chartOf sym (sort byTime history))) (started st)).

(** The request body a cycle posts for a history. *)
Definition postedBody (lib : TechnicalIndicators) (sym : string) (currentCoin : CoinData)
    (closureNews : list NewsItem) (history : list Row) : AnalysisBody :=
  analysisBody sym currentCoin (snapshotOf lib history) closureNews.

(** What the news part commits for the answer of the news endpoint. *)
Definition newsCommitted (res : FetchResult NewsJson) (st : AppState) : AppState :=
  match failureOf newsErrorText res with
  | Some e => put_news [] (put_newsError (Some e) st)
  | None =>
      match res with
      | Responded response =>
          match data response with
          | Parsed newsJson => put_news (newsItems newsJson) st
          | Unreadable _ => st
          end
      | Rejected _ => st
      end
  end.

(** What a cell of the table prints for a raw indicator value: the
    stored value is the rounded one, and the cell formats it again. *)
Definition cellOfRaw (digits : nat) (v : numOrNA) : string :=
  match v with
  | Num q => toFixed digits (roundTo digits q)
  | NA => "N/A"
  end.

(** The translation call fails: the fetch rejects, the response is not
    ok, the body is not JSON, or reading the segments throws. *)
Definition translationFails (res : FetchResult json) : bool :=
  match res with
  | Rejected _ => true
  | Responded response =>
      negb (ok response)
      || match data response with
         | Unreadable _ => true
         | Parsed d => raises (joinSegments d)
         end
  end.

(** The shape the translation endpoint answers with: an array whose first
    element is an array of segments, each an array that starts with a
    string. *)
Definition wellFormedTranslation (d : json) : bool :=
  match d with
  | JArr (JArr segments :: _) =>
      forallb (fun segment =>
                 match segment with
                 | JArr (JStr _ :: _) => true
                 | _ => false
                 end) segments
  | _ => false
  end.

(** A coin of the listings carries a rank the sort can compare. *)
Definition ranked (coin : RawCoin) : Prop :=
  exists q, raw_cmcRank coin = Some q /\ Qeq_bool q 0 = false.

(** The stored coin has a numeric rank. *)
Definition hasRank (c : CoinData) : Prop := isNumber (cmcRank c) = true.

(** [a] does not rank after [b]. *)
Definition rankLe (a b : CoinData) : Prop :=
  match cmcRank a, cmcRank b with
  | Num x, Num y => (x <= y)%Q
  | _, _ => False
  end.

(** ** Concrete scenarios *)

Module Scenario.

Definition rawCoin (sym : string) (rank : Z) (price : Q) : RawCoin :=
  {| raw_id := sym; raw_name := sym; raw_symbol := sym; raw_logo := None;
     raw_currentPrice := Some price; raw_volume24h := Some 1000%Q;
     raw_percentChange1h := None; raw_percentChange24h := Some (3 # 2)%Q;
     raw_percentChange7d := None; raw_marketCap := Some 500000%Q;
     raw_cmcRank := Some (inject_Z rank) |}.

(** Five assets, ranks 3, 1, 5, 2, 4. *)
Definition listings : list RawCoin :=
  [ rawCoin "SOL" 3 150%Q; rawCoin "BTC" 1 60000%Q; rawCoin "XRP" 5 (1 # 2)%Q;
    rawCoin "ETH" 2 3000%Q; rawCoin "ADA" 4 (2 # 5)%Q ].

Definition okResponse {A : Type} (a : A) : FetchResult A :=
  Responded (mkResponse true 200 "OK" (Parsed (mkErrorData None None)) (Parsed a)).

(** A non-ok response with a JSON error body; its payload view is never
    read. *)
Definition errorResponse {A : Type} (code : nat) (text : string) (err : ErrorData)
  : FetchResult A :=
  Responded (mkResponse false code text (Parsed err) (Unreadable "not a payload")).

Definition network
    (listingsOf : FetchResult (list RawCoin))
    (ohlcvOf : string -> FetchResult OhlcvJson)
    (analysisOf : AnalysisBody -> FetchResult AnalysisJson)
    (newsOf : string -> FetchResult NewsJson)
    (translationOf : Language -> string -> FetchResult json) : Network :=
  fun r =>
    match r with
    | GetListings => listingsOf
    | GetOhlcv sym _ _ => ohlcvOf sym
    | PostAnalyze body => analysisOf body
    | GetNews sym => newsOf sym
    | GetTranslation l text => translationOf l text
    end.

(** Two days of history, newest first, for any symbol. *)
Definition twoDays : FetchResult OhlcvJson :=
  okResponse (Some (mkOhlcvBody (Some
    [ mkRow 1700086400000 "11/15/2023" 101%Q;
      mkRow 1700000000000 "11/14/2023" 100%Q ]))).

Definition analysisFor (body : AnalysisBody) : FetchResult AnalysisJson :=
  okResponse (mkAnalysisJson ("Outlook for " ++ req_symbol body)).

Definition twoItems (sym : string) : FetchResult NewsJson :=
  okResponse (mkNewsJson
    [ mkNewsItem (sym ++ " rallies") "https://example.org/1";
      mkNewsItem (sym ++ " explained") "https://example.org/2" ]).

Definition noTranslation (l : Language) (text : string) : FetchResult json :=
  Rejected "Failed to fetch".

(** Every endpoint answers. *)
Definition calm : Network :=
  network (okResponse listings) (fun _ => twoDays) analysisFor twoItems noTranslation.

(** The analysis endpoint answers 500; the news endpoint would answer
    with two items. *)
Definition analysisDown : Network :=
  network (okResponse listings) (fun _ => twoDays)
    (fun _ => errorResponse 500 "Internal Server Error"
                (mkErrorData (Some "model overloaded") None))
    twoItems noTranslation.

(** The history endpoint answers 500 for SOL and serves the others. *)
Definition solHistoryDown : Network :=
  network (okResponse listings)
    (fun sym =>
       if String.eqb sym "SOL"
       then errorResponse 500 "Internal Server Error"
              (mkErrorData None (Some "upstream timeout"))
       else twoDays)
    analysisFor twoItems noTranslation.

(** The history endpoint answers [{ values: [] }]. *)
Definition emptyHistory : Network :=
  network (okResponse listings) (fun _ => okResponse (Some (mkOhlcvBody (Some []))))
    analysisFor twoItems noTranslation.

(** Fifty days at a close of 0.03125. *)
Definition fiftyRows : list Row :=
  map (fun day => mkRow (Z.of_nat day * 86400000) "day" (1 # 32)%Q) (seq 1 50).

Definition fiftyDays : FetchResult OhlcvJson :=
  okResponse (Some (mkOhlcvBody (Some fiftyRows))).

Definition flat : Network :=
  network (okResponse listings) (fun _ => fiftyDays) analysisFor twoItems noTranslation.

(** The translation endpoint answers with the given JSON body. *)
Definition translating (body : json) : Network :=
  network (okResponse listings) (fun _ => twoDays) analysisFor twoItems
    (fun _ _ => okResponse body).

(** The state once the listings are in: [fetchCoins] has run on the
    initial render. *)
Definition loaded : AppState :=
  stateOf (run calm fetchCoins (initialState 1024)).

(** The orchestrator with the listings loaded and no cycle in flight. *)
Definition ready : Orchestrator.World := Orchestrator.mkWorld loaded [].

(** ETH's cycle has completed on [loaded]. *)
Definition showingEth : AppState :=
  stateOf (run calm
             (fetchChartAndIndicatorsData Reference.indicators "ETH" (coins loaded) [])
             (put_selected "ETH" loaded)).

(** ETH is selected, then SOL; SOL's three responses arrive, then ETH's. *)
Definition ethThenSol : list Orchestrator.Event :=
  [ Orchestrator.Select "ETH"; Orchestrator.Select "SOL";
    Orchestrator.Resolve 1; Orchestrator.Resolve 1; Orchestrator.Resolve 1;
    Orchestrator.Resolve 0; Orchestrator.Resolve 0; Orchestrator.Resolve 0 ].

(** A summary whose italic pair encloses another pair, revealed in full. *)
Definition nestedEmphasis : list Typewriter.Event :=
  [ Typewriter.NewTranslation "_*a*_";
    Typewriter.Tick 2; Typewriter.Tick 2; Typewriter.Tick 2 ].

(** A bold summary, two characters revealed. *)
Definition boldGreeting : list Typewriter.Event :=
  [ Typewriter.NewTranslation "**Hi** there"; Typewriter.Tick 2; Typewriter.Tick 2 ].

End Scenario.

(** ** The rest of the component

    The two translation effects, [truncateText], and what the chart and
    news panels show for a state. *)

Definition setTranslatedNews (v : list NewsItem) : Proc unit :=
  Update (put_translatedNews v) (Ret tt).

(** The effect on [aiSummary, language]: the function [runTranslation]
    with the [aiSummary] and [language] of its closure.  [isMounted] is
    the value the flag holds when the awaited translation resolves: [true]
    unless the cleanup of the effect has run by then. *)
Definition runTranslation (aiSummary : string) (language : Language) (isMounted : bool)
  : Proc unit :=
  let currentLanguage := language in
  if negb (truthy aiSummary) then setTranslatedAiSummary ""
  else if Language_eqb language en then setTranslatedAiSummary aiSummary
  else
    translated <- translateText aiSummary language ;;
    when (isMounted && Language_eqb currentLanguage language)
      (setTranslatedAiSummary translated).

(** [{ ...item, title: t }] *)
Definition withTitle (item : NewsItem) (t : string) : NewsItem :=
  mkNewsItem t (url item).

(** [news.map((item, idx) => ({ ...item, title: translatedTitles[idx] }))],
    for the [translatedTitles] of [Promise.all], one per item. *)
Definition retitled (news : list NewsItem) (translatedTitles : list string) : list NewsItem :=
  map (fun p => withTitle (fst p) (snd p)) (combine news translatedTitles).

(** The effect on [news, language]: the function [translateNewsItems].
    [Promise.all] starts the translations in the order of the items and
    resolves to their results in that order; [isMounted] is the value of
    the flag when it resolves. *)
Definition translateNewsItems (news : list NewsItem) (language : Language)
    (isMounted : bool) : Proc unit :=
  let currentLanguage := language in
  match news with
  | [] => setTranslatedNews []
  | _ :: _ =>
      setTranslatedNews news ;;
      if Language_eqb language en then ret tt
      else
        catch
          (translatedTitles <-
             mapProc (fun item => translateText (title item) language) news ;;
           when (isMounted && Language_eqb currentLanguage language)
             (let updated := retitled news translatedTitles in
              setTranslatedNews updated))
          (fun _ =>
             when (isMounted && Language_eqb currentLanguage language)
               (setTranslatedNews news))
  end.

(** [truncateText] *)
Definition truncateText (text : string) (maxLength : nat) : string :=
  if (String.length text <=? maxLength)%nat then text
  else substring 0 maxLength text ++ "...".

(** [newsToRender] *)
Definition newsToRender (st : AppState) : list NewsItem :=
  if Language_eqb (language st) en then news st
  else match translatedNews st with
       | [] => news st
       | _ :: _ => translatedNews st
       end.

(** What the price-chart panel shows: the chain
    [chartLoading ? ... : chartError ? ... : chartData ? ... : ...]. *)
Inductive ChartView : Type :=
| ChartLoading
| ChartFailed (msg : string)
| ChartShown (chart : ChartData)
| ChartEmpty.

Definition chartPanel (st : AppState) : ChartView :=
  if chartLoading st then ChartLoading
  else
    match chartError st with
    | Some msg =>
        if truthy msg then ChartFailed msg
        else match chartData st with
             | Some chart => ChartShown chart
             | None => ChartEmpty
             end
    | None =>
        match chartData st with
        | Some chart => ChartShown chart
        | None => ChartEmpty
        end
    end.

(** What the news list of the side bar shows: the chain
    [newsLoading ? ... : newsError ? ... : newsToRender.length > 0 ? ... : ...],
    each title through [truncateText(item.title, 60)]. *)
Inductive NewsView : Type :=
| NewsLoading
| NewsFailed (msg : string)
| NewsShown (titles : list string)
| NewsNone.

Definition newsList (st : AppState) : list string :=
  map (fun item => truncateText (title item) 60) (newsToRender st).

Definition newsPanel (st : AppState) : NewsView :=
  if newsLoading st then NewsLoading
  else
    match newsError st with
    | Some msg =>
        if truthy msg then NewsFailed msg
        else match newsToRender st with
             | [] => NewsNone
             | _ :: _ => NewsShown (newsList st)
             end
    | None =>
        match newsToRender st with
        | [] => NewsNone
        | _ :: _ => NewsShown (newsList st)
        end
    end.

(** ** Vocabulary of the further properties *)

Definition listingsErrorText (response : Response (list RawCoin)) (errorData : ErrorData)
  : string :=
  "API Error: " ++ showNat (status response) ++ " - "
  ++ orString (error errorData) (statusText response).

(** [a] is not later than [b]. *)
Definition timeLe (a b : Row) : Prop := (time a <= time b)%Z.

(** The markers of the two patterns, and the characters they are made of. *)
Definition boldMarkers : list string := ["**"; "__"].
Definition italicMarkers : list string := ["*"; "_"].

Definition isMarkerChar (c : ascii) : bool :=
  Ascii.eqb c "*"%char || Ascii.eqb c "_"%char.

(** No [*] and no [_] in the text. *)
Fixpoint markerFree (s : string) : bool :=
  match s with
  | EmptyString => true
  | String c s' => negb (isMarkerChar c) && markerFree s'
  end.

(** No line terminator in the text. *)
Fixpoint oneLine (s : string) : bool :=
  match s with
  | EmptyString => true
  | String c s' => negb (isLineTerminator c) && oneLine s'
  end.

(** The requests of a cycle for [sym] come in the order history,
    analysis, news, each at most once and none without the one before. *)
Definition inCycleOrder (sym : string) (log : list Request) : Prop :=
  match log with
  | [] => True
  | [GetOhlcv s _ _] => s = sym
  | [GetOhlcv s _ _; PostAnalyze body] => s = sym /\ req_symbol body = sym
  | [GetOhlcv s _ _; PostAnalyze body; GetNews s'] =>
      s = sym /\ req_symbol body = sym /\ s' = sym
  | _ => False
  end.

(** The translations a well-formed body carries, segment by segment. *)
Definition segmentTexts (d : json) : list string :=
  match d with
  | JArr (JArr segments :: _) =>
      map (fun segment =>
             match segment with
             | JArr (JStr s :: _) => s
             | _ => ""
             end) segments
  | _ => []
  end.

(** A marker of either pattern starts with [*] or [_]. *)
Definition markerList (markers : list string) : Prop :=
  Forall (fun d => match d with
                   | EmptyString => False
                   | String c _ => isMarkerChar c = true
                   end) markers.

(** A typewriter in the middle of the summary [s]: interval [i] is the
    one alive and [v] characters are shown. *)
Definition revealing (i : nat) (s : string) (v : nat) (w : Typewriter.World) : Prop :=
  Typewriter.intervals w = [Typewriter.mkInterval i (stripMarkdown s)]
  /\ translatedAiSummary (Typewriter.app w) = s
  /\ visibleCharacters (Typewriter.app w) = v
  /\ displayedAiSummary (Typewriter.app w) = slice0 v (stripMarkdown s).

(** What [translateText] returns against a network. *)
Definition translationOf (net : Network) (lang : Language) (text : string) : string :=
  if negb (truthy text) || Language_eqb lang en then text
  else
    match net (GetTranslation lang text) with
    | Rejected _ => text
    | Responded response =>
        if ok response then
          match data response with
          | Parsed d =>
              match joinSegments d with
              | Ret translated => translated
              | _ => text
              end
          | Unreadable _ => text
          end
        else text
    end.

(** The requests of the title translations, in the order of the items. *)
Definition titleRequests (lang : Language) (news : list NewsItem) : list Request :=
  flat_map (fun item =>
              if negb (truthy (title item)) || Language_eqb lang en
              then []
              else [GetTranslation lang (title item)]) news.

(** [n] responses arrive, one after the other, for the same function. *)
Fixpoint resumeTimes {A : Type} (net : Network) (n : nat) (x : AppState * Proc A)
  : AppState * Proc A :=
  match n with
  | O => x
  | S n' => resumeTimes net n' (Orchestrator.resume net (snd x) (fst x))
  end.

(** The function a finished run leaves behind. *)
Definition ended {A : Type} (o : Outcome A) : Proc A :=
  match o with
  | Returned a => Ret a
  | Threw e => Throw e
  end.

Module Scenario2.

(** The translation endpoint answers with two segments: the mark
    ["[tr] "] and the text itself. *)
Definition echoing : Network :=
  Scenario.network (Scenario.okResponse Scenario.listings) (fun _ => Scenario.twoDays)
    Scenario.analysisFor Scenario.twoItems
    (fun _ text =>
       Scenario.okResponse
         (JArr [JArr [JArr [JStr "[tr] "; JStr ""]; JArr [JStr text; JStr text]]])).

(** The news endpoint answers 503 after the analysis succeeded. *)
Definition newsDown : Network :=
  Scenario.network (Scenario.okResponse Scenario.listings) (fun _ => Scenario.twoDays)
    Scenario.analysisFor
    (fun _ => Scenario.errorResponse 503 "Service Unavailable" (mkErrorData None None))
    Scenario.noTranslation.

(** The listings endpoint answers 502. *)
Definition listingsDown : Network :=
  Scenario.network
    (Scenario.errorResponse 502 "Bad Gateway" (mkErrorData (Some "upstream down") None))
    (fun _ => Scenario.twoDays) Scenario.analysisFor Scenario.twoItems
    Scenario.noTranslation.

Definition twoNews : list NewsItem :=
  [ mkNewsItem "ETH rallies" "https://example.org/1";
    mkNewsItem "ETH explained" "https://example.org/2" ].

(** A quote that carries no rank. *)
Definition unranked (sym : string) : RawCoin :=
  {| raw_id := sym; raw_name := sym; raw_symbol := sym; raw_logo := None;
     raw_currentPrice := Some 1%Q; raw_volume24h := Some 1000%Q;
     raw_percentChange1h := None; raw_percentChange24h := None;
     raw_percentChange7d := None; raw_marketCap := Some 500000%Q;
     raw_cmcRank := None |}.

(** A quote without rank, then the rank-1 asset. *)
Definition unrankedFirst : list RawCoin :=
  [ unranked "NEW"; Scenario.rawCoin "BTC" 1 60000%Q ].

(** The rank-1 asset, then a quote whose rank is the number 0. *)
Definition rankZeroLast : list RawCoin :=
  [ Scenario.rawCoin "BTC" 1 60000%Q; Scenario.rawCoin "ZERO" 0 1%Q ].

(** The listings endpoint answers ok with the quotes [l]. *)
Definition listing (l : list RawCoin) : Network :=
  Scenario.network (Scenario.okResponse l) (fun _ => Scenario.twoDays)
    Scenario.analysisFor Scenario.twoItems Scenario.noTranslation.

(** The summary [Hello world], five characters revealed. *)
Definition fiveRevealed : list Typewriter.Event :=
  Typewriter.NewTranslation "Hello world" :: Typewriter.ticks (repeat 2 5).

End Scenario2.

(** * Proofs *)

(** ** Asynchronous functions that touch neither the state nor the network *)

Lemma immediate_bind {A B : Type} (p : Proc A) (f : A -> Proc B) :
  immediate p -> (forall a, immediate (f a)) -> immediate (pbind p f).
Proof.
  destruct p as [a | e | u k | r k]; simpl; intros Hp Hf; try contradiction.
  - apply Hf.
  - exact I.
Qed.

Lemma index0_immediate (v : json) : immediate (index0 v).
Proof.
  destruct v as [ | b | shown | s | items | fields]; simpl; try exact I.
  destruct s; exact I.
Qed.

Lemma mapProc_immediate {A B : Type} (f : A -> Proc B) (l : list A) :
  (forall a, immediate (f a)) -> immediate (mapProc f l).
Proof.
  intros Hf. induction l as [ | x l IH]; simpl.
  - exact I.
  - apply immediate_bind; [apply Hf | intros y].
    apply immediate_bind; [exact IH | intros ys; exact I].
Qed.

Lemma joinSegments_immediate (d : json) : immediate (joinSegments d).
Proof.
  unfold joinSegments. apply immediate_bind; [apply index0_immediate | ].
  intros [v | ]; [ | exact I].
  destruct v; try exact I.
  apply immediate_bind; [ | intros; exact I].
  apply mapProc_immediate, index0_immediate.
Qed.

(** What the [try] of [translateText] comes to once the response is in. *)
Lemma translate_after_fetch (text : string) (res : FetchResult json) :
  exists s,
    try_catch
      (pbind (match res with
              | Rejected m => Throw m
              | Responded resp => Ret resp
              end)
         (fun response =>
            pbind (when (negb (ok response)) (Throw "Translation request failed"))
              (fun _ => pbind (jsonOf response)
                 (fun data => pbind (joinSegments data) (fun translated => Ret translated)))))
      (fun _ => Ret text) = Ret s
    /\ (translationFails res = true -> s = text).
Proof.
  destruct res as [m | response]; simpl.
  - exists text. split; reflexivity.
  - unfold jsonOf. destruct (ok response); simpl.
    + destruct (data response) as [d | m]; simpl.
      * pose proof (joinSegments_immediate d) as Himm.
        destruct (joinSegments d) as [s | e | u k | r k]; simpl in *; try contradiction.
        -- exists s. split; [reflexivity | discriminate].
        -- exists text. split; reflexivity.
      * exists text. split; reflexivity.
    + exists text. split; reflexivity.
Qed.

(** C5. Translating into English, the source language, returns the input
    unchanged: the function is the plain return of its argument, and a
    run of it issues no request and leaves the state alone. *)
Theorem translateText_english_is_identity :
  forall (text : string) (net : Network) (st : AppState),
    translateText text en = Ret text
    /\ run net (translateText text en) st = (Returned text, st, []).
Proof.
  intros text net st.
  assert (H : translateText text en = Ret text).
  { unfold translateText. simpl. rewrite orb_true_r. reflexivity. }
  split; [exact H | rewrite H; reflexivity].
Qed.

(** C6 (amended). [translateText] never throws, and whenever the call
    fails by a rejected fetch, a non-ok response, a body that is not
    JSON, or an exception while the segments are read, it returns the
    original text; it leaves the state alone. *)
Theorem translateText_best_effort :
  forall (text : string) (targetLang : Language) (net : Network) (st : AppState),
    exists s log,
      run net (translateText text targetLang) st = (Returned s, st, log)
      /\ (translationFails (net (GetTranslation targetLang text)) = true -> s = text).
Proof.
  intros text targetLang net st. unfold translateText.
  destruct (negb (truthy text) || Language_eqb targetLang en).
  - exists text, []. split; reflexivity.
  - cbn.
    destruct (translate_after_fetch text (net (GetTranslation targetLang text)))
      as [s [Hs Hfail]].
    cbn in Hs. rewrite Hs. exists s, [GetTranslation targetLang text].
    split; [reflexivity | exact Hfail].
Qed.

(** C6 (the claim as stated fails). A body of the wrong shape that raises
    nothing is not noticed: with the segment a bare string instead of an
    array, ["Hello world"] comes back as ["M"]. *)
Lemma translateText_wrong_shape_unnoticed :
  wellFormedTranslation (JArr [JArr [JStr "Merhaba dunya"]]) = false
  /\ outcomeOf (run (Scenario.translating (JArr [JArr [JStr "Merhaba dunya"]]))
                  (translateText "Hello world" tr) (initialState 1024))
     = Returned "M".
Proof. split; reflexivity. Qed.

(** ** The sort by rank *)

Lemma insert_permutation {A : Type} (comparefn : A -> A -> option Q) (x : A) (l : list A) :
  Permutation (x :: l) (insert comparefn x l).
Proof.
  induction l as [ | y l IH]; simpl.
  - apply Permutation_refl.
  - destruct (Qle_bool (SortCompare comparefn x y) 0).
    + apply Permutation_refl.
    + eapply perm_trans; [apply perm_swap | apply perm_skip, IH].
Qed.

Lemma sort_permutation {A : Type} (comparefn : A -> A -> option Q) (l : list A) :
  Permutation l (sort comparefn l).
Proof.
  induction l as [ | x l IH]; simpl.
  - apply perm_nil.
  - eapply perm_trans; [apply perm_skip, IH | apply insert_permutation].
Qed.

Lemma sub_nonpos (a b : Q) : Qle_bool (a - b) 0 = true <-> (a <= b)%Q.
Proof.
  rewrite Qle_bool_iff. split; intros H; lra.
Qed.

Lemma byRank_le (x y : CoinData) :
  hasRank x -> hasRank y ->
  Qle_bool (SortCompare byRank x y) 0 = true -> rankLe x y.
Proof.
  unfold hasRank, rankLe, SortCompare, byRank, minus.
  destruct (cmcRank x) as [a | ], (cmcRank y) as [b | ]; simpl; try discriminate.
  intros _ _ H. apply sub_nonpos. exact H.
Qed.

Lemma byRank_gt (x y : CoinData) :
  hasRank x -> hasRank y ->
  Qle_bool (SortCompare byRank x y) 0 = false -> rankLe y x.
Proof.
  unfold hasRank, rankLe, SortCompare, byRank, minus.
  destruct (cmcRank x) as [a | ], (cmcRank y) as [b | ]; simpl; try discriminate.
  intros _ _ H.
  destruct (Qlt_le_dec b a) as [Hlt | Hle].
  - apply Qlt_le_weak. exact Hlt.
  - apply sub_nonpos in Hle. rewrite Hle in H. discriminate.
Qed.

Lemma insert_sorted (x : CoinData) (l : list CoinData) :
  hasRank x -> Forall hasRank l ->
  Sorted rankLe l -> Sorted rankLe (insert byRank x l).
Proof.
  intros Hx Hl Hs. induction Hs as [ | y l Hs IH Hhd]; simpl.
  - repeat constructor.
  - inversion Hl as [ | ? ? Hy Hl']; subst.
    destruct (Qle_bool (SortCompare byRank x y) 0) eqn:Hc.
    + constructor; [constructor; assumption | constructor].
      apply byRank_le; assumption.
    + constructor; [apply IH; assumption | ].
      destruct l as [ | z l]; simpl.
      * constructor. apply byRank_gt; assumption.
      * destruct (Qle_bool (SortCompare byRank x z) 0).
        -- constructor. apply byRank_gt; assumption.
        -- inversion Hhd; subst. constructor. assumption.
Qed.

Lemma sort_keeps {A : Type} (P : A -> Prop) (comparefn : A -> A -> option Q) (l : list A) :
  Forall P l -> Forall P (sort comparefn l).
Proof.
  intros H. rewrite Forall_forall in *. intros x Hin. apply H.
  eapply Permutation_in; [apply Permutation_sym, sort_permutation | exact Hin].
Qed.

Lemma sort_sorted (l : list CoinData) :
  Forall hasRank l -> Sorted rankLe (sort byRank l).
Proof.
  induction l as [ | x l IH]; simpl; intros H.
  - constructor.
  - inversion H; subst.
    apply insert_sorted; [assumption | apply sort_keeps; assumption | apply IH; assumption].
Qed.

Lemma ranked_hasRank (coin : RawCoin) : ranked coin -> hasRank (toCoinData coin).
Proof.
  intros [q [Hq Hz]]. unfold hasRank, toCoinData, orNA; simpl.
  rewrite Hq, Hz. reflexivity.
Qed.

Lemma rankLe_trans (a b c : CoinData) : rankLe a b -> rankLe b c -> rankLe a c.
Proof.
  unfold rankLe.
  destruct (cmcRank a), (cmcRank b), (cmcRank c); try contradiction.
  apply Qle_trans.
Qed.

Lemma rankLe_refl (a : CoinData) : hasRank a -> rankLe a a.
Proof.
  unfold hasRank, rankLe. destruct (cmcRank a); [intros _; apply Qle_refl | discriminate].
Qed.

(** The head of a list sorted by rank ranks first. *)
Lemma sorted_head_lowest (first : CoinData) (l : list CoinData) :
  hasRank first -> Sorted rankLe (first :: l) -> Forall (rankLe first) (first :: l).
Proof.
  intros Hf Hs. constructor; [apply rankLe_refl; exact Hf | ].
  apply Sorted_StronglySorted in Hs; [ | exact rankLe_trans].
  inversion Hs; assumption.
Qed.

(** What a successful [fetchCoins] commits. *)
Lemma fetchCoins_success (net : Network) (st : AppState)
    (response : Response (list RawCoin)) (json : list RawCoin) :
  net GetListings = Responded response ->
  ok response = true ->
  data response = Parsed json ->
  let fetchedCoins := sort byRank (map toCoinData json) in
  stateOf (run net fetchCoins st) =
    put_loadingInitialData false
      (match fetchedCoins with
       | first :: _ => put_selected (symbol first) (put_coins fetchedCoins st)
       | [] => put_coins fetchedCoins st
       end).
Proof.
  intros Hnet Hok Hdata. unfold fetchCoins. cbn. rewrite Hnet. cbn.
  unfold jsonOf. rewrite Hok, Hdata. cbn.
  destruct (sort byRank (map toCoinData json)); reflexivity.
Qed.

(** C8 (amended). For every listing that is fetched successfully and
    whose coins all carry a rank, the stored list is the fetched one reordered by rank
    ascending, and when it is not empty its first coin, which no coin
    ranks before, is the selected one. *)
Theorem fetchCoins_sorts_by_rank_and_selects_first :
  forall (net : Network) (st : AppState)
         (response : Response (list RawCoin)) (json : list RawCoin),
    net GetListings = Responded response ->
    ok response = true ->
    data response = Parsed json ->
    Forall ranked json ->
    let st' := stateOf (run net fetchCoins st) in
    Permutation (map toCoinData json) (coins st')
    /\ Sorted rankLe (coins st')
    /\ match coins st' with
       | first :: _ => selected st' = symbol first /\ Forall (rankLe first) (coins st')
       | [] => json = []
       end.
Proof.
  intros net st response json Hnet Hok Hdata Hranked st'.
  assert (Hall : Forall hasRank (map toCoinData json)).
  { apply Forall_map. eapply Forall_impl; [ | exact Hranked].
    intros a. apply ranked_hasRank. }
  assert (Hst : coins st' = sort byRank (map toCoinData json)
                /\ match sort byRank (map toCoinData json) with
                   | first :: _ => selected st' = symbol first
                   | [] => True
                   end).
  { subst st'. rewrite (fetchCoins_success net st response json Hnet Hok Hdata).
    destruct (sort byRank (map toCoinData json)); split; reflexivity || exact I. }
  destruct Hst as [Hcoins Hsel]. rewrite Hcoins.
  pose proof (sort_permutation byRank (map toCoinData json)) as Hperm.
  pose proof (sort_sorted _ Hall) as Hsorted.
  pose proof (sort_keeps hasRank byRank _ Hall) as Hkeeps.
  split; [exact Hperm | split; [exact Hsorted | ]].
  destruct (sort byRank (map toCoinData json)) as [ | first rest].
  - apply Permutation_sym, Permutation_nil in Hperm.
    destruct json; [reflexivity | discriminate].
  - split; [exact Hsel | ].
    apply sorted_head_lowest; [inversion Hkeeps; assumption | exact Hsorted].
Qed.

Lemma listings_ranked : Forall ranked Scenario.listings.
Proof.
  repeat constructor; eexists; split; reflexivity.
Defined.

(** The listing with ranks 3, 1, 5, 2, 4 is stored as 1, 2, 3, 4, 5 with
    the rank-1 asset selected. *)
Lemma fetchCoins_sorts_witness :
  map cmcRank (map toCoinData Scenario.listings) = [Num 3; Num 1; Num 5; Num 2; Num 4]
  /\ map cmcRank (coins Scenario.loaded) = [Num 1; Num 2; Num 3; Num 4; Num 5]
  /\ selected Scenario.loaded = "BTC"
  /\ Sorted rankLe (coins Scenario.loaded).
Proof.
  split; [reflexivity | split; [reflexivity | split; [reflexivity | ]]].
  exact (proj1 (proj2 (fetchCoins_sorts_by_rank_and_selects_first
                         Scenario.calm (initialState 1024) _ Scenario.listings
                         eq_refl eq_refl eq_refl listings_ranked))).
Defined.

(** C8 (the claim as stated fails). A quote without rank is stored with
    the rank ['N/A'], every comparison with it is NaN, which the sort
    reads as equal, and the stable sort leaves the two quotes where they
    were: with [NEW] (no rank) before [BTC] (rank 1) the stored list
    starts with [NEW], which is selected, not the rank-1 asset.  The
    code reads the rank 0 as a missing one: with [BTC] (rank 1) before
    [ZERO] (rank 0) the rank-1 asset stays first and is selected. *)
Lemma unranked_quote_is_not_sorted :
  let st1 :=
    stateOf (run (Scenario2.listing Scenario2.unrankedFirst) fetchCoins
               (initialState 1024)) in
  let st2 :=
    stateOf (run (Scenario2.listing Scenario2.rankZeroLast) fetchCoins
               (initialState 1024)) in
  map (fun c => (symbol c, cmcRank c)) (coins st1) = [("NEW", NA); ("BTC", Num 1%Q)]
  /\ selected st1 = "NEW"
  /\ ~ Sorted rankLe (coins st1)
  /\ map (fun c => (symbol c, cmcRank c)) (coins st2) = [("BTC", Num 1%Q); ("ZERO", NA)]
  /\ selected st2 = "BTC"
  /\ ~ Sorted rankLe (coins st2).
Proof.
  cbv zeta.
  split; [vm_compute; reflexivity | ].
  split; [vm_compute; reflexivity | ].
  split.
  - intros H. vm_compute in H.
    inversion H as [ | first rest _ Hhd]; subst.
    inversion Hhd as [ | second rest' Hle]; subst. exact Hle.
  - split; [vm_compute; reflexivity | ].
    split; [vm_compute; reflexivity | ].
    intros H. vm_compute in H.
    inversion H as [ | first rest _ Hhd]; subst.
    inversion Hhd as [ | second rest' Hle]; subst. exact Hle.
Qed.

(** ** Rounding *)

Lemma pow10_pos (digits : nat) : (0 < pow10 digits)%Z.
Proof. unfold pow10. apply Z.pow_pos_nonneg; lia. Qed.

Lemma pow10_Qpos (digits : nat) : (0 < inject_Z (pow10 digits))%Q.
Proof.
  change 0%Q with (inject_Z 0). rewrite <- Zlt_Qlt. apply pow10_pos.
Qed.

Lemma scaled_nonneg (digits : nat) (x : Q) : (0 <= scaled digits x)%Z.
Proof.
  unfold scaled. change 0%Z with (Qfloor 0). apply Qfloor_resp_le.
  pose proof (Qabs_nonneg x) as Hx. pose proof (pow10_Qpos digits) as Hp.
  assert (0 <= Qabs x * inject_Z (pow10 digits))%Q by (apply Qmult_le_0_compat; lra).
  lra.
Qed.

(** The floor of an integer and a half is the integer. *)
Lemma Qfloor_half (n : Z) : Qfloor (inject_Z n + (1 # 2))%Q = n.
Proof.
  pose proof (Qfloor_le (inject_Z n + (1 # 2))%Q) as Hle.
  pose proof (Qlt_floor (inject_Z n + (1 # 2))%Q) as Hlt.
  set (f := Qfloor (inject_Z n + (1 # 2))%Q) in *.
  assert (H1 : (inject_Z f < inject_Z (n + 1))%Q).
  { rewrite inject_Z_plus. change (inject_Z 1) with 1%Q. lra. }
  assert (H2 : (inject_Z n < inject_Z (f + 1))%Q) by lra.
  rewrite <- Zlt_Qlt in H1, H2. lia.
Qed.

(** A ratio over [10^digits] scales back to the magnitude of its numerator. *)
Lemma scaled_of_ratio (digits : nat) (s : Z) (y : Q) :
  (y == inject_Z s / inject_Z (pow10 digits))%Q -> scaled digits y = Z.abs s.
Proof.
  intros Hy. unfold scaled.
  rewrite <- (Qfloor_half (Z.abs s)). apply Qfloor_comp.
  pose proof (pow10_Qpos digits) as Hp.
  assert (Habs : (Qabs y == inject_Z (Z.abs s) / inject_Z (pow10 digits))%Q).
  { rewrite Hy. unfold Qdiv. rewrite Qabs_Qmult, Qabs_Qinv.
    rewrite (Qabs_pos (inject_Z (pow10 digits))) by lra.
    apply Qmult_comp; [ | reflexivity].
    unfold inject_Z. rewrite <- Zabs_Qabs. reflexivity. }
  rewrite Habs. field. lra.
Qed.

Lemma isNegative_of_ratio (digits : nat) (s : Z) (y : Q) :
  (y == inject_Z s / inject_Z (pow10 digits))%Q -> isNegative y = (s <? 0)%Z.
Proof.
  intros Hy. unfold isNegative.
  pose proof (pow10_Qpos digits) as Hp.
  destruct (Z.ltb_spec s 0) as [Hneg | Hpos].
  - destruct (Qle_bool 0 y) eqn:Hle; [ | reflexivity].
    apply Qle_bool_iff in Hle. exfalso.
    assert (Hs : (inject_Z s < 0)%Q) by (change 0%Q with (inject_Z 0); rewrite <- Zlt_Qlt; exact Hneg).
    assert (Hy' : (y * inject_Z (pow10 digits) == inject_Z s)%Q) by (rewrite Hy; field; lra).
    assert (0 <= y * inject_Z (pow10 digits))%Q by (apply Qmult_le_0_compat; lra).
    lra.
  - assert (Hle : Qle_bool 0 y = true).
    { apply Qle_bool_iff.
      assert (Hs : (0 <= inject_Z s)%Q) by (change 0%Q with (inject_Z 0); rewrite <- Zle_Qle; exact Hpos).
      rewrite Hy. apply Qle_shift_div_l; lra. }
    rewrite Hle. reflexivity.
Qed.

(** Rounding a rounded number changes nothing: the second rounding of the
    display is the identity on the value. *)
Lemma roundTo_idempotent (digits : nat) (x : Q) :
  roundTo digits (roundTo digits x) = roundTo digits x.
Proof.
  pose proof (scaled_nonneg digits x) as Hn.
  set (s := if isNegative x then (- scaled digits x)%Z else scaled digits x).
  assert (Hy : (roundTo digits x == inject_Z s / inject_Z (pow10 digits))%Q)
    by (unfold roundTo; apply Qred_correct).
  unfold roundTo at 1.
  rewrite (scaled_of_ratio digits s _ Hy), (isNegative_of_ratio digits s _ Hy).
  unfold roundTo. fold s. f_equal.
  replace (if (s <? 0)%Z then (- Z.abs s)%Z else Z.abs s) with s; [reflexivity | ].
  destruct (Z.ltb_spec s 0); lia.
Qed.

(** ** Strings *)

Lemma slice0_length (n : nat) (s : string) :
  n <= String.length s -> String.length (slice0 n s) = n.
Proof.
  unfold slice0. revert n. induction s as [ | c s IH]; intros [ | n] H; simpl in *;
    try reflexivity; try lia.
  rewrite IH; [reflexivity | lia].
Qed.

Lemma slice0_prefix (n : nat) (s : string) : exists rest, s = slice0 n s ++ rest.
Proof.
  unfold slice0. revert n. induction s as [ | c s IH]; intros [ | n]; simpl.
  - exists "". reflexivity.
  - exists "". reflexivity.
  - exists (String c s). reflexivity.
  - destruct (IH n) as [rest Hrest]. exists rest. rewrite <- Hrest. reflexivity.
Qed.

Lemma truthy_false (s : string) : truthy s = false -> s = "".
Proof.
  unfold truthy. destruct (String.eqb_spec s ""); [intros _; assumption | discriminate].
Qed.

(** ** The typewriter *)

Module TypewriterFacts.
Import Typewriter.
#[local] Arguments stripMarkdown : simpl never.
#[local] Arguments slice0 : simpl never.

Lemma clearInterval_all (i : nat) (timers : list Interval) :
  (forall t, In t timers -> intervalId t = i) -> clearInterval i timers = [].
Proof.
  unfold clearInterval. induction timers as [ | t timers IH]; simpl; intros H.
  - reflexivity.
  - rewrite (H t (or_introl eq_refl)), Nat.eqb_refl. simpl.
    apply IH. intros t' Ht'. apply H. right. exact Ht'.
Qed.

(** The cleanup leaves no interval alive. *)
Lemma runCleanup_rendered (st' : AppState) (w : World) :
  invariant w ->
  runCleanup (mkWorld st' (intervals w) (cleanup w) (nextId w))
  = mkWorld st' [] None (nextId w).
Proof.
  intros Hinv. unfold runCleanup. cbn.
  destruct (cleanup w) as [i | ] eqn:Hc.
  - f_equal. apply clearInterval_all. intros t Ht.
    destruct (intervals_current w Hinv t Ht) as [Ht' _]. congruence.
  - destruct (intervals w) as [ | t ts] eqn:Hi; [reflexivity | ].
    destruct (intervals_current w Hinv t) as [Ht' _]; [rewrite Hi; left; reflexivity | ].
    congruence.
Qed.

Lemma mounted_invariant (innerWidth : nat) : invariant (mounted innerWidth).
Proof.
  split.
  - simpl. lia.
  - reflexivity.
  - intros t [<- | []]. repeat split. simpl. lia.
Qed.

(** A new summary: the counter restarts, and the only interval alive
    afterwards is the one just started (none for an empty summary). *)
Lemma setTranslated_changed (s : string) (w : World) :
  invariant w ->
  String.eqb s (translatedAiSummary (app w)) = false ->
  setTranslated s w
  = mkWorld
      (put_displayedAiSummary (slice0 0 (stripMarkdown s))
         (put_visibleCharacters 0 (put_translatedAiSummary s (app w))))
      (if truthy s then [mkInterval (nextId w) (stripMarkdown s)] else [])
      (if truthy s then Some (nextId w) else None)
      (if truthy s then S (nextId w) else nextId w).
Proof.
  intros Hinv Hneq. unfold setTranslated. rewrite Hneq.
  rewrite (runCleanup_rendered _ w Hinv).
  unfold typewriterEffect, displayEffect. cbn.
  destruct (truthy s) eqn:Hs; cbn.
  - rewrite Hs. destruct (visibleCharacters (app w)); cbn; try rewrite Hs; reflexivity.
  - apply truthy_false in Hs. subst s.
    destruct (visibleCharacters (app w)); reflexivity.
Qed.

Lemma setTranslated_invariant (s : string) (w : World) :
  invariant w -> invariant (setTranslated s w).
Proof.
  intros Hinv.
  destruct (String.eqb s (translatedAiSummary (app w))) eqn:Hneq.
  - unfold setTranslated. rewrite Hneq. exact Hinv.
  - rewrite (setTranslated_changed s w Hinv Hneq).
    split; cbn; [lia | reflexivity | ].
    destruct (truthy s); intros t Ht; [ | contradiction].
    destruct Ht as [<- | []]. cbn. repeat split. lia.
Qed.

Lemma find_interval (i : nat) (timers : list Interval) (t : Interval) :
  find (fun t => (intervalId t =? i)%nat) timers = Some t ->
  In t timers /\ intervalId t = i.
Proof.
  intros H. apply find_some in H. destruct H as [Hin Heq].
  apply Nat.eqb_eq in Heq. split; assumption.
Qed.

Lemma tick_invariant (i : nat) (w : World) : invariant w -> invariant (tick i w).
Proof.
  intros Hinv. unfold tick.
  destruct (find _ (intervals w)) as [t | ] eqn:Hfind; [ | exact Hinv].
  destruct (find_interval _ _ _ Hfind) as [Hin Hid].
  destruct (intervals_current w Hinv t Hin) as [Hclean [Hplain Hnext]].
  destruct (Nat.ltb_spec (visibleCharacters (app w)) (String.length (plainAiSummary t)))
    as [Hlt | Hge].
  - rewrite Hplain in Hlt. unfold displayEffect. cbn.
    destruct (truthy (translatedAiSummary (app w))) eqn:Hs.
    + split; cbn; [lia | reflexivity | exact (intervals_current w Hinv)].
    + apply truthy_false in Hs. rewrite Hs in Hlt.
      change (stripMarkdown "") with "" in Hlt. simpl in Hlt. lia.
  - split; cbn.
    + exact (counter_bounded w Hinv).
    + exact (displayed_prefix w Hinv).
    + intros t' Ht'. apply (intervals_current w Hinv).
      unfold clearInterval in Ht'. apply filter_In in Ht'. tauto.
Qed.

Lemma replay_invariant (events : list Event) (w : World) :
  invariant w -> invariant (replay events w).
Proof.
  unfold replay. revert w. induction events as [ | e events IH]; simpl; intros w Hinv.
  - exact Hinv.
  - apply IH. destruct e; [apply setTranslated_invariant | apply tick_invariant]; exact Hinv.
Qed.

Lemma reachable_invariant (w : World) : reachable w -> invariant w.
Proof.
  intros [innerWidth [events ->]]. apply replay_invariant, mounted_invariant.
Qed.

Lemma reachable_step (e : Event) (w : World) : reachable w -> reachable (step e w).
Proof.
  intros [innerWidth [events ->]]. exists innerWidth, (events ++ [e])%list.
  unfold replay. rewrite fold_left_app. reflexivity.
Qed.

Lemma tick_step (i : nat) (w : World) :
  invariant w ->
  visibleCharacters (app w) <= visibleCharacters (app (tick i w))
  /\ translatedAiSummary (app (tick i w)) = translatedAiSummary (app w).
Proof.
  intros Hinv. unfold tick.
  destruct (find _ (intervals w)) as [t | ]; [ | split; [lia | reflexivity]].
  destruct (visibleCharacters (app w) <? String.length (plainAiSummary t))%nat.
  - unfold displayEffect. cbn.
    destruct (truthy (translatedAiSummary (app w))); cbn; split; try lia; reflexivity.
  - cbn. split; [lia | reflexivity].
Qed.

Lemma ticks_monotone (ids : list nat) (w : World) :
  invariant w ->
  visibleCharacters (app w) <= visibleCharacters (app (replay (ticks ids) w))
  /\ translatedAiSummary (app (replay (ticks ids) w)) = translatedAiSummary (app w).
Proof.
  unfold replay, ticks. revert w. induction ids as [ | i ids IH]; simpl; intros w Hinv.
  - split; [lia | reflexivity].
  - destruct (tick_step i w Hinv) as [Hle Hsame].
    destruct (IH (tick i w) (tick_invariant i w Hinv)) as [Hle' Hsame'].
    split; [lia | congruence].
Qed.

Lemma tick_at_full_length (i : nat) (w : World) (t : Interval) :
  invariant w ->
  find (fun t => (intervalId t =? i)%nat) (intervals w) = Some t ->
  visibleCharacters (app w)
  = String.length (stripMarkdown (translatedAiSummary (app w))) ->
  tick i w = mkWorld (app w) [] (cleanup w) (nextId w).
Proof.
  intros Hinv Hfind Hfull. unfold tick. rewrite Hfind.
  destruct (find_interval _ _ _ Hfind) as [Hin Hid].
  destruct (intervals_current w Hinv t Hin) as [Hclean [Hplain Hnext]].
  rewrite Hplain, Hfull, Nat.ltb_irrefl. f_equal.
  apply clearInterval_all. intros t' Ht'.
  destruct (intervals_current w Hinv t' Ht') as [Hclean' _]. congruence.
Qed.

End TypewriterFacts.

Import Typewriter.

(** C9. In every state the typewriter can reach, the reveal counter is
    at most the length of the markdown-stripped summary; any run of ticks
    leaves the summary alone and never lowers the counter; a summary that
    differs from the current one resets the counter to 0 and leaves none
    of the earlier intervals alive; and a tick at full length clears the
    interval and changes nothing else, after which no tick has any
    effect. *)
Theorem typewriter_counter_monotone_bounded_reset :
  forall w : World,
    reachable w ->
    visibleCharacters (app w)
    <= String.length (stripMarkdown (translatedAiSummary (app w)))
    /\ (forall ids : list nat,
          let w' := replay (ticks ids) w in
          visibleCharacters (app w) <= visibleCharacters (app w')
          /\ visibleCharacters (app w')
             <= String.length (stripMarkdown (translatedAiSummary (app w)))
          /\ translatedAiSummary (app w') = translatedAiSummary (app w))
    /\ (forall s : string,
          s <> translatedAiSummary (app w) ->
          let w' := setTranslated s w in
          visibleCharacters (app w') = 0
          /\ translatedAiSummary (app w') = s
          /\ forall t, In t (intervals w) ->
               ~ In (intervalId t) (map intervalId (intervals w')))
    /\ (forall (i : nat) (t : Interval),
          find (fun t => (intervalId t =? i)%nat) (intervals w) = Some t ->
          visibleCharacters (app w)
          = String.length (stripMarkdown (translatedAiSummary (app w))) ->
          intervals (tick i w) = []
          /\ app (tick i w) = app w
          /\ forall j : nat, tick j (tick i w) = tick i w).
Proof.
  intros w Hreach.
  pose proof (TypewriterFacts.reachable_invariant w Hreach) as Hinv.
  split; [exact (counter_bounded w Hinv) | ].
  split; [ | split].
  - intros ids w'.
    destruct (TypewriterFacts.ticks_monotone ids w Hinv) as [Hle Hsame].
    pose proof (counter_bounded _
                  (TypewriterFacts.replay_invariant (ticks ids) w Hinv))
      as Hbound.
    fold w' in Hle, Hsame, Hbound. rewrite Hsame in Hbound.
    split; [exact Hle | split; [exact Hbound | exact Hsame]].
  - intros s Hneq w'.
    assert (Heqb : String.eqb s (translatedAiSummary (app w)) = false)
      by (apply String.eqb_neq; exact Hneq).
    subst w'. rewrite (TypewriterFacts.setTranslated_changed s w Hinv Heqb). cbn.
    split; [reflexivity | split; [reflexivity | ]].
    intros t Ht Hin.
    destruct (intervals_current w Hinv t Ht) as [_ [_ Hlt]].
    destruct (truthy s); simpl in Hin; [ | exact Hin].
    destruct Hin as [Heq | []]. lia.
  - intros i t Hfind Hfull.
    rewrite (TypewriterFacts.tick_at_full_length i w t Hinv Hfind Hfull).
    split; [reflexivity | split; [reflexivity | ]].
    intros j. reflexivity.
Qed.

Lemma boldGreeting_reachable :
  reachable (replay Scenario.boldGreeting (mounted 1024)).
Proof. exists 1024, Scenario.boldGreeting. reflexivity. Defined.

(** The bold greeting after two ticks: two of its eight stripped
    characters are revealed. *)
Lemma typewriter_counter_witness :
  visibleCharacters (app (replay Scenario.boldGreeting (mounted 1024))) = 2
  /\ stripMarkdown
       (translatedAiSummary (app (replay Scenario.boldGreeting (mounted 1024))))
     = "Hi there"
  /\ visibleCharacters (app (replay Scenario.boldGreeting (mounted 1024)))
     <= String.length
          (stripMarkdown
             (translatedAiSummary (app (replay Scenario.boldGreeting (mounted 1024))))).
Proof.
  split; [reflexivity | split; [reflexivity | ]].
  exact (proj1 (typewriter_counter_monotone_bounded_reset _ boldGreeting_reachable)).
Defined.

(** The state an event leads to is the last render committed after it. *)
Lemma last_render_is_settled (e : Event) (w : World) :
  last (Renders.after e w) (app w) = app (step e w).
Proof.
  destruct e as [s | i]; cbn [Renders.after step].
  - unfold Renders.afterTranslation, setTranslated.
    destruct (String.eqb s (translatedAiSummary (app w))); [reflexivity | ].
    cbv zeta.
    match goal with
    | |- context [if ?c then [] else _] => destruct c
    end; reflexivity.
  - unfold Renders.afterTick, tick.
    destruct (find (fun t => (intervalId t =? i)%nat) (intervals w)) as [t | ];
      [ | reflexivity].
    cbv zeta.
    destruct (visibleCharacters (app w) <? String.length (plainAiSummary t))%nat;
      reflexivity.
Qed.

(** C10 (amended). In every state the typewriter reaches once the
    effects of a render have run, the displayed summary is the first
    [visibleCharacters] characters of the markdown-stripped translated
    summary: a prefix of it, exactly as long as the counter, so that no
    character beyond the counter is shown, and empty when the translated
    summary is empty.  These states are the last renders committed after
    a new summary and after a tick: the last render after any event is
    the state the event leads to, and the equation holds in it. *)
Theorem displayed_summary_is_revealed_prefix :
  forall w : World,
    reachable w ->
    displayedAiSummary (app w)
    = slice0 (visibleCharacters (app w)) (stripMarkdown (translatedAiSummary (app w)))
    /\ (exists rest,
          stripMarkdown (translatedAiSummary (app w)) = displayedAiSummary (app w) ++ rest)
    /\ String.length (displayedAiSummary (app w)) = visibleCharacters (app w)
    /\ (translatedAiSummary (app w) = "" -> displayedAiSummary (app w) = "")
    /\ (forall e : Event,
          let settled := last (Renders.after e w) (app w) in
          settled = app (step e w) /\ Renders.revealedPrefix settled).
Proof.
  intros w Hreach.
  pose proof (TypewriterFacts.reachable_invariant w Hreach) as Hinv.
  pose proof (displayed_prefix w Hinv) as Hd.
  pose proof (counter_bounded w Hinv) as Hb.
  split; [exact Hd | split; [ | split; [ | split]]].
  - rewrite Hd. apply slice0_prefix.
  - rewrite Hd. apply slice0_length. exact Hb.
  - intros Hempty. rewrite Hd, Hempty.
    destruct (visibleCharacters (app w)); reflexivity.
  - intros e settled. subst settled. rewrite last_render_is_settled.
    split; [reflexivity | ].
    apply (displayed_prefix (step e w)).
    apply TypewriterFacts.reachable_invariant.
    apply TypewriterFacts.reachable_step. exact Hreach.
Qed.

Lemma nestedEmphasis_reachable :
  reachable (replay Scenario.nestedEmphasis (mounted 1024)).
Proof. exists 1024, Scenario.nestedEmphasis. reflexivity. Defined.

Lemma displayed_summary_witness :
  displayedAiSummary (app (replay Scenario.nestedEmphasis (mounted 1024)))
  = slice0 3 (stripMarkdown "_*a*_").
Proof.
  exact (proj1 (displayed_summary_is_revealed_prefix _ nestedEmphasis_reachable)).
Defined.

(** C10 (the claim as stated fails).  Not at every point: with five
    characters of [Hello world] revealed, the summary [Hi] arrives.  The
    render with the new summary still shows [Hello]; the next one, after
    both effects, shows all of [Hi] with the counter at 0, two characters
    beyond the counter; only the third shows the empty prefix.  And not
    every marker goes: the summary [_*a*_] loses only its outer pair, so
    that fully revealed the user reads [*a*], a raw italic pair. *)
Lemma stale_renders_and_nested_markers :
  let w := replay Scenario2.fiveRevealed (mounted 1024) in
  Renders.shown (app w) = ("Hello world", 5, "Hello")
  /\ map Renders.shown (Renders.afterTranslation "Hi" w)
     = [("Hi", 5, "Hello"); ("Hi", 0, "Hi"); ("Hi", 0, "")]
  /\ ~ Renders.revealedPrefix (nth 0 (Renders.afterTranslation "Hi" w) (app w))
  /\ ~ Renders.revealedPrefix (nth 1 (Renders.afterTranslation "Hi" w) (app w))
  /\ displayedAiSummary (app (replay Scenario.nestedEmphasis (mounted 1024))) = "*a*"
  /\ showsEmphasisMarkers
       (displayedAiSummary (app (replay Scenario.nestedEmphasis (mounted 1024)))) = true.
Proof.
  cbv zeta.
  split; [vm_compute; reflexivity | ].
  split; [vm_compute; reflexivity | ].
  split; [intros H; vm_compute in H; discriminate H | ].
  split; [intros H; vm_compute in H; discriminate H | ].
  split; vm_compute; reflexivity.
Qed.

(** ** The detail cycle, path by path *)

Section DetailFacts.

Variable lib : TechnicalIndicators.
Variable net : Network.
Variable st : AppState.
Variables (sym : string) (coinList : list CoinData) (closureNews : list NewsItem).
Variable currentCoin : CoinData.
Hypothesis found :
  find (fun c => String.eqb (symbol c) sym) coinList = Some currentCoin.

(** The history request fails: the outer [catch] and [finally] run. *)
Lemma cycle_history_failure (e : string) :
  failureOf ohlcvErrorText (net (ohlcvRequest sym)) = Some e ->
  run net (fetchChartAndIndicatorsData lib sym coinList closureNews) st
  = (Returned tt, finished (failedWith e (started st)), [ohlcvRequest sym]).
Proof.
  unfold fetchChartAndIndicatorsData, failureOf, ohlcvRequest. cbn. rewrite found. cbn.
  destruct (net (GetOhlcv sym "1day" 200)) as [m | [isOk code text errorBody body]]; cbn.
  - intros [= <-]. reflexivity.
  - unfold errorJsonOf, jsonOf. destruct isOk; cbn.
    + destruct body as [j | m]; cbn; [intros H; discriminate H | ].
      intros [= <-]. reflexivity.
    + destruct errorBody as [d | m]; cbn; intros [= <-]; reflexivity.
Qed.

Section HistoryAnswered.

Variable response : Response OhlcvJson.
Variable ohlcvJson : OhlcvJson.
Hypothesis answered : net (ohlcvRequest sym) = Responded response.
Hypothesis isOk : ok response = true.
Hypothesis parsed : data response = Parsed ohlcvJson.

(** The history has no values: the [else] branch. *)
Lemma cycle_no_data :
  nonEmptyValues ohlcvJson = None ->
  run net (fetchChartAndIndicatorsData lib sym coinList closureNews) st
  = (Returned tt,
     finished (put_news [] (put_aiSummary noDataSummary
       (put_chartError (Some noOhlcvError)
          (put_indicators None (put_chartData None (started st)))))),
     [ohlcvRequest sym]).
Proof.
  intros Hnone. unfold ohlcvRequest in *.
  unfold fetchChartAndIndicatorsData. cbn. rewrite found. cbn.
  rewrite answered. cbn. unfold jsonOf. rewrite isOk, parsed. cbn. rewrite Hnone.
  reflexivity.
Qed.

Variable history : list Row.
Hypothesis hasValues : nonEmptyValues ohlcvJson = Some history.

(** The analysis request fails: the outer [catch] and [finally] run, and
    the news endpoint is never asked. *)
Lemma cycle_analysis_failure (e : string) :
  failureOf analysisErrorText
    (net (PostAnalyze (postedBody lib sym currentCoin closureNews history))) = Some e ->
  run net (fetchChartAndIndicatorsData lib sym coinList closureNews) st
  = (Returned tt, finished (failedWith e (charted lib sym history st)),
     [ohlcvRequest sym; PostAnalyze (postedBody lib sym currentCoin closureNews history)]).
Proof.
  unfold ohlcvRequest in *.
  unfold fetchChartAndIndicatorsData, postedBody, snapshotOf, failureOf.
  cbn. rewrite found. cbn.
  rewrite answered. cbn. unfold jsonOf at 1. rewrite isOk, parsed. cbn. rewrite hasValues.
  unfold withHistory. cbn.
  destruct (net (PostAnalyze _)) as [m | [aiOk code text errorBody body]]; cbn.
  - intros [= <-]. reflexivity.
  - unfold errorJsonOf, jsonOf. destruct aiOk; cbn.
    + destruct body as [j | m]; cbn; [intros H; discriminate H | ].
      intros [= <-]. reflexivity.
    + destruct errorBody as [d | m]; cbn; intros [= <-]; reflexivity.
Qed.

(** The analysis request succeeds: the summary is committed and the news
    part decides the news cells. *)
Lemma cycle_analysis_success (aiResponse : Response AnalysisJson) (aiJson : AnalysisJson) :
  net (PostAnalyze (postedBody lib sym currentCoin closureNews history))
  = Responded aiResponse ->
  ok aiResponse = true ->
  data aiResponse = Parsed aiJson ->
  run net (fetchChartAndIndicatorsData lib sym coinList closureNews) st
  = (Returned tt,
     finished (newsCommitted (net (GetNews sym))
                 (put_aiSummary (analysis aiJson) (charted lib sym history st))),
     [ohlcvRequest sym; PostAnalyze (postedBody lib sym currentCoin closureNews history);
      GetNews sym]).
Proof.
  intros Hai HaiOk HaiData. unfold ohlcvRequest in *.
  unfold fetchChartAndIndicatorsData, postedBody, snapshotOf in *.
  cbn. rewrite found. cbn.
  rewrite answered. cbn. unfold jsonOf at 1. rewrite isOk, parsed. cbn. rewrite hasValues.
  unfold withHistory. cbn. rewrite Hai. cbn.
  unfold jsonOf at 1. rewrite HaiOk, HaiData. cbn.
  unfold newsCommitted, failureOf.
  destruct (net (GetNews sym)) as [m | [newsOk code text errorBody body]]; cbn.
  - reflexivity.
  - unfold errorJsonOf, jsonOf. destruct newsOk; cbn.
    + destruct body as [j | m]; reflexivity.
    + destruct errorBody as [d | m]; reflexivity.
Qed.

(** Whatever the analysis endpoint answers, the second request of the
    cycle is the POST of the body built from the rounded snapshot. *)
Lemma cycle_posts_snapshot :
  analysisRequest
    (requestsOf (run net (fetchChartAndIndicatorsData lib sym coinList closureNews) st))
  = Some (postedBody lib sym currentCoin closureNews history).
Proof.
  destruct (failureOf analysisErrorText
              (net (PostAnalyze (postedBody lib sym currentCoin closureNews history))))
    as [e | ] eqn:Hfail.
  - rewrite (cycle_analysis_failure e Hfail). reflexivity.
  - unfold failureOf in Hfail.
    destruct (net (PostAnalyze (postedBody lib sym currentCoin closureNews history)))
      as [m | [aiOk code text errorBody body]] eqn:Hai; cbn in Hfail;
      [discriminate Hfail | ].
    destruct aiOk; [ | destruct errorBody; discriminate Hfail].
    destruct body as [aiJson | m]; [ | discriminate Hfail].
    rewrite (cycle_analysis_success _ aiJson Hai eq_refl eq_refl). reflexivity.
Qed.

End HistoryAnswered.

End DetailFacts.

(** C7. When the history endpoint answers ok with the JSON [null], with
    no [values], or with an empty [values], the cycle ends normally having
    asked for the history only (no analysis, no news request): the chart
    is [null], the indicator object is empty so that every cell of the
    table reads N/A, the AI summary is the fixed text ['No data to
    analyze.'], the news list is empty, the news error stays [null], the
    chart error is the fixed message ['No OHLCV data found for this coin
    from Twelve Data.'] and both loading flags are off. *)
Theorem empty_history_is_no_data :
  forall (lib : TechnicalIndicators) (net : Network) (st : AppState)
         (sym : string) (coinList : list CoinData) (closureNews : list NewsItem)
         (currentCoin : CoinData) (response : Response OhlcvJson) (ohlcvJson : OhlcvJson),
    find (fun c => String.eqb (symbol c) sym) coinList = Some currentCoin ->
    net (ohlcvRequest sym) = Responded response ->
    ok response = true ->
    data response = Parsed ohlcvJson ->
    match ohlcvJson with
    | Some body => values body = None \/ values body = Some []
    | None => True
    end ->
    let result := run net (fetchChartAndIndicatorsData lib sym coinList closureNews) st in
    outcomeOf result = Returned tt
    /\ requestsOf result = [ohlcvRequest sym]
    /\ askedNews (requestsOf result) = false
    /\ chartData (stateOf result) = None
    /\ indicators (stateOf result) = None
    /\ indicatorTable (stateOf result) = ["N/A"; "N/A"; "N/A"; "N/A"; "N/A"; "N/A"]
    /\ aiSummary (stateOf result) = "No data to analyze."
    /\ news (stateOf result) = []
    /\ newsError (stateOf result) = None
    /\ chartError (stateOf result)
       = Some "No OHLCV data found for this coin from Twelve Data."
    /\ chartLoading (stateOf result) = false
    /\ newsLoading (stateOf result) = false.
Proof.
  intros lib net st sym coinList closureNews currentCoin response ohlcvJson
         Hfound Hnet Hok Hdata Hempty result.
  assert (Hnone : nonEmptyValues ohlcvJson = None).
  { unfold nonEmptyValues. destruct ohlcvJson as [body | ]; [ | reflexivity].
    destruct Hempty as [-> | ->]; reflexivity. }
  subst result.
  rewrite (cycle_no_data lib net st sym coinList closureNews currentCoin Hfound
             response ohlcvJson Hnet Hok Hdata Hnone).
  repeat split.
Qed.

(** The history endpoint answers [{ values: [] }] for ETH: the cells the
    cycle leaves. *)
Lemma empty_history_witness :
  let result :=
    run Scenario.emptyHistory
      (fetchChartAndIndicatorsData Reference.indicators "ETH"
         (coins Scenario.loaded) []) (put_selected "ETH" Scenario.loaded) in
  outcomeOf result = Returned tt
  /\ requestsOf result = [ohlcvRequest "ETH"]
  /\ askedNews (requestsOf result) = false
  /\ chartData (stateOf result) = None
  /\ indicators (stateOf result) = None
  /\ indicatorTable (stateOf result) = ["N/A"; "N/A"; "N/A"; "N/A"; "N/A"; "N/A"]
  /\ aiSummary (stateOf result) = "No data to analyze."
  /\ news (stateOf result) = []
  /\ newsError (stateOf result) = None
  /\ chartError (stateOf result)
     = Some "No OHLCV data found for this coin from Twelve Data."
  /\ chartLoading (stateOf result) = false
  /\ newsLoading (stateOf result) = false.
Proof.
  exact (empty_history_is_no_data Reference.indicators Scenario.emptyHistory
           (put_selected "ETH" Scenario.loaded) "ETH" (coins Scenario.loaded) []
           _ _ (Some (mkOhlcvBody (Some [])))
           eq_refl eq_refl eq_refl eq_refl (or_intror eq_refl)).
Defined.

(** C3 (amended). When the history request fails with message [e] (the
    fetch rejects, the response is not ok, or its body cannot be read),
    the cycle ends normally having issued that one request and no other:
    the chart error and the news error are [e], the indicator object is
    empty, the AI summary is ["AI analysis error: " ++ e], the news list
    is empty and both loading flags are off. *)
Theorem history_failure_commits_error :
  forall (lib : TechnicalIndicators) (net : Network) (st : AppState)
         (sym : string) (coinList : list CoinData) (closureNews : list NewsItem)
         (currentCoin : CoinData) (e : string),
    find (fun c => String.eqb (symbol c) sym) coinList = Some currentCoin ->
    failureOf ohlcvErrorText (net (ohlcvRequest sym)) = Some e ->
    let result := run net (fetchChartAndIndicatorsData lib sym coinList closureNews) st in
    outcomeOf result = Returned tt
    /\ requestsOf result = [ohlcvRequest sym]
    /\ chartError (stateOf result) = Some e
    /\ indicators (stateOf result) = None
    /\ aiSummary (stateOf result) = "AI analysis error: " ++ e
    /\ newsError (stateOf result) = Some e
    /\ news (stateOf result) = []
    /\ chartLoading (stateOf result) = false
    /\ newsLoading (stateOf result) = false.
Proof.
  intros lib net st sym coinList closureNews currentCoin e Hfound Hfail result.
  subst result.
  rewrite (cycle_history_failure lib net st sym coinList closureNews currentCoin Hfound
             e Hfail).
  repeat split.
Qed.

(** SOL's history answers 500 while ETH's chart is on screen. *)
Lemma history_failure_witness :
  let result :=
    run Scenario.solHistoryDown
      (fetchChartAndIndicatorsData Reference.indicators "SOL"
         (coins Scenario.showingEth) (news Scenario.showingEth))
      (put_selected "SOL" Scenario.showingEth) in
  failureOf ohlcvErrorText (Scenario.solHistoryDown (ohlcvRequest "SOL"))
  = Some "Twelve Data OHLCV API Error: 500 - upstream timeout"
  /\ requestsOf result = [ohlcvRequest "SOL"]
  /\ chartError (stateOf result)
     = Some "Twelve Data OHLCV API Error: 500 - upstream timeout".
Proof.
  pose proof (history_failure_commits_error Reference.indicators Scenario.solHistoryDown
                (put_selected "SOL" Scenario.showingEth) "SOL"
                (coins Scenario.showingEth) (news Scenario.showingEth) _
                "Twelve Data OHLCV API Error: 500 - upstream timeout"
                eq_refl eq_refl) as H.
  exact (conj eq_refl (conj (proj1 (proj2 H)) (proj1 (proj2 (proj2 H))))).
Defined.

(** C3 (the claim as stated fails). With ETH's chart on screen, a failed
    history request for SOL leaves that chart in the state, and the
    summary is the error placeholder, not the no-data text. *)
Lemma history_failure_keeps_chart :
  let result :=
    run Scenario.solHistoryDown
      (fetchChartAndIndicatorsData Reference.indicators "SOL"
         (coins Scenario.showingEth) (news Scenario.showingEth))
      (put_selected "SOL" Scenario.showingEth) in
  chartData (stateOf result) = chartData Scenario.showingEth
  /\ chartData (stateOf result) <> None
  /\ aiSummary (stateOf result)
     = "AI analysis error: Twelve Data OHLCV API Error: 500 - upstream timeout"
  /\ aiSummary (stateOf result) <> noDataSummary.
Proof.
  cbv zeta. split; [vm_compute; reflexivity | split; [ | split; [vm_compute; reflexivity | ]]].
  - vm_compute. discriminate.
  - vm_compute. discriminate.
Qed.

(** C2 (amended). When the history arrives with values and the analysis
    request then fails with message [e], the cycle ends normally after
    those two requests; the news endpoint is not asked.  The AI summary is
    ["AI analysis error: " ++ e], the news list is empty, the news error
    and the chart error are [e], and the indicator object is empty. *)
Theorem analysis_failure_skips_news :
  forall (lib : TechnicalIndicators) (net : Network) (st : AppState)
         (sym : string) (coinList : list CoinData) (closureNews : list NewsItem)
         (currentCoin : CoinData) (response : Response OhlcvJson) (ohlcvJson : OhlcvJson)
         (history : list Row) (e : string),
    find (fun c => String.eqb (symbol c) sym) coinList = Some currentCoin ->
    net (ohlcvRequest sym) = Responded response ->
    ok response = true ->
    data response = Parsed ohlcvJson ->
    nonEmptyValues ohlcvJson = Some history ->
    failureOf analysisErrorText
      (net (PostAnalyze (postedBody lib sym currentCoin closureNews history))) = Some e ->
    let result := run net (fetchChartAndIndicatorsData lib sym coinList closureNews) st in
    outcomeOf result = Returned tt
    /\ requestsOf result
       = [ohlcvRequest sym;
          PostAnalyze (postedBody lib sym currentCoin closureNews history)]
    /\ askedNews (requestsOf result) = false
    /\ aiSummary (stateOf result) = "AI analysis error: " ++ e
    /\ news (stateOf result) = []
    /\ newsError (stateOf result) = Some e
    /\ chartError (stateOf result) = Some e
    /\ indicators (stateOf result) = None.
Proof.
  intros lib net st sym coinList closureNews currentCoin response ohlcvJson history e
         Hfound Hnet Hok Hdata Hsome Hfail result.
  subst result.
  rewrite (cycle_analysis_failure lib net st sym coinList closureNews currentCoin Hfound
             response ohlcvJson Hnet Hok Hdata history Hsome e Hfail).
  repeat split.
Qed.

(** The analysis endpoint answers 500 for ETH. *)
Lemma analysis_failure_witness :
  let result :=
    run Scenario.analysisDown
      (fetchChartAndIndicatorsData Reference.indicators "ETH"
         (coins Scenario.loaded) []) (put_selected "ETH" Scenario.loaded) in
  aiSummary (stateOf result)
  = "AI analysis error: AI Analysis API Error: 500 - model overloaded"
  /\ askedNews (requestsOf result) = false.
Proof.
  pose proof (analysis_failure_skips_news Reference.indicators Scenario.analysisDown
                (put_selected "ETH" Scenario.loaded) "ETH" (coins Scenario.loaded) []
                _ _ _ _ "AI Analysis API Error: 500 - model overloaded"
                eq_refl eq_refl eq_refl eq_refl eq_refl eq_refl) as H.
  exact (conj (proj1 (proj2 (proj2 (proj2 H)))) (proj1 (proj2 (proj2 H)))).
Defined.

(** C2 (the claim as stated fails). The analysis endpoint answers 500
    and the news endpoint would answer with two items: the cycle ends with
    no news item and with the news error set. *)
Lemma analysis_failure_empties_news :
  let result :=
    run Scenario.analysisDown
      (fetchChartAndIndicatorsData Reference.indicators "ETH"
         (coins Scenario.loaded) []) (put_selected "ETH" Scenario.loaded) in
  Scenario.analysisDown (GetNews "ETH") = Scenario.twoItems "ETH"
  /\ news (stateOf result) = []
  /\ newsError (stateOf result) = Some "AI Analysis API Error: 500 - model overloaded".
Proof. cbv zeta. repeat split; vm_compute; reflexivity. Qed.

Lemma cellText_rounded (digits : nat) (v : numOrNA) :
  cellText digits (Some (rounded digits v)) = cellOfRaw digits v.
Proof. destruct v; reflexivity. Qed.

Lemma newsCommitted_indicators (res : FetchResult NewsJson) (st : AppState) :
  indicators (newsCommitted res st) = indicators st.
Proof.
  unfold newsCommitted. destruct (failureOf newsErrorText res); [reflexivity | ].
  destruct res as [m | response]; [reflexivity | ].
  destruct (data response); reflexivity.
Qed.

(** C4 (amended). When the history arrives with values, the snapshot is
    built by rounding the calculators' values (RSI to 2 decimals, the MACD
    family and the SMAs to 4); the body posted to the analysis endpoint
    carries those rounded values; when the analysis succeeds the state
    keeps the same rounded snapshot and each cell of the table formats the
    stored, already rounded value with [toFixed] again, a second rounding
    that leaves the value as it is. *)
Theorem snapshot_is_rounded_before_it_is_stored_and_sent :
  forall (lib : TechnicalIndicators) (net : Network) (st : AppState)
         (sym : string) (coinList : list CoinData) (closureNews : list NewsItem)
         (currentCoin : CoinData) (response : Response OhlcvJson) (ohlcvJson : OhlcvJson)
         (history : list Row),
    find (fun c => String.eqb (symbol c) sym) coinList = Some currentCoin ->
    net (ohlcvRequest sym) = Responded response ->
    ok response = true ->
    data response = Parsed ohlcvJson ->
    nonEmptyValues ohlcvJson = Some history ->
    let raw := rawIndicators lib (map close (sort byTime history)) in
    let result := run net (fetchChartAndIndicatorsData lib sym coinList closureNews) st in
    (exists body,
        analysisRequest (requestsOf result) = Some body
        /\ req_rsi body = rounded 2 (currentRsi raw)
        /\ req_macd body = rounded 4 (fst (fst (currentMacd raw)))
        /\ req_sma50 body = rounded 4 (currentSma50 raw)
        /\ req_sma200 body = rounded 4 (currentSma200 raw))
    /\ (forall (aiResponse : Response AnalysisJson) (aiJson : AnalysisJson),
          net (PostAnalyze (postedBody lib sym currentCoin closureNews history))
          = Responded aiResponse ->
          ok aiResponse = true ->
          data aiResponse = Parsed aiJson ->
          indicators (stateOf result) = Some (snapshotOf lib history)
          /\ indicatorTable (stateOf result)
             = [ cellOfRaw 2 (currentRsi raw);
                 cellOfRaw 4 (fst (fst (currentMacd raw)));
                 cellOfRaw 4 (snd (fst (currentMacd raw)));
                 cellOfRaw 4 (snd (currentMacd raw));
                 cellOfRaw 4 (currentSma50 raw);
                 cellOfRaw 4 (currentSma200 raw) ])
    /\ (forall (digits : nat) (q : Q),
          roundTo digits (roundTo digits q) = roundTo digits q).
Proof.
  intros lib net st sym coinList closureNews currentCoin response ohlcvJson history
         Hfound Hnet Hok Hdata Hsome raw result.
  split; [ | split].
  - exists (postedBody lib sym currentCoin closureNews history).
    split.
    + subst result.
      apply (cycle_posts_snapshot lib net st sym coinList closureNews currentCoin Hfound
               response ohlcvJson Hnet Hok Hdata history Hsome).
    + unfold postedBody, snapshotOf, analysisBody, currentIndicators. fold raw.
      destruct (currentMacd raw) as [[macdLine signalLine] histogramLine].
      repeat split.
  - intros aiResponse aiJson Hai HaiOk HaiData. subst result.
    rewrite (cycle_analysis_success lib net st sym coinList closureNews currentCoin Hfound
               response ohlcvJson Hnet Hok Hdata history Hsome
               aiResponse aiJson Hai HaiOk HaiData).
    assert (Hind : indicators
                     (stateOf
                        (Returned tt,
                         finished
                           (newsCommitted (net (GetNews sym))
                              (put_aiSummary (analysis aiJson)
                                 (charted lib sym history st))),
                         [ohlcvRequest sym;
                          PostAnalyze (postedBody lib sym currentCoin closureNews history);
                          GetNews sym]))
                   = Some (snapshotOf lib history)).
    { unfold stateOf, finished. cbn. rewrite newsCommitted_indicators. reflexivity. }
    split; [exact Hind | ].
    unfold indicatorTable. rewrite Hind. cbn [option_map].
    unfold snapshotOf, currentIndicators. fold raw.
    destruct (currentMacd raw) as [[macdLine signalLine] histogramLine].
    cbn [rsi macd macdSignal macdHistogram sma50 sma200 fst snd].
    rewrite !cellText_rounded. reflexivity.
  - apply roundTo_idempotent.
Qed.

(** Fifty closes of 0.03125 for ETH: the table prints 0.0313 for the
    50-day average. *)
Lemma snapshot_rounded_witness :
  let result :=
    run Scenario.flat
      (fetchChartAndIndicatorsData Reference.indicators "ETH"
         (coins Scenario.loaded) []) (put_selected "ETH" Scenario.loaded) in
  nth 4 (indicatorTable (stateOf result)) "" = "0.0313"
  /\ exists body,
       analysisRequest (requestsOf result) = Some body
       /\ req_sma50 body
          = rounded 4
              (currentSma50
                 (rawIndicators Reference.indicators
                    (map close (sort byTime Scenario.fiftyRows)))).
Proof.
  pose proof (snapshot_is_rounded_before_it_is_stored_and_sent
                Reference.indicators Scenario.flat (put_selected "ETH" Scenario.loaded)
                "ETH" (coins Scenario.loaded) [] _ _ _ Scenario.fiftyRows
                eq_refl eq_refl eq_refl eq_refl eq_refl) as H.
  split; [vm_compute; reflexivity | ].
  destruct (proj1 H) as [body [Hbody [_ [_ [Hsma _]]]]].
  exists body. split; [exact Hbody | exact Hsma].
Defined.

(** C4 (the claim as stated fails). Fifty closes of 0.03125: the
    calculator's SMA(50) is 0.03125 and the body posted to the analysis
    endpoint carries 0.0313. *)
Lemma posted_sma50_is_rounded :
  let result :=
    run Scenario.flat
      (fetchChartAndIndicatorsData Reference.indicators "ETH"
         (coins Scenario.loaded) []) (put_selected "ETH" Scenario.loaded) in
  currentSma50
    (rawIndicators Reference.indicators (map close (sort byTime Scenario.fiftyRows)))
  = Num (1 # 32)%Q
  /\ option_map req_sma50 (analysisRequest (requestsOf result))
     = Some (Num (313 # 10000)%Q)
  /\ ~ (313 # 10000 == 1 # 32)%Q.
Proof.
  cbv zeta. split; [vm_compute; reflexivity | split; [vm_compute; reflexivity | ]].
  intros H. vm_compute in H. discriminate H.
Qed.

(** C1 (the code at the failing input). ETH is selected, then SOL; SOL's
    three responses arrive before ETH's.  Every cycle is over, SOL is the
    selection, and the chart, the summary and the news on screen are
    ETH's. *)
Theorem stale_cycle_overwrites_selection :
  let w :=
    Orchestrator.replay Reference.indicators Scenario.calm Scenario.ethThenSol
      Scenario.ready in
  Orchestrator.settled w = true
  /\ selected (Orchestrator.app w) = "SOL"
  /\ option_map (fun c => map ds_label (datasets c)) (chartData (Orchestrator.app w))
     = Some ["ETH Price (USD)"]
  /\ aiSummary (Orchestrator.app w) = "Outlook for ETH"
  /\ map title (news (Orchestrator.app w)) = ["ETH rallies"; "ETH explained"].
Proof. cbv zeta. repeat split. Qed.

(** * Further properties *)

(** ** How runs compose *)

Lemma run_pbind {A B : Type} (net : Network) (p : Proc A) (f : A -> Proc B)
    (st : AppState) :
  run net (pbind p f) st
  = let '(o, st1, log1) := run net p st in
    match o with
    | Returned a =>
        let '(o2, st2, log2) := run net (f a) st1 in (o2, st2, (log1 ++ log2)%list)
    | Threw e => (Threw e, st1, log1)
    end.
Proof.
  revert st. induction p as [a | e | u k IH | r k IH]; intros st; simpl.
  - destruct (run net (f a) st) as [[o2 st2] log2]. reflexivity.
  - reflexivity.
  - apply IH.
  - rewrite IH. destruct (run net (k (net r)) st) as [[o st1] log1].
    destruct o as [a | e]; [ | reflexivity].
    destruct (run net (f a) st1) as [[o2 st2] log2]. reflexivity.
Qed.

Lemma run_try_catch {A : Type} (net : Network) (p : Proc A) (h : string -> Proc A)
    (st : AppState) :
  run net (try_catch p h) st
  = let '(o, st1, log1) := run net p st in
    match o with
    | Returned a => (Returned a, st1, log1)
    | Threw e =>
        let '(o2, st2, log2) := run net (h e) st1 in (o2, st2, (log1 ++ log2)%list)
    end.
Proof.
  revert st. induction p as [a | e | u k IH | r k IH]; intros st; simpl.
  - reflexivity.
  - destruct (run net (h e) st) as [[o2 st2] log2]. reflexivity.
  - apply IH.
  - rewrite IH. destruct (run net (k (net r)) st) as [[o st1] log1].
    destruct o as [a | e]; [reflexivity | ].
    destruct (run net (h e) st1) as [[o2 st2] log2]. reflexivity.
Qed.

(** ** [translateText], the rest *)

Lemma mapProc_index0_wellFormed (segments : list json) :
  forallb (fun segment =>
             match segment with
             | JArr (JStr _ :: _) => true
             | _ => false
             end) segments = true ->
  mapProc index0 segments
  = Ret (map (fun segment =>
                match segment with
                | JArr (JStr s :: _) => Some (JStr s)
                | _ => None
                end) segments).
Proof.
  induction segments as [ | segment segments IH]; simpl; intros H.
  - reflexivity.
  - apply andb_prop in H. destruct H as [Hseg Hrest].
    destruct segment as [ | | | | items | ]; try discriminate.
    destruct items as [ | [ | | | s | | ] items]; try discriminate.
    cbn. rewrite (IH Hrest). reflexivity.
Qed.

Lemma joinSegments_wellFormed (d : json) :
  wellFormedTranslation d = true ->
  joinSegments d = Ret (String.concat "" (segmentTexts d)).
Proof.
  destruct d as [ | | | | items | ]; try discriminate.
  destruct items as [ | [ | | | | segments | ] items]; try discriminate.
  intros H. unfold joinSegments. cbn.
  simpl in H. rewrite (mapProc_index0_wellFormed segments H). cbn.
  f_equal. unfold joinEmpty. f_equal. rewrite map_map.
  clear items. induction segments as [ | segment segments IH]; simpl in *.
  - reflexivity.
  - apply andb_prop in H. destruct H as [Hseg Hrest].
    destruct segment as [ | | | | items | ]; try discriminate.
    destruct items as [ | [ | | | s | | ] items]; try discriminate.
    rewrite (IH Hrest). reflexivity.
Qed.

(** X1. For a non-empty text and a target language other than English,
    an ok response whose body has the endpoint's shape makes
    [translateText] return the first strings of the segments, joined in
    order, after exactly one request and with the state as it was. *)
Theorem translateText_joins_segments :
  forall (text : string) (targetLang : Language) (net : Network) (st : AppState)
         (response : Response json) (d : json),
    truthy text = true ->
    Language_eqb targetLang en = false ->
    net (GetTranslation targetLang text) = Responded response ->
    ok response = true ->
    data response = Parsed d ->
    wellFormedTranslation d = true ->
    run net (translateText text targetLang) st
    = (Returned (String.concat "" (segmentTexts d)), st, [GetTranslation targetLang text]).
Proof.
  intros text targetLang net st response d Htext Hlang Hnet Hok Hdata Hshape.
  unfold translateText. rewrite Htext, Hlang. cbn -[joinSegments]. rewrite Hnet.
  cbn -[joinSegments]. unfold jsonOf. rewrite Hok, Hdata. cbn -[joinSegments].
  rewrite (joinSegments_wellFormed d Hshape). reflexivity.
Qed.

(** "Hello" into Turkish against the echoing endpoint. *)
Lemma translateText_joins_witness :
  run Scenario2.echoing (translateText "Hello" tr) (initialState 1024)
  = (Returned "[tr] Hello", initialState 1024, [GetTranslation tr "Hello"]).
Proof.
  exact (translateText_joins_segments "Hello" tr Scenario2.echoing (initialState 1024)
           _ _ eq_refl eq_refl eq_refl eq_refl eq_refl eq_refl).
Defined.

(** Every run of [translateText], in one statement. *)
Lemma translateText_run_shape (text : string) (targetLang : Language) (net : Network)
    (st : AppState) :
  exists s,
    run net (translateText text targetLang) st
    = (Returned s, st,
       if negb (truthy text) || Language_eqb targetLang en
       then []
       else [GetTranslation targetLang text])
    /\ (translationFails (net (GetTranslation targetLang text)) = true -> s = text).
Proof.
  unfold translateText.
  destruct (negb (truthy text) || Language_eqb targetLang en).
  - exists text. split; reflexivity.
  - cbn.
    destruct (translate_after_fetch text (net (GetTranslation targetLang text)))
      as [s [Hs Hfail]].
    cbn in Hs. rewrite Hs. exists s. split; [reflexivity | exact Hfail].
Qed.

(** X2. [translateText] asks the network at most once: not at all for an
    empty text or for English, and once, for that text and language,
    otherwise; whatever the answer, it returns normally and leaves the
    state as it was. *)
Theorem translateText_asks_at_most_once :
  forall (text : string) (targetLang : Language) (net : Network) (st : AppState),
    exists s,
      run net (translateText text targetLang) st
      = (Returned s, st,
         if negb (truthy text) || Language_eqb targetLang en
         then []
         else [GetTranslation targetLang text]).
Proof.
  intros text targetLang net st.
  destruct (translateText_run_shape text targetLang net st) as [s [Hrun _]].
  exists s. exact Hrun.
Qed.

(** ** [stripMarkdown], the rest *)

Lemma boldMarkers_list : markerList boldMarkers.
Proof. repeat constructor. Qed.

Lemma italicMarkers_list : markerList italicMarkers.
Proof. repeat constructor. Qed.

Lemma dropPrefix_length (d s rest : string) :
  dropPrefix d s = Some rest -> String.length s = String.length d + String.length rest.
Proof.
  revert s. induction d as [ | a d IH]; intros s H; simpl in *.
  - injection H as <-. reflexivity.
  - destruct s as [ | b s]; [discriminate | ].
    destruct (Ascii.eqb a b); [ | discriminate].
    simpl. rewrite (IH s H). reflexivity.
Qed.

Lemma lazyUntil_length (d s content rest : string) :
  lazyUntil d s = Some (content, rest) ->
  String.length s = String.length content + String.length d + String.length rest.
Proof.
  revert content. induction s as [ | c s IH]; intros content H.
  - simpl in H. destruct (dropPrefix d "") as [r | ] eqn:Hd; [ | discriminate].
    injection H as <- <-. apply dropPrefix_length in Hd. simpl in *. lia.
  - cbn [lazyUntil] in H. destruct (dropPrefix d (String c s)) as [r | ] eqn:Hd.
    + injection H as <- <-. apply dropPrefix_length in Hd. simpl in *. lia.
    + destruct (isLineTerminator c); [discriminate | ].
      destruct (lazyUntil d s) as [[content' rest'] | ] eqn:Hl; [ | discriminate].
      injection H as <- <-. specialize (IH content' eq_refl). simpl. lia.
Qed.

(** A match consumes its two markers: what is kept is shorter than what
    was read. *)
Lemma matchAt_length (markers : list string) (s content rest : string) :
  markerList markers ->
  matchAt markers s = Some (content, rest) ->
  String.length content + String.length rest + 2 <= String.length s.
Proof.
  intros Hm. induction Hm as [ | d markers Hd Hm IH]; simpl; intros H; [discriminate | ].
  destruct (dropPrefix d s) as [afterOpen | ] eqn:Hopen; [ | apply IH; exact H].
  destruct (lazyUntil d afterOpen) as [found | ] eqn:Hlazy; [ | apply IH; exact H].
  injection H as ->.
  apply dropPrefix_length in Hopen. apply lazyUntil_length in Hlazy.
  destruct d as [ | c d]; [contradiction | ]. simpl in *. lia.
Qed.

Lemma string_app_length (a b : string) :
  String.length (a ++ b) = String.length a + String.length b.
Proof. induction a as [ | c a IH]; simpl; [reflexivity | rewrite IH; reflexivity]. Qed.

Lemma replaceLoop_length (markers : list string) (fuel : nat) (s : string) :
  markerList markers ->
  String.length (replaceLoop markers fuel s) <= String.length s.
Proof.
  intros Hm. revert s. induction fuel as [ | fuel IH]; intros s; simpl; [lia | ].
  destruct s as [ | c s]; [simpl; lia | ].
  destruct (matchAt markers (String c s)) as [[content rest] | ] eqn:Hmatch.
  - apply (matchAt_length markers _ _ _ Hm) in Hmatch.
    rewrite string_app_length. specialize (IH rest). lia.
  - simpl. specialize (IH s). lia.
Qed.

(** X3. Stripping never lengthens a text. *)
Theorem stripMarkdown_never_longer :
  forall text : string,
    String.length (stripMarkdown text) <= String.length text.
Proof.
  intros text. unfold stripMarkdown, replacePairs.
  pose proof (replaceLoop_length ["*"; "_"]
                (String.length (replaceLoop ["**"; "__"] (String.length text) text))
                (replaceLoop ["**"; "__"] (String.length text) text)
                italicMarkers_list) as H2.
  pose proof (replaceLoop_length ["**"; "__"] (String.length text) text
                boldMarkers_list) as H1.
  lia.
Qed.

(** No marker matches where the text starts with an ordinary character. *)
Lemma matchAt_ordinary (markers : list string) (c : ascii) (s : string) :
  markerList markers ->
  isMarkerChar c = false ->
  matchAt markers (String c s) = None.
Proof.
  intros Hm Hc. induction Hm as [ | d markers Hd Hm IH]; simpl; [reflexivity | ].
  destruct d as [ | a d]; [contradiction | ].
  simpl. destruct (Ascii.eqb_spec a c) as [-> | Hneq].
  - rewrite Hd in Hc. discriminate.
  - exact IH.
Qed.

Lemma replaceLoop_markerFree (markers : list string) (fuel : nat) (s : string) :
  markerList markers ->
  markerFree s = true ->
  replaceLoop markers fuel s = s.
Proof.
  intros Hm. revert s. induction fuel as [ | fuel IH]; intros s Hs; simpl; [reflexivity | ].
  destruct s as [ | c s]; [reflexivity | ].
  simpl in Hs. apply andb_prop in Hs. destruct Hs as [Hc Hs].
  apply negb_true_iff in Hc.
  rewrite (matchAt_ordinary markers c s Hm Hc). rewrite (IH s Hs). reflexivity.
Qed.

(** X4. A text without [*] and [_] is left as it is. *)
Theorem stripMarkdown_keeps_plain_text :
  forall text : string,
    markerFree text = true -> stripMarkdown text = text.
Proof.
  intros text H. unfold stripMarkdown, replacePairs.
  rewrite (replaceLoop_markerFree _ _ text boldMarkers_list H).
  apply (replaceLoop_markerFree _ _ text italicMarkers_list H).
Qed.

Lemma stripMarkdown_keeps_plain_witness :
  markerFree "Bitcoin is up 3% today." = true
  /\ stripMarkdown "Bitcoin is up 3% today." = "Bitcoin is up 3% today.".
Proof.
  split; [reflexivity | ].
  exact (stripMarkdown_keeps_plain_text "Bitcoin is up 3% today." eq_refl).
Defined.

Lemma string_app_assoc (a b c : string) : (a ++ b) ++ c = a ++ (b ++ c).
Proof. induction a as [ | ch a IH]; simpl; [reflexivity | rewrite IH; reflexivity]. Qed.

Lemma string_app_nil_r (a : string) : a ++ "" = a.
Proof. induction a as [ | ch a IH]; simpl; [reflexivity | rewrite IH; reflexivity]. Qed.

Lemma markerFree_app (a b : string) :
  markerFree (a ++ b) = markerFree a && markerFree b.
Proof.
  induction a as [ | c a IH]; simpl; [reflexivity | ].
  rewrite IH. apply andb_assoc.
Qed.

Lemma lazyUntil_unfold (d s : string) :
  lazyUntil d s
  = match dropPrefix d s with
    | Some rest => Some ("", rest)
    | None =>
        match s with
        | EmptyString => None
        | String c s' =>
            if isLineTerminator c then None
            else match lazyUntil d s' with
                 | Some (content, rest) => Some (String c content, rest)
                 | None => None
                 end
        end
    end.
Proof. destruct s; reflexivity. Qed.

Lemma dropPrefix_app (d s : string) : dropPrefix d (d ++ s) = Some s.
Proof.
  induction d as [ | c d IH]; simpl; [reflexivity | ].
  rewrite Ascii.eqb_refl. exact IH.
Qed.

(** A marker does not start where an ordinary character stands. *)
Lemma dropPrefix_ordinary (d : string) (c : ascii) (s : string) :
  markerList [d] -> isMarkerChar c = false -> dropPrefix d (String c s) = None.
Proof.
  intros Hd Hc. inversion Hd as [ | ? ? Hhead _]; subst.
  destruct d as [ | a d]; [contradiction | ].
  simpl. destruct (Ascii.eqb_spec a c) as [-> | _]; [ | reflexivity].
  rewrite Hhead in Hc. discriminate.
Qed.

(** The lazy group stops at the first closing marker after a run of
    ordinary characters on one line. *)
Lemma lazyUntil_closing (d x post : string) :
  markerList [d] ->
  markerFree x = true ->
  oneLine x = true ->
  lazyUntil d (x ++ d ++ post) = Some (x, post).
Proof.
  intros Hd. induction x as [ | c x IH]; intros Hfree Hline.
  - simpl. rewrite lazyUntil_unfold, dropPrefix_app. reflexivity.
  - simpl in Hfree, Hline.
    apply andb_prop in Hfree. destruct Hfree as [Hc Hfree].
    apply andb_prop in Hline. destruct Hline as [Hl Hline].
    apply negb_true_iff in Hc. apply negb_true_iff in Hl.
    change (String c x ++ d ++ post) with (String c (x ++ d ++ post)).
    rewrite lazyUntil_unfold, (dropPrefix_ordinary d c _ Hd Hc), Hl.
    rewrite (IH Hfree Hline). reflexivity.
Qed.

(** Without a marker character there is no closing marker. *)
Lemma lazyUntil_markerFree (d s : string) :
  markerList [d] -> markerFree s = true -> lazyUntil d s = None.
Proof.
  intros Hd. induction s as [ | c s IH]; intros Hfree.
  - rewrite lazyUntil_unfold. inversion Hd as [ | ? ? Hhead _]; subst.
    destruct d; [contradiction | reflexivity].
  - simpl in Hfree. apply andb_prop in Hfree. destruct Hfree as [Hc Hfree].
    apply negb_true_iff in Hc.
    rewrite lazyUntil_unfold, (dropPrefix_ordinary d c _ Hd Hc), (IH Hfree).
    destruct (isLineTerminator c); reflexivity.
Qed.

(** The scan copies ordinary characters. *)
Lemma replaceLoop_copies (markers : list string) (pre t : string) (fuel : nat) :
  markerList markers ->
  markerFree pre = true ->
  replaceLoop markers (String.length pre + fuel) (pre ++ t)
  = pre ++ replaceLoop markers fuel t.
Proof.
  intros Hm. induction pre as [ | c pre IH]; intros Hfree; [reflexivity | ].
  simpl in Hfree. apply andb_prop in Hfree. destruct Hfree as [Hc Hfree].
  apply negb_true_iff in Hc.
  cbn [String.length Nat.add replaceLoop append].
  rewrite (matchAt_ordinary markers c _ Hm Hc), (IH Hfree). reflexivity.
Qed.

(** A text in which the pattern matches nowhere is left as it is. *)
Lemma replaceLoop_no_pair (markers : list string) (fuel : nat) (s : string) :
  hasPair markers s = false -> replaceLoop markers fuel s = s.
Proof.
  revert s. induction fuel as [ | fuel IH]; intros s H; [reflexivity | ].
  destruct s as [ | c s]; [reflexivity | ].
  cbn [hasPair] in H. cbn [replaceLoop].
  destruct (matchAt markers (String c s)); [discriminate | ].
  rewrite (IH s H). reflexivity.
Qed.

Lemma hasPair_markerFree (markers : list string) (s : string) :
  markerList markers -> markerFree s = true -> hasPair markers s = false.
Proof.
  intros Hm. induction s as [ | c s IH]; intros Hfree; [reflexivity | ].
  simpl in Hfree. apply andb_prop in Hfree. destruct Hfree as [Hc Hfree].
  apply negb_true_iff in Hc.
  cbn [hasPair]. rewrite (matchAt_ordinary markers c s Hm Hc). apply IH, Hfree.
Qed.

Lemma hasPair_skips (markers : list string) (pre t : string) :
  markerList markers ->
  markerFree pre = true ->
  hasPair markers (pre ++ t) = hasPair markers t.
Proof.
  intros Hm. induction pre as [ | c pre IH]; intros Hfree; [reflexivity | ].
  simpl in Hfree. apply andb_prop in Hfree. destruct Hfree as [Hc Hfree].
  apply negb_true_iff in Hc.
  cbn [append hasPair]. rewrite (matchAt_ordinary markers c _ Hm Hc). apply IH, Hfree.
Qed.

(** The bold pattern needs its marker character twice in a row. *)
Lemma bold_not_before_ordinary (a c : ascii) (s : string) :
  isMarkerChar c = false -> matchAt boldMarkers (String a (String c s)) = None.
Proof.
  intros Hc. unfold isMarkerChar in Hc. apply orb_false_elim in Hc.
  destruct Hc as [Hstar Hunder].
  rewrite Ascii.eqb_sym in Hstar. rewrite Ascii.eqb_sym in Hunder.
  unfold boldMarkers. cbn [matchAt dropPrefix]. rewrite Hstar, Hunder.
  destruct (Ascii.eqb "*" a), (Ascii.eqb "_" a); reflexivity.
Qed.

Lemma bold_not_at_end (a : ascii) : matchAt boldMarkers (String a "") = None.
Proof.
  unfold boldMarkers. cbn [matchAt dropPrefix].
  destruct (Ascii.eqb "*" a), (Ascii.eqb "_" a); reflexivity.
Qed.

Lemma bold_not_unclosed (a b : ascii) (post : string) :
  markerFree post = true -> matchAt boldMarkers (String a (String b post)) = None.
Proof.
  intros Hpost. unfold boldMarkers. cbn [matchAt dropPrefix].
  assert (Hstar : lazyUntil "**" post = None)
    by (apply lazyUntil_markerFree; [repeat constructor | exact Hpost]).
  assert (Hunder : lazyUntil "__" post = None)
    by (apply lazyUntil_markerFree; [repeat constructor | exact Hpost]).
  destruct (Ascii.eqb "*" a), (Ascii.eqb "*" b), (Ascii.eqb "_" a), (Ascii.eqb "_" b);
    rewrite ?Hstar, ?Hunder; reflexivity.
Qed.

(** The bold pattern matches nowhere in a span wrapped in single markers. *)
Lemma single_span_has_no_bold_pair (m : ascii) (x post : string) :
  markerFree x = true ->
  markerFree post = true ->
  hasPair boldMarkers (String m (x ++ String m post)) = false.
Proof.
  intros Hx Hpost.
  assert (Hclose : hasPair boldMarkers (String m post) = false).
  { cbn [hasPair]. rewrite (hasPair_markerFree boldMarkers post boldMarkers_list Hpost).
    destruct post as [ | c post].
    - rewrite bold_not_at_end. reflexivity.
    - simpl in Hpost. apply andb_prop in Hpost. destruct Hpost as [Hc _].
      apply negb_true_iff in Hc. rewrite (bold_not_before_ordinary m c post Hc).
      reflexivity. }
  cbn [hasPair].
  rewrite (hasPair_skips boldMarkers x _ boldMarkers_list Hx), Hclose.
  destruct x as [ | c x].
  - cbn [append]. rewrite (bold_not_unclosed m m post Hpost). reflexivity.
  - simpl in Hx. apply andb_prop in Hx. destruct Hx as [Hc _].
    apply negb_true_iff in Hc. cbn [append].
    rewrite (bold_not_before_ordinary m c _ Hc). reflexivity.
Qed.

Lemma fuel_split (pre t : string) :
  String.length (pre ++ t) = String.length pre + String.length t.
Proof. apply string_app_length. Qed.

(** X5. One emphasized span inside ordinary text is unwrapped: with the
    text before, inside and after the span free of [*] and [_], and the
    inside on one line, stripping [pre ++ d ++ x ++ d ++ post] gives
    [pre ++ x ++ post] for each of the four markers. *)
Theorem stripMarkdown_unwraps_one_span :
  forall d pre x post : string,
    In d ["**"; "__"; "*"; "_"] ->
    markerFree pre = true ->
    markerFree x = true ->
    oneLine x = true ->
    markerFree post = true ->
    stripMarkdown (pre ++ d ++ x ++ d ++ post) = pre ++ x ++ post.
Proof.
  intros d pre x post Hd Hpre Hx Hline Hpost.
  assert (Hplain : markerFree (pre ++ x ++ post) = true).
  { rewrite !markerFree_app, Hpre, Hx, Hpost. reflexivity. }
  unfold stripMarkdown.
  assert (Hbold : In d ["**"; "__"] ->
                  replacePairs ["**"; "__"] (pre ++ d ++ x ++ d ++ post) = pre ++ x ++ post).
  { intros Hin. unfold replacePairs. rewrite fuel_split.
    rewrite (replaceLoop_copies _ pre _ _ boldMarkers_list Hpre). f_equal.
    assert (Hmatch : matchAt ["**"; "__"] (d ++ x ++ d ++ post) = Some (x, post)).
    { destruct Hin as [<- | [<- | []]].
      - cbn [matchAt]. rewrite dropPrefix_app.
        rewrite (lazyUntil_closing "**" x post); [reflexivity | repeat constructor | | ];
          assumption.
      - cbn [matchAt]. change (dropPrefix "**" ("__" ++ x ++ "__" ++ post)) with (@None string).
        rewrite dropPrefix_app.
        rewrite (lazyUntil_closing "__" x post); [reflexivity | repeat constructor | | ];
          assumption. }
    destruct (d ++ x ++ d ++ post) as [ | c rest] eqn:Ht.
    - destruct Hin as [<- | [<- | []]]; discriminate Ht.
    - cbn [String.length replaceLoop]. unfold boldMarkers. rewrite Hmatch. f_equal.
      apply replaceLoop_markerFree; [exact boldMarkers_list | exact Hpost]. }
  assert (Hitalic : In d ["*"; "_"] ->
                    replacePairs ["*"; "_"] (pre ++ d ++ x ++ d ++ post) = pre ++ x ++ post).
  { intros Hin. unfold replacePairs. rewrite fuel_split.
    rewrite (replaceLoop_copies _ pre _ _ italicMarkers_list Hpre). f_equal.
    assert (Hmatch : matchAt ["*"; "_"] (d ++ x ++ d ++ post) = Some (x, post)).
    { destruct Hin as [<- | [<- | []]].
      - cbn [matchAt]. rewrite dropPrefix_app.
        rewrite (lazyUntil_closing "*" x post); [reflexivity | repeat constructor | | ];
          assumption.
      - cbn [matchAt]. change (dropPrefix "*" ("_" ++ x ++ "_" ++ post)) with (@None string).
        rewrite dropPrefix_app.
        rewrite (lazyUntil_closing "_" x post); [reflexivity | repeat constructor | | ];
          assumption. }
    destruct (d ++ x ++ d ++ post) as [ | c rest] eqn:Ht.
    - destruct Hin as [<- | [<- | []]]; discriminate Ht.
    - cbn [String.length replaceLoop]. unfold italicMarkers. rewrite Hmatch. f_equal.
      apply replaceLoop_markerFree; [exact italicMarkers_list | exact Hpost]. }
  destruct Hd as [<- | [<- | Hd]].
  - rewrite Hbold by (left; reflexivity).
    apply replaceLoop_markerFree; [exact italicMarkers_list | exact Hplain].
  - rewrite Hbold by (right; left; reflexivity).
    apply replaceLoop_markerFree; [exact italicMarkers_list | exact Hplain].
  - assert (Hsame : replacePairs ["**"; "__"] (pre ++ d ++ x ++ d ++ post)
                    = pre ++ d ++ x ++ d ++ post).
    { unfold replacePairs. apply replaceLoop_no_pair.
      rewrite (hasPair_skips _ pre _ boldMarkers_list Hpre).
      destruct Hd as [<- | [<- | []]];
        apply (single_span_has_no_bold_pair _ x post); assumption. }
    rewrite Hsame. apply Hitalic. exact Hd.
Qed.

(** A bold word inside a sentence. *)
Lemma stripMarkdown_unwraps_witness :
  stripMarkdown ("Outlook: " ++ "**" ++ "bullish" ++ "**" ++ " for now")
  = "Outlook: " ++ "bullish" ++ " for now".
Proof.
  exact (stripMarkdown_unwraps_one_span "**" "Outlook: " "bullish" " for now"
           (or_introl eq_refl) eq_refl eq_refl eq_refl eq_refl).
Defined.

(** ** The typewriter, to the end of a summary *)

Lemma slice0_all (s : string) : slice0 (String.length s) s = s.
Proof.
  unfold slice0. induction s as [ | c s IH]; simpl; [reflexivity | ].
  rewrite IH. reflexivity.
Qed.

Module TypewriterRun.
Import Typewriter.
#[local] Arguments stripMarkdown : simpl never.
#[local] Arguments slice0 : simpl never.

Lemma reachable_replay (events : list Event) (w : World) :
  reachable w -> reachable (replay events w).
Proof.
  intros [innerWidth [before ->]]. exists innerWidth, (before ++ events)%list.
  unfold replay. rewrite fold_left_app. reflexivity.
Qed.

Lemma tick_reveals_one (i : nat) (s : string) (v : nat) (w : World) :
  truthy s = true ->
  revealing i s v w ->
  v < String.length (stripMarkdown s) ->
  revealing i s (S v) (tick i w).
Proof.
  intros Hs [Hint [Htr [Hv Hd]]] Hlt. unfold tick. rewrite Hint.
  cbn [find intervalId]. rewrite Nat.eqb_refl. cbn [plainAiSummary]. rewrite Hv.
  destruct (Nat.ltb_spec v (String.length (stripMarkdown s))) as [_ | Hge]; [ | lia].
  unfold displayEffect. cbn. rewrite Htr, Hs. cbn.
  rewrite Nat.add_1_r. repeat split; assumption.
Qed.

Lemma ticks_reveal (i : nat) (s : string) (k v : nat) (w : World) :
  truthy s = true ->
  revealing i s v w ->
  v + k <= String.length (stripMarkdown s) ->
  revealing i s (v + k) (replay (ticks (repeat i k)) w).
Proof.
  intros Hs. revert v w. induction k as [ | k IH]; intros v w Hrev Hle.
  - rewrite Nat.add_0_r. exact Hrev.
  - cbn [repeat ticks map replay fold_left step].
    replace (v + S k) with (S v + k) by lia.
    apply (IH (S v)); [ | lia].
    apply tick_reveals_one; [exact Hs | exact Hrev | lia].
Qed.

End TypewriterRun.

Import Typewriter.

(** X6. A new, non-empty summary is revealed in full by as many ticks as
    its stripped text has characters: the counter then equals that length,
    the displayed text is the whole stripped summary, and the next tick
    clears the interval. *)
Theorem typewriter_reveals_whole_summary :
  forall (w : World) (s : string),
    reachable w ->
    s <> translatedAiSummary (app w) ->
    truthy s = true ->
    let i := nextId w in
    let n := String.length (stripMarkdown s) in
    let w' := replay (ticks (repeat i n)) (setTranslated s w) in
    visibleCharacters (app w') = n
    /\ displayedAiSummary (app w') = stripMarkdown s
    /\ intervals w' = [mkInterval i (stripMarkdown s)]
    /\ intervals (tick i w') = [].
Proof.
  intros w s Hreach Hneq Hs i n w'.
  pose proof (TypewriterFacts.reachable_invariant w Hreach) as Hinv.
  assert (Heqb : String.eqb s (translatedAiSummary (app w)) = false)
    by (apply String.eqb_neq; exact Hneq).
  assert (Hstart : revealing i s 0 (setTranslated s w)).
  { rewrite (TypewriterFacts.setTranslated_changed s w Hinv Heqb), Hs.
    repeat split. }
  pose proof (TypewriterRun.ticks_reveal i s n 0 _ Hs Hstart (le_n _)) as Hend.
  cbn [Nat.add] in Hend. fold n w' in Hend.
  destruct Hend as [Hint [Htr [Hv Hd]]].
  split; [exact Hv | split; [ | split; [exact Hint | ]]].
  - rewrite Hd. apply slice0_all.
  - assert (Hinv' : invariant w').
    { apply TypewriterFacts.reachable_invariant. apply TypewriterRun.reachable_replay.
      apply (TypewriterFacts.reachable_step (NewTranslation s)). exact Hreach. }
    assert (Hfind : find (fun t => (intervalId t =? i)%nat) (intervals w')
                    = Some (mkInterval i (stripMarkdown s))).
    { rewrite Hint. cbn [find intervalId]. rewrite Nat.eqb_refl. reflexivity. }
    rewrite (TypewriterFacts.tick_at_full_length i w' _ Hinv' Hfind); [reflexivity | ].
    rewrite Hv, Htr. reflexivity.
Qed.

(** The summary [**Hi** there] after the first render: eight ticks show
    all of [Hi there]. *)
Lemma typewriter_reveals_witness :
  displayedAiSummary
    (app (replay (ticks (repeat 2 8)) (setTranslated "**Hi** there" (mounted 1024))))
  = "Hi there".
Proof.
  assert (Hreach : reachable (mounted 1024)) by (exists 1024, []; reflexivity).
  assert (Hneq : "**Hi** there" <> translatedAiSummary (app (mounted 1024)))
    by (intros H; discriminate H).
  exact (proj1 (proj2 (typewriter_reveals_whole_summary (mounted 1024) "**Hi** there"
                         Hreach Hneq eq_refl))).
Defined.

(** ** The two translation effects *)

(** Once the translation has resolved, the summary effect commits it
    if it is still mounted, and nothing otherwise. *)
Lemma runTranslation_after_translation (summary : string) (lang : Language)
    (isMounted : bool) (net : Network) (st : AppState) (translated : string)
    (log : list Request) :
  truthy summary = true ->
  Language_eqb lang en = false ->
  run net (translateText summary lang) st = (Returned translated, st, log) ->
  run net (runTranslation summary lang isMounted) st
  = (Returned tt, if isMounted then put_translatedAiSummary translated st else st, log).
Proof.
  intros Hs Hlang Hrun.
  unfold runTranslation. rewrite Hs, Hlang. cbn [negb].
  change (run net (pbind (translateText summary lang)
                     (fun translated0 =>
                        when (isMounted && Language_eqb lang lang)
                          (setTranslatedAiSummary translated0))) st
          = (Returned tt, if isMounted then put_translatedAiSummary translated st else st,
             log)).
  rewrite run_pbind, Hrun.
  assert (Hrefl : Language_eqb lang lang = true) by (destruct lang; reflexivity).
  rewrite Hrefl, andb_true_r.
  destruct isMounted; cbn; rewrite ?app_nil_r; reflexivity.
Qed.

(** X7. For a non-empty summary and a language other than English, the
    summary effect commits exactly what [translateText] returned, and only
    if the effect is still mounted when the translation resolves: after
    the cleanup has run the state is left as it was.  Either way the
    function returns normally after the requests of that one
    [translateText]. *)
Theorem runTranslation_commits_only_while_mounted :
  forall (summary : string) (lang : Language) (isMounted : bool)
         (net : Network) (st : AppState),
    truthy summary = true ->
    Language_eqb lang en = false ->
    exists translated log,
      run net (translateText summary lang) st = (Returned translated, st, log)
      /\ run net (runTranslation summary lang isMounted) st
         = (Returned tt,
            if isMounted then put_translatedAiSummary translated st else st,
            log).
Proof.
  intros summary lang isMounted net st Hs Hlang.
  destruct (translateText_run_shape summary lang net st) as [translated [Hrun _]].
  rewrite Hs, Hlang in Hrun. cbn [negb orb] in Hrun.
  exists translated, [GetTranslation lang summary]. split; [exact Hrun | ].
  apply runTranslation_after_translation; assumption.
Qed.

(** The summary is translated into Turkish while mounted, and dropped
    once unmounted. *)
Lemma runTranslation_mounted_witness :
  translatedAiSummary
    (stateOf (run Scenario2.echoing (runTranslation "Hello" tr true) (initialState 1024)))
  = "[tr] Hello"
  /\ stateOf (run Scenario2.echoing (runTranslation "Hello" tr false) (initialState 1024))
     = initialState 1024.
Proof.
  destruct (runTranslation_commits_only_while_mounted "Hello" tr true Scenario2.echoing
              (initialState 1024) eq_refl eq_refl) as [t1 [l1 [H1 H1']]].
  destruct (runTranslation_commits_only_while_mounted "Hello" tr false Scenario2.echoing
              (initialState 1024) eq_refl eq_refl) as [t2 [l2 [H2 H2']]].
  split.
  - rewrite H1'. vm_compute in H1. injection H1 as <- _. reflexivity.
  - rewrite H2'. reflexivity.
Defined.

(** X8. While mounted, the displayed summary text falls back to the
    original: when the language is English, or when the translation call
    fails, the translated summary cell ends up equal to the raw summary
    (the empty string for an empty summary). *)
Theorem runTranslation_falls_back_to_summary :
  forall (summary : string) (lang : Language) (net : Network) (st : AppState),
    Language_eqb lang en = true
    \/ translationFails (net (GetTranslation lang summary)) = true ->
    translatedAiSummary (stateOf (run net (runTranslation summary lang true) st))
    = summary.
Proof.
  intros summary lang net st Hcase.
  destruct (truthy summary) eqn:Hs.
  - destruct (Language_eqb lang en) eqn:Hlang.
    + unfold runTranslation. rewrite Hs, Hlang. reflexivity.
    + destruct Hcase as [Habs | Hfail]; [discriminate Habs | ].
      destruct (translateText_run_shape summary lang net st)
        as [translated [Hrun Hback]].
      rewrite (runTranslation_after_translation summary lang true net st _ _ Hs Hlang Hrun).
      rewrite (Hback Hfail). reflexivity.
  - unfold runTranslation. rewrite Hs. cbn.
    symmetry. apply truthy_false. exact Hs.
Qed.

(** The translation endpoint is unreachable. *)
Lemma runTranslation_falls_back_witness :
  translatedAiSummary
    (stateOf (run Scenario.calm (runTranslation "Outlook for ETH" tr true)
                (initialState 1024)))
  = "Outlook for ETH".
Proof.
  exact (runTranslation_falls_back_to_summary "Outlook for ETH" tr Scenario.calm
           (initialState 1024) (or_intror eq_refl)).
Defined.

Lemma translateText_result (text : string) (lang : Language) (net : Network)
    (st : AppState) :
  run net (translateText text lang) st
  = (Returned (translationOf net lang text), st,
     if negb (truthy text) || Language_eqb lang en
     then []
     else [GetTranslation lang text]).
Proof.
  unfold translateText, translationOf.
  destruct (negb (truthy text) || Language_eqb lang en); [reflexivity | ].
  cbn -[joinSegments].
  destruct (net (GetTranslation lang text)) as [m | [isOk code txt errorBody body]];
    cbn -[joinSegments]; [reflexivity | ].
  destruct isOk; cbn -[joinSegments]; [ | reflexivity].
  unfold jsonOf. cbn -[joinSegments].
  destruct body as [d | m]; cbn -[joinSegments]; [ | reflexivity].
  pose proof (joinSegments_immediate d) as Himm.
  destruct (joinSegments d) as [s | e | u k | r k]; cbn in *; try contradiction; reflexivity.
Qed.

Lemma run_title_translations (lang : Language) (net : Network) (st : AppState)
    (news : list NewsItem) :
  run net (mapProc (fun item => translateText (title item) lang) news) st
  = (Returned (map (fun item => translationOf net lang (title item)) news), st,
     titleRequests lang news).
Proof.
  induction news as [ | item news IH]; [reflexivity | ].
  cbn [mapProc].
  change (run net
            (pbind (translateText (title item) lang)
               (fun y => pbind (mapProc (fun item0 => translateText (title item0) lang) news)
                           (fun ys => Ret (y :: ys)))) st
          = (Returned (map (fun item0 => translationOf net lang (title item0)) (item :: news)),
             st, titleRequests lang (item :: news))).
  rewrite run_pbind, translateText_result, run_pbind, IH. cbn [run].
  rewrite app_nil_r. reflexivity.
Qed.

Lemma retitled_urls (news : list NewsItem) (titles : list string) :
  length titles = length news -> map url (retitled news titles) = map url news.
Proof.
  unfold retitled. revert titles.
  induction news as [ | item news IH]; intros [ | t titles] H; simpl in *;
    try discriminate; [reflexivity | ].
  rewrite IH by lia. reflexivity.
Qed.

Lemma retitled_map (f : string -> string) (news : list NewsItem) :
  retitled news (map (fun item => f (title item)) news)
  = map (fun item => withTitle item (f (title item))) news.
Proof.
  unfold retitled. induction news as [ | item news IH]; simpl; [reflexivity | ].
  rewrite IH. reflexivity.
Qed.

(** What the news effect commits, in every case. *)
Lemma translateNewsItems_run (news : list NewsItem) (lang : Language) (isMounted : bool)
    (net : Network) (st : AppState) :
  run net (translateNewsItems news lang isMounted) st
  = (Returned tt,
     put_translatedNews
       (if Language_eqb lang en || negb isMounted then news
        else map (fun item => withTitle item (translationOf net lang (title item))) news)
       st,
     match news with
     | [] => []
     | _ :: _ => if Language_eqb lang en then [] else titleRequests lang news
     end).
Proof.
  unfold translateNewsItems.
  destruct news as [ | item news].
  - destruct (Language_eqb lang en || negb isMounted); reflexivity.
  - set (items := item :: news).
    destruct (Language_eqb lang en) eqn:Hlang; [reflexivity | ].
    assert (Hrefl : Language_eqb lang lang = true) by (destruct lang; reflexivity).
    cbn [orb]. rewrite Hrefl, andb_true_r.
    change (run net
              (pbind (setTranslatedNews items)
                 (fun _ =>
                    try_catch
                      (pbind (mapProc (fun it => translateText (title it) lang) items)
                         (fun translatedTitles =>
                            when isMounted
                              (setTranslatedNews (retitled items translatedTitles))))
                      (fun _ => when isMounted (setTranslatedNews items)))) st
            = (Returned tt,
               put_translatedNews
                 (if negb isMounted then items
                  else map (fun it => withTitle it (translationOf net lang (title it))) items)
                 st,
               titleRequests lang items)).
    rewrite run_pbind. cbn [setTranslatedNews run].
    rewrite run_try_catch, run_pbind, run_title_translations.
    rewrite retitled_map.
    destruct isMounted; cbn; rewrite !app_nil_r; reflexivity.
Qed.

(** X9. The news effect returns normally in every case, changes no cell
    other than [translatedNews], and leaves there a list with the urls of
    the news items, one per item and in their order. *)
Theorem translateNewsItems_keeps_items_and_order :
  forall (items : list NewsItem) (lang : Language) (isMounted : bool)
         (net : Network) (st : AppState),
    exists rendered,
      outcomeOf (run net (translateNewsItems items lang isMounted) st) = Returned tt
      /\ stateOf (run net (translateNewsItems items lang isMounted) st)
         = put_translatedNews rendered st
      /\ map url rendered = map url items.
Proof.
  intros items lang isMounted net st. rewrite translateNewsItems_run.
  eexists. split; [reflexivity | split; [reflexivity | ]].
  destruct (Language_eqb lang en || negb isMounted); [reflexivity | ].
  rewrite map_map. reflexivity.
Qed.

(** X10. While mounted and for a language other than English, each
    stored title is what [translateText] returns for the original title,
    so a title whose translation fails keeps its original text; in
    English, or once unmounted, the stored list is the news list itself.
    The translations are requested in the order of the items. *)
Theorem translateNewsItems_translates_each_title :
  forall (items : list NewsItem) (lang : Language) (isMounted : bool)
         (net : Network) (st : AppState),
    let result := run net (translateNewsItems items lang isMounted) st in
    (Language_eqb lang en = false -> isMounted = true ->
     translatedNews (stateOf result)
     = map (fun item => withTitle item (translationOf net lang (title item))) items
     /\ (forall item, In item items ->
           translationFails (net (GetTranslation lang (title item))) = true ->
           translationOf net lang (title item) = title item)
     /\ (items <> [] -> requestsOf result = titleRequests lang items))
    /\ (Language_eqb lang en = true \/ isMounted = false ->
        translatedNews (stateOf result) = items).
Proof.
  intros items lang isMounted net st result. subst result.
  rewrite translateNewsItems_run. split.
  - intros Hlang ->. rewrite Hlang. cbn [orb negb stateOf snd fst].
    split; [reflexivity | split].
    + intros item _ Hfail.
      destruct (translateText_run_shape (title item) lang net st) as [s [Hrun Hback]].
      rewrite translateText_result in Hrun. injection Hrun as <-.
      apply Hback, Hfail.
    + intros Hne. destruct items; [contradiction | reflexivity].
  - intros [Hlang | ->].
    + rewrite Hlang. reflexivity.
    + rewrite orb_true_r. reflexivity.
Qed.

(** Two items into Turkish against the echoing endpoint. *)
Lemma translateNewsItems_witness :
  map title
    (translatedNews
       (stateOf (run Scenario2.echoing (translateNewsItems Scenario2.twoNews tr true)
                   (initialState 1024))))
  = ["[tr] ETH rallies"; "[tr] ETH explained"].
Proof.
  rewrite (proj1 (proj1 (translateNewsItems_translates_each_title Scenario2.twoNews tr true
                           Scenario2.echoing (initialState 1024)) eq_refl eq_refl)).
  reflexivity.
Defined.

(** ** [fetchCoins], the rest *)

(** Every run of [fetchCoins], by the answer of the listings endpoint. *)
Lemma fetchCoins_run (net : Network) (st : AppState) :
  run net fetchCoins st
  = (Returned tt,
     put_loadingInitialData false
       (match failureOf listingsErrorText (net GetListings) with
        | Some e => put_initialDataError (Some e) st
        | None =>
            match net GetListings with
            | Responded response =>
                match data response with
                | Parsed json =>
                    match sort byRank (map toCoinData json) with
                    | first :: rest =>
                        put_selected (symbol first) (put_coins (first :: rest) st)
                    | [] => put_coins [] st
                    end
                | Unreadable _ => st
                end
            | Rejected _ => st
            end
        end),
     [GetListings]).
Proof.
  unfold fetchCoins, failureOf. cbn.
  destruct (net GetListings) as [m | [isOk code text errorBody body]]; cbn;
    [reflexivity | ].
  unfold errorJsonOf, jsonOf. destruct isOk; cbn.
  - destruct body as [json | m]; cbn; [ | reflexivity].
    destruct (sort byRank (map toCoinData json)); reflexivity.
  - destruct errorBody as [d | m]; reflexivity.
Qed.

(** X11. [fetchCoins] always returns normally after its one request and
    with the initial-loading flag off.  When the request fails with
    message [e] (rejected fetch, non-ok response, unreadable body), [e] is
    stored as the initial-data error and the coin list and the selection
    are left as they were. *)
Theorem fetchCoins_failure_keeps_coins_and_selection :
  forall (net : Network) (st : AppState),
    let result := run net fetchCoins st in
    outcomeOf result = Returned tt
    /\ requestsOf result = [GetListings]
    /\ loadingInitialData (stateOf result) = false
    /\ (forall e : string,
          failureOf listingsErrorText (net GetListings) = Some e ->
          initialDataError (stateOf result) = Some e
          /\ coins (stateOf result) = coins st
          /\ selected (stateOf result) = selected st).
Proof.
  intros net st result. subst result. rewrite fetchCoins_run.
  split; [reflexivity | split; [reflexivity | split]].
  - cbn [stateOf fst snd].
    destruct (failureOf listingsErrorText (net GetListings)); [reflexivity | ].
    destruct (net GetListings) as [m | response]; [reflexivity | ].
    destruct (data response) as [json | m]; [ | reflexivity].
    destruct (sort byRank (map toCoinData json)); reflexivity.
  - intros e He. rewrite He. repeat split.
Qed.

(** The listings endpoint answers 502. *)
Lemma fetchCoins_failure_witness :
  initialDataError (stateOf (run Scenario2.listingsDown fetchCoins (initialState 1024)))
  = Some "API Error: 502 - upstream down"
  /\ selected (stateOf (run Scenario2.listingsDown fetchCoins (initialState 1024))) = "BTC".
Proof.
  destruct (proj2 (proj2 (proj2
              (fetchCoins_failure_keeps_coins_and_selection Scenario2.listingsDown
                 (initialState 1024)))) "API Error: 502 - upstream down" eq_refl)
    as [Herr [_ Hsel]].
  split; [exact Herr | exact Hsel].
Defined.

(** ** The detail cycle, the rest *)



Lemma failureOf_none {A : Type} (describe : Response A -> ErrorData -> string)
    (res : FetchResult A) :
  failureOf describe res = None ->
  exists response a, res = Responded response /\ ok response = true
                     /\ data response = Parsed a.
Proof.
  unfold failureOf. destruct res as [m | response]; [discriminate | ].
  destruct (ok response) eqn:Hok.
  - destruct (data response) as [a | m] eqn:Hdata; [ | discriminate].
    intros _. exists response, a. repeat split; assumption.
  - destruct (errorData response); discriminate.
Qed.

(** Every run of a detail cycle, in one statement. *)
Lemma detail_cycle_shape (lib : TechnicalIndicators) (net : Network) (st : AppState)
    (sym : string) (coinList : list CoinData) (closureNews : list NewsItem) :
  let result := run net (fetchChartAndIndicatorsData lib sym coinList closureNews) st in
  outcomeOf result = Returned tt
  /\ inCycleOrder sym (requestsOf result)
  /\ newsLoading (stateOf result) = false
  /\ (find (fun c => String.eqb (symbol c) sym) coinList <> None ->
      chartLoading (stateOf result) = false).
Proof.
  intros result. subst result.
  destruct (find (fun c => String.eqb (symbol c) sym) coinList) as [currentCoin | ]
    eqn:Hfound.
  - destruct (failureOf ohlcvErrorText (net (ohlcvRequest sym))) as [e | ] eqn:Hhist.
    + rewrite (cycle_history_failure lib net st sym coinList closureNews currentCoin
                 Hfound e Hhist).
      repeat split.
    + destruct (failureOf_none _ _ Hhist) as [response [ohlcvJson [Hnet [Hok Hdata]]]].
      destruct (nonEmptyValues ohlcvJson) as [history | ] eqn:Hvalues.
      * destruct (failureOf analysisErrorText
                    (net (PostAnalyze (postedBody lib sym currentCoin closureNews history))))
          as [e | ] eqn:Hai.
        -- rewrite (cycle_analysis_failure lib net st sym coinList closureNews currentCoin
                      Hfound response ohlcvJson Hnet Hok Hdata history Hvalues e Hai).
           repeat split.
        -- destruct (failureOf_none _ _ Hai) as [aiResponse [aiJson [Hnet' [Hok' Hdata']]]].
           rewrite (cycle_analysis_success lib net st sym coinList closureNews currentCoin
                      Hfound response ohlcvJson Hnet Hok Hdata history Hvalues
                      aiResponse aiJson Hnet' Hok' Hdata').
           repeat split.
      * rewrite (cycle_no_data lib net st sym coinList closureNews currentCoin Hfound
                   response ohlcvJson Hnet Hok Hdata Hvalues).
        repeat split.
  - unfold fetchChartAndIndicatorsData. cbn. rewrite Hfound. cbn.
    repeat split. intros H. contradiction.
Qed.

(** X13. Whatever the network answers, a detail cycle returns normally;
    its requests are an initial part of history, analysis, news for the
    selected symbol, in that order; it ends with the news loading flag
    off, and with the chart loading flag off whenever the symbol is among
    the coins. *)
Theorem detail_cycle_never_throws :
  forall (lib : TechnicalIndicators) (net : Network) (st : AppState)
         (sym : string) (coinList : list CoinData) (closureNews : list NewsItem),
    let result := run net (fetchChartAndIndicatorsData lib sym coinList closureNews) st in
    outcomeOf result = Returned tt
    /\ inCycleOrder sym (requestsOf result)
    /\ newsLoading (stateOf result) = false
    /\ (find (fun c => String.eqb (symbol c) sym) coinList <> None ->
        chartLoading (stateOf result) = false).
Proof.
  intros lib net st sym coinList closureNews.
  exact (detail_cycle_shape lib net st sym coinList closureNews).
Qed.

(** What the news part leaves in the other cells: nothing. *)
Lemma newsCommitted_frame (res : FetchResult NewsJson) (st : AppState) :
  chartData (newsCommitted res st) = chartData st
  /\ chartError (newsCommitted res st) = chartError st
  /\ aiSummary (newsCommitted res st) = aiSummary st
  /\ indicators (newsCommitted res st) = indicators st.
Proof.
  unfold newsCommitted. destruct (failureOf newsErrorText res); [repeat split | ].
  destruct res as [m | response]; [repeat split | ].
  destruct (data response); repeat split.
Qed.

Section AnalysisSucceeded.

Variable lib : TechnicalIndicators.
Variable net : Network.
Variable st : AppState.
Variables (sym : string) (coinList : list CoinData) (closureNews : list NewsItem).
Variable currentCoin : CoinData.
Variable response : Response OhlcvJson.
Variable ohlcvJson : OhlcvJson.
Variable history : list Row.
Variable aiResponse : Response AnalysisJson.
Variable aiJson : AnalysisJson.
Hypothesis found :
  find (fun c => String.eqb (symbol c) sym) coinList = Some currentCoin.
Hypothesis answered : net (ohlcvRequest sym) = Responded response.
Hypothesis isOk : ok response = true.
Hypothesis parsed : data response = Parsed ohlcvJson.
Hypothesis hasValues : nonEmptyValues ohlcvJson = Some history.
Hypothesis analysed :
  net (PostAnalyze (postedBody lib sym currentCoin closureNews history))
  = Responded aiResponse.
Hypothesis analysisOk : ok aiResponse = true.
Hypothesis analysisParsed : data aiResponse = Parsed aiJson.

(** X14. When the history and the analysis succeed and the news request
    fails with message [e], only the news cells show it: the news list is
    empty and the news error is [e], while the chart, the snapshot and the
    summary of this cycle stay committed and the chart error stays
    [null]. *)
Theorem news_failure_keeps_summary_and_chart :
  forall e : string,
    failureOf newsErrorText (net (GetNews sym)) = Some e ->
    let result := run net (fetchChartAndIndicatorsData lib sym coinList closureNews) st in
    news (stateOf result) = []
    /\ newsError (stateOf result) = Some e
    /\ aiSummary (stateOf result) = analysis aiJson
    /\ chartData (stateOf result) = Some (chartOf sym (sort byTime history))
    /\ indicators (stateOf result) = Some (snapshotOf lib history)
    /\ chartError (stateOf result) = None
    /\ chartPanel (stateOf result) = ChartShown (chartOf sym (sort byTime history)).
Proof.
  intros e Hnews result. subst result.
  rewrite (cycle_analysis_success lib net st sym coinList closureNews currentCoin found
             response ohlcvJson answered isOk parsed history hasValues
             aiResponse aiJson analysed analysisOk analysisParsed).
  unfold newsCommitted. rewrite Hnews. repeat split.
Qed.

(** X15. When all three requests succeed, the cycle ends with the chart
    of the history, the rounded snapshot, the analysis text as summary,
    the news items as received, no error and both loading flags off; the
    chart panel shows the chart. *)
Theorem full_success_commits_everything :
  forall (newsResponse : Response NewsJson) (newsJson : NewsJson),
    net (GetNews sym) = Responded newsResponse ->
    ok newsResponse = true ->
    data newsResponse = Parsed newsJson ->
    let result := run net (fetchChartAndIndicatorsData lib sym coinList closureNews) st in
    requestsOf result
    = [ohlcvRequest sym; PostAnalyze (postedBody lib sym currentCoin closureNews history);
       GetNews sym]
    /\ news (stateOf result) = newsItems newsJson
    /\ newsError (stateOf result) = None
    /\ aiSummary (stateOf result) = analysis aiJson
    /\ chartData (stateOf result) = Some (chartOf sym (sort byTime history))
    /\ indicators (stateOf result) = Some (snapshotOf lib history)
    /\ chartError (stateOf result) = None
    /\ chartLoading (stateOf result) = false
    /\ newsLoading (stateOf result) = false
    /\ chartPanel (stateOf result) = ChartShown (chartOf sym (sort byTime history)).
Proof.
  intros newsResponse newsJson Hnews HnewsOk HnewsData result. subst result.
  rewrite (cycle_analysis_success lib net st sym coinList closureNews currentCoin found
             response ohlcvJson answered isOk parsed history hasValues
             aiResponse aiJson analysed analysisOk analysisParsed).
  unfold newsCommitted, failureOf. rewrite Hnews, HnewsOk, HnewsData. repeat split.
Qed.

End AnalysisSucceeded.

(** SOL against the network whose news endpoint answers 503. *)
Lemma news_failure_witness :
  let result :=
    run Scenario2.newsDown
      (fetchChartAndIndicatorsData Reference.indicators "SOL" (coins Scenario.loaded) [])
      (put_selected "SOL" Scenario.loaded) in
  newsError (stateOf result) = Some "Tavily News API Error: 503 - Service Unavailable"
  /\ aiSummary (stateOf result) = "Outlook for SOL".
Proof.
  pose proof (news_failure_keeps_summary_and_chart Reference.indicators Scenario2.newsDown
                (put_selected "SOL" Scenario.loaded) "SOL" (coins Scenario.loaded) []
                _ _ _ _ _ _ eq_refl eq_refl eq_refl eq_refl eq_refl eq_refl eq_refl eq_refl
                "Tavily News API Error: 503 - Service Unavailable" eq_refl) as H.
  exact (conj (proj1 (proj2 H)) (proj1 (proj2 (proj2 H)))).
Defined.

(** SOL against the network where every endpoint answers. *)
Lemma full_success_witness :
  let result :=
    run Scenario.calm
      (fetchChartAndIndicatorsData Reference.indicators "SOL" (coins Scenario.loaded) [])
      (put_selected "SOL" Scenario.loaded) in
  map title (news (stateOf result)) = ["SOL rallies"; "SOL explained"]
  /\ aiSummary (stateOf result) = "Outlook for SOL".
Proof.
  pose proof (full_success_commits_everything Reference.indicators Scenario.calm
                (put_selected "SOL" Scenario.loaded) "SOL" (coins Scenario.loaded) []
                _ _ _ _ _ _ eq_refl eq_refl eq_refl eq_refl eq_refl eq_refl eq_refl eq_refl
                _ _ eq_refl eq_refl eq_refl) as H.
  split.
  - rewrite (proj1 (proj2 H)). reflexivity.
  - exact (proj1 (proj2 (proj2 (proj2 H)))).
Defined.

(** ** The chart, oldest day first *)

Lemma byTime_le (x y : Row) :
  Qle_bool (SortCompare byTime x y) 0 = true <-> (time x <= time y)%Z.
Proof.
  unfold SortCompare, byTime. rewrite Qle_bool_iff.
  change 0%Q with (inject_Z 0). rewrite <- Zle_Qle. lia.
Qed.

Lemma insert_byTime_sorted (x : Row) (l : list Row) :
  Sorted timeLe l -> Sorted timeLe (insert byTime x l).
Proof.
  intros Hs. induction Hs as [ | y l Hs IH Hhd]; simpl.
  - repeat constructor.
  - destruct (Qle_bool (SortCompare byTime x y) 0) eqn:Hc.
    + apply byTime_le in Hc. constructor; [constructor; assumption | constructor; exact Hc].
    + assert (Hyx : timeLe y x).
      { unfold timeLe. destruct (Z.le_gt_cases (time x) (time y)) as [Hle | Hgt]; [ | lia].
        apply byTime_le in Hle. rewrite Hle in Hc. discriminate. }
      constructor; [exact IH | ].
      destruct l as [ | z l]; simpl.
      * constructor. exact Hyx.
      * destruct (Qle_bool (SortCompare byTime x z) 0).
        -- constructor. exact Hyx.
        -- inversion Hhd; subst. constructor. assumption.
Qed.

Lemma sort_byTime_sorted (l : list Row) : Sorted timeLe (sort byTime l).
Proof.
  induction l as [ | x l IH]; simpl; [constructor | ].
  apply insert_byTime_sorted, IH.
Qed.

(** X16. Whatever order the history arrives in, a cycle that receives it
    with values stores a chart whose days are the received ones, each
    once, ordered from the oldest to the newest, with the label and the
    close of each day at the same position; the chart stays in the state
    whether the analysis then succeeds or fails. *)
Theorem chart_is_history_oldest_first :
  forall (lib : TechnicalIndicators) (net : Network) (st : AppState)
         (sym : string) (coinList : list CoinData) (closureNews : list NewsItem)
         (currentCoin : CoinData) (response : Response OhlcvJson) (ohlcvJson : OhlcvJson)
         (history : list Row),
    find (fun c => String.eqb (symbol c) sym) coinList = Some currentCoin ->
    net (ohlcvRequest sym) = Responded response ->
    ok response = true ->
    data response = Parsed ohlcvJson ->
    nonEmptyValues ohlcvJson = Some history ->
    let result := run net (fetchChartAndIndicatorsData lib sym coinList closureNews) st in
    exists days : list Row,
      Permutation history days
      /\ Sorted timeLe days
      /\ option_map labels (chartData (stateOf result)) = Some (map localeDate days)
      /\ option_map (fun c => map ds_data (datasets c)) (chartData (stateOf result))
         = Some [map close days]
      /\ option_map (fun c => map ds_label (datasets c)) (chartData (stateOf result))
         = Some [sym ++ " Price (USD)"].
Proof.
  intros lib net st sym coinList closureNews currentCoin response ohlcvJson history
         Hfound Hnet Hok Hdata Hvalues result.
  exists (sort byTime history).
  split; [apply sort_permutation | split; [apply sort_byTime_sorted | ]].
  assert (Hchart : chartData (stateOf result) = Some (chartOf sym (sort byTime history))).
  { subst result.
    destruct (failureOf analysisErrorText
                (net (PostAnalyze (postedBody lib sym currentCoin closureNews history))))
      as [e | ] eqn:Hai.
    - rewrite (cycle_analysis_failure lib net st sym coinList closureNews currentCoin
                 Hfound response ohlcvJson Hnet Hok Hdata history Hvalues e Hai).
      reflexivity.
    - destruct (failureOf_none _ _ Hai) as [aiResponse [aiJson [Hnet' [Hok' Hdata']]]].
      rewrite (cycle_analysis_success lib net st sym coinList closureNews currentCoin
                 Hfound response ohlcvJson Hnet Hok Hdata history Hvalues
                 aiResponse aiJson Hnet' Hok' Hdata').
      cbn [stateOf fst snd]. unfold finished. cbn.
      destruct (newsCommitted_frame (net (GetNews sym))
                  (put_aiSummary (analysis aiJson) (charted lib sym history st)))
        as [Hc _].
      rewrite Hc. reflexivity. }
  rewrite Hchart. repeat split.
Qed.

(** Two days received newest first. *)
Lemma chart_oldest_first_witness :
  exists days : list Row,
    Permutation
      [ mkRow 1700086400000 "11/15/2023" 101%Q; mkRow 1700000000000 "11/14/2023" 100%Q ]
      days
    /\ Sorted timeLe days
    /\ option_map labels
         (chartData
            (stateOf (run Scenario.calm
                        (fetchChartAndIndicatorsData Reference.indicators "ETH"
                           (coins Scenario.loaded) [])
                        (put_selected "ETH" Scenario.loaded))))
       = Some (map localeDate days).
Proof.
  destruct (chart_is_history_oldest_first Reference.indicators Scenario.calm
              (put_selected "ETH" Scenario.loaded) "ETH" (coins Scenario.loaded) []
              _ _ _ _ eq_refl eq_refl eq_refl eq_refl eq_refl)
    as [days [Hperm [Hsorted [Hlabels _]]]].
  exists days. split; [exact Hperm | split; [exact Hsorted | exact Hlabels]].
Defined.

(** X17. After an ok history response without values the chart panel
    shows the no-data message as an error, and in English the news list
    reads that there is no news. *)
Theorem empty_history_panels :
  forall (lib : TechnicalIndicators) (net : Network) (st : AppState)
         (sym : string) (coinList : list CoinData) (closureNews : list NewsItem)
         (currentCoin : CoinData) (response : Response OhlcvJson) (ohlcvJson : OhlcvJson),
    find (fun c => String.eqb (symbol c) sym) coinList = Some currentCoin ->
    net (ohlcvRequest sym) = Responded response ->
    ok response = true ->
    data response = Parsed ohlcvJson ->
    nonEmptyValues ohlcvJson = None ->
    let result := run net (fetchChartAndIndicatorsData lib sym coinList closureNews) st in
    chartPanel (stateOf result) = ChartFailed noOhlcvError
    /\ (language st = en -> newsPanel (stateOf result) = NewsNone).
Proof.
  intros lib net st sym coinList closureNews currentCoin response ohlcvJson
         Hfound Hnet Hok Hdata Hnone result. subst result.
  rewrite (cycle_no_data lib net st sym coinList closureNews currentCoin Hfound
             response ohlcvJson Hnet Hok Hdata Hnone).
  split; [reflexivity | ].
  intros Hen. unfold newsPanel, newsToRender, finished. cbn. rewrite Hen. reflexivity.
Qed.

(** The history endpoint answers [{ values: [] }] for ETH. *)
Lemma empty_history_panels_witness :
  chartPanel
    (stateOf (run Scenario.emptyHistory
                (fetchChartAndIndicatorsData Reference.indicators "ETH"
                   (coins Scenario.loaded) [])
                (put_selected "ETH" Scenario.loaded)))
  = ChartFailed "No OHLCV data found for this coin from Twelve Data.".
Proof.
  exact (proj1 (empty_history_panels Reference.indicators Scenario.emptyHistory
                  (put_selected "ETH" Scenario.loaded) "ETH" (coins Scenario.loaded) []
                  _ _ _ eq_refl eq_refl eq_refl eq_refl eq_refl)).
Defined.

(** ** What the panels show after a failure *)

Lemma panels_after_failure (e : string) (st : AppState) :
  truthy e = true ->
  chartPanel (finished (failedWith e st)) = ChartFailed e
  /\ newsPanel (finished (failedWith e st)) = NewsFailed e.
Proof.
  intros He. unfold chartPanel, newsPanel, finished, failedWith. cbn.
  rewrite He. split; reflexivity.
Qed.

(** X18. After a cycle that fails with a non-empty message [e], at the
    history request or, the history being there, at the analysis request,
    the chart panel shows the error [e] and not a chart, whatever chart
    the state holds, and the news panel shows [e] as well. *)
Theorem failed_cycle_shows_error_not_chart :
  forall (lib : TechnicalIndicators) (net : Network) (st : AppState)
         (sym : string) (coinList : list CoinData) (closureNews : list NewsItem)
         (currentCoin : CoinData) (e : string),
    find (fun c => String.eqb (symbol c) sym) coinList = Some currentCoin ->
    truthy e = true ->
    failureOf ohlcvErrorText (net (ohlcvRequest sym)) = Some e
    \/ (exists response ohlcvJson history,
           net (ohlcvRequest sym) = Responded response
           /\ ok response = true
           /\ data response = Parsed ohlcvJson
           /\ nonEmptyValues ohlcvJson = Some history
           /\ failureOf analysisErrorText
                (net (PostAnalyze (postedBody lib sym currentCoin closureNews history)))
              = Some e) ->
    let result := run net (fetchChartAndIndicatorsData lib sym coinList closureNews) st in
    chartPanel (stateOf result) = ChartFailed e
    /\ newsPanel (stateOf result) = NewsFailed e.
Proof.
  intros lib net st sym coinList closureNews currentCoin e Hfound He Hcase result.
  subst result.
  destruct Hcase as [Hhist | [response [ohlcvJson [history [Hnet [Hok [Hdata [Hv Hai]]]]]]]].
  - rewrite (cycle_history_failure lib net st sym coinList closureNews currentCoin
               Hfound e Hhist).
    apply panels_after_failure, He.
  - rewrite (cycle_analysis_failure lib net st sym coinList closureNews currentCoin
               Hfound response ohlcvJson Hnet Hok Hdata history Hv e Hai).
    apply panels_after_failure, He.
Qed.

(** SOL's history answers 500 while ETH's chart is in the state. *)
Lemma failed_cycle_panel_witness :
  chartData
    (stateOf (run Scenario.solHistoryDown
                (fetchChartAndIndicatorsData Reference.indicators "SOL"
                   (coins Scenario.showingEth) (news Scenario.showingEth))
                (put_selected "SOL" Scenario.showingEth)))
  <> None
  /\ chartPanel
       (stateOf (run Scenario.solHistoryDown
                   (fetchChartAndIndicatorsData Reference.indicators "SOL"
                      (coins Scenario.showingEth) (news Scenario.showingEth))
                   (put_selected "SOL" Scenario.showingEth)))
     = ChartFailed "Twelve Data OHLCV API Error: 500 - upstream timeout".
Proof.
  split; [vm_compute; discriminate | ].
  exact (proj1 (failed_cycle_shows_error_not_chart Reference.indicators
                  Scenario.solHistoryDown (put_selected "SOL" Scenario.showingEth) "SOL"
                  (coins Scenario.showingEth) (news Scenario.showingEth) _
                  "Twelve Data OHLCV API Error: 500 - upstream timeout"
                  eq_refl eq_refl (or_introl eq_refl))).
Defined.

(** ** [truncateText] and the news list *)

Lemma substring0_length (n : nat) (s : string) :
  n <= String.length s -> String.length (substring 0 n s) = n.
Proof. exact (slice0_length n s). Qed.

(** X19. [truncateText] returns a text of at most [maxLength] characters
    as it is, and otherwise its first [maxLength] characters followed by
    three dots; so no title of the news list is longer than 63
    characters. *)
Theorem truncateText_bounds_titles :
  (forall (text : string) (maxLength : nat),
      (String.length text <= maxLength -> truncateText text maxLength = text)
      /\ (maxLength < String.length text ->
          truncateText text maxLength = substring 0 maxLength text ++ "..."
          /\ String.length (truncateText text maxLength) = maxLength + 3
          /\ exists rest, text = substring 0 maxLength text ++ rest)
      /\ String.length (truncateText text maxLength) <= maxLength + 3)
  /\ (forall st : AppState,
         Forall (fun shown => String.length shown <= 63) (newsList st)).
Proof.
  assert (Hgen : forall (text : string) (maxLength : nat),
             (String.length text <= maxLength -> truncateText text maxLength = text)
             /\ (maxLength < String.length text ->
                 truncateText text maxLength = substring 0 maxLength text ++ "..."
                 /\ String.length (truncateText text maxLength) = maxLength + 3
                 /\ exists rest, text = substring 0 maxLength text ++ rest)
             /\ String.length (truncateText text maxLength) <= maxLength + 3).
  { intros text maxLength. unfold truncateText.
    destruct (Nat.leb_spec (String.length text) maxLength) as [Hle | Hgt].
    - split; [reflexivity | split; [lia | lia]].
    - assert (Hlen : String.length (substring 0 maxLength text ++ "...") = maxLength + 3).
      { rewrite string_app_length, substring0_length by lia. reflexivity. }
      split; [lia | split; [ | lia]].
      intros _. split; [reflexivity | split; [exact Hlen | ]].
      apply (slice0_prefix maxLength text). }
  split; [exact Hgen | ].
  intros st. unfold newsList. apply Forall_map. apply Forall_forall.
  intros item _. destruct (Hgen (title item) 60) as [_ [_ Hbound]]. exact Hbound.
Qed.

(** ** A cycle that is not overtaken *)

Module OrchestratorFacts.
Import Orchestrator.

(** Resuming a function once per request is running it to its end. *)
Lemma resumeTimes_run {A : Type} (net : Network) (p : Proc A) :
  forall (st : AppState) (n : nat),
    length (requestsOf (run net p st)) <= n ->
    resumeTimes net n (advance p st)
    = (stateOf (run net p st), ended (outcomeOf (run net p st))).
Proof.
  induction p as [a | e | u k IH | r k IH]; intros st n Hn.
  - cbn. induction n as [ | n IHn]; [reflexivity | cbn; apply IHn; cbn; lia].
  - cbn. induction n as [ | n IHn]; [reflexivity | cbn; apply IHn; cbn; lia].
  - cbn [advance run]. apply IH. exact Hn.
  - cbn [advance]. cbn [run] in *.
    destruct (run net (k (net r)) st) as [[o st'] log] eqn:Hrun.
    cbn [requestsOf snd length] in Hn.
    destruct n as [ | n]; [lia | ].
    cbn [resumeTimes resume fst snd].
    rewrite (IH (net r) st n); rewrite Hrun; [reflexivity | cbn; lia].
Qed.

Lemma nth_error_last {A : Type} (l : list A) (x : A) :
  nth_error (l ++ [x]) (length l) = Some x.
Proof. induction l as [ | y l IH]; [reflexivity | exact IH]. Qed.

Lemma replaceNth_last {A : Type} (l : list A) (x y : A) :
  replaceNth (length l) y (l ++ [x]) = (l ++ [y])%list.
Proof. induction l as [ | z l IH]; [reflexivity | simpl; rewrite IH; reflexivity]. Qed.

(** Responses for the last cycle started, as many as [n]. *)
Lemma resolve_last (lib : TechnicalIndicators) (net : Network) (n : nat) :
  forall (st : AppState) (before : list (Proc unit)) (p : Proc unit),
    replay lib net (repeat (Resolve (length before)) n) (mkWorld st (before ++ [p]))
    = mkWorld (fst (resumeTimes net n (st, p)))
              (before ++ [snd (resumeTimes net n (st, p))]).
Proof.
  induction n as [ | n IH]; intros st before p; [reflexivity | ].
  cbn [repeat replay fold_left step]. unfold resolve. cbn [cycles app].
  rewrite nth_error_last.
  destruct (resume net p st) as [st' p'] eqn:Hres.
  rewrite replaceNth_last.
  change (fold_left (fun w e => step lib net e w) (repeat (Resolve (length before)) n)
            (mkWorld st' (before ++ [p'])))
    with (replay lib net (repeat (Resolve (length before)) n) (mkWorld st' (before ++ [p']))).
  rewrite IH. cbn [resumeTimes fst snd]. rewrite Hres. reflexivity.
Qed.

End OrchestratorFacts.

Lemma inCycleOrder_length (sym : string) (log : list Request) :
  inCycleOrder sym log -> length log <= 3.
Proof.
  destruct log as [ | r1 [ | r2 [ | r3 [ | r4 log]]]]; simpl; try lia.
  destruct r1; try contradiction. destruct r2; try contradiction.
  destruct r3; contradiction.
Qed.

(** X21. A cycle that is not overtaken commits what an uninterrupted run
    of it commits: when a symbol other than the current one is selected
    and the three next responses are those of its cycle, the state is the
    one [fetchChartAndIndicatorsData] reaches when run to its end from the
    new selection, and that cycle is over. *)
Theorem undisturbed_cycle_commits_its_own_run :
  forall (lib : TechnicalIndicators) (net : Network) (w : Orchestrator.World)
         (newSelected : string),
    newSelected <> selected (Orchestrator.app w) ->
    truthy newSelected = true ->
    let k := length (Orchestrator.cycles w) in
    let w' :=
      Orchestrator.replay lib net
        (Orchestrator.Select newSelected :: repeat (Orchestrator.Resolve k) 3) w in
    Orchestrator.app w'
    = stateOf (run net
                 (fetchChartAndIndicatorsData lib newSelected
                    (coins (Orchestrator.app w)) (news (Orchestrator.app w)))
                 (put_selected newSelected (Orchestrator.app w)))
    /\ nth_error (Orchestrator.cycles w') k = Some (Ret tt).
Proof.
  intros lib net w newSelected Hneq Htruthy k w'. subst w'.
  assert (Heqb : String.eqb newSelected (selected (Orchestrator.app w)) = false)
    by (apply String.eqb_neq; exact Hneq).
  cbn [Orchestrator.replay fold_left Orchestrator.step].
  unfold Orchestrator.select. rewrite Heqb.
  unfold detailEffect. cbn [selected put_selected]. rewrite Htruthy.
  change (coins (put_selected newSelected (Orchestrator.app w)))
    with (coins (Orchestrator.app w)).
  change (news (put_selected newSelected (Orchestrator.app w)))
    with (news (Orchestrator.app w)).
  set (st := put_selected newSelected (Orchestrator.app w)).
  set (p := fetchChartAndIndicatorsData lib newSelected (coins (Orchestrator.app w))
              (news (Orchestrator.app w))).
  destruct (Orchestrator.advance p st) as [st1 p1] eqn:Hadv.
  change (fold_left (fun w0 e => Orchestrator.step lib net e w0)
            (repeat (Orchestrator.Resolve k) 3)
            (Orchestrator.mkWorld st1 (Orchestrator.cycles w ++ [p1])))
    with (Orchestrator.replay lib net (repeat (Orchestrator.Resolve k) 3)
            (Orchestrator.mkWorld st1 (Orchestrator.cycles w ++ [p1]))).
  subst k. rewrite OrchestratorFacts.resolve_last. rewrite <- Hadv.
  destruct (detail_cycle_shape lib net st newSelected (coins (Orchestrator.app w))
              (news (Orchestrator.app w))) as [Hout [Horder _]].
  fold p in Hout, Horder.
  rewrite (OrchestratorFacts.resumeTimes_run net p st 3
             (inCycleOrder_length _ _ Horder)).
  cbn [fst snd Orchestrator.app Orchestrator.cycles].
  split; [reflexivity | ].
  rewrite OrchestratorFacts.nth_error_last, Hout. reflexivity.
Qed.

(** ETH is selected with the listings loaded, and its three responses
    arrive. *)
Lemma undisturbed_cycle_witness :
  aiSummary
    (Orchestrator.app
       (Orchestrator.replay Reference.indicators Scenario.calm
          (Orchestrator.Select "ETH" :: repeat (Orchestrator.Resolve 0) 3) Scenario.ready))
  = "Outlook for ETH".
Proof.
  assert (Hneq : "ETH" <> selected (Orchestrator.app Scenario.ready))
    by (vm_compute; discriminate).
  pose proof (proj1 (undisturbed_cycle_commits_its_own_run Reference.indicators
                       Scenario.calm Scenario.ready "ETH" Hneq eq_refl)) as H.
  transitivity
    (aiSummary
       (stateOf (run Scenario.calm
                   (fetchChartAndIndicatorsData Reference.indicators "ETH"
                      (coins (Orchestrator.app Scenario.ready))
                      (news (Orchestrator.app Scenario.ready)))
                   (put_selected "ETH" (Orchestrator.app Scenario.ready))))).
  - exact (f_equal aiSummary H).
  - vm_compute. reflexivity.
Defined.
